(** * mdtopdf_converter: the rule-driven Markdown to styled-HTML renderer

    A shallow embedding of [server/pdfGenerator.ts] together with the
    style defaults of [drizzle/schema.ts], and the properties of the
    renderer, of the document shell builder and of the PDF pipeline.

    Conventions of the embedding.
    - A JavaScript string is a [string]: a sequence of bytes (UTF-8).  The
      five characters the escaper looks for are ASCII, so replacing them
      byte by byte agrees with replacing them code unit by code unit.
    - A JSON value stored in a style slot is a [jsval]; a JSON object used
      as a map (the heading styles) is a [gmap string _].
    - [forEach] with [html += ...] is a left fold over the children.
    - A template literal is the concatenation of its pieces, each hole
      rendered with [toString]. *)

From Stdlib Require Import ZArith String Ascii List Bool Lia DecimalString.
From Stdlib Require DecimalPos DecimalZ.
From stdpp Require Import base strings gmap.
Import ListNotations.

Local Open Scope string_scope.
Local Open Scope Z_scope.

(** ** JavaScript values, truthiness and template holes *)

(** The values a JSON style slot or a loosely typed rule field can hold.
    [JUndefined] is an absent property.  [JNum] is an integer-valued
    number; [JFrac] is a finite number that is not an integer, carried
    with the decimal text JavaScript prints for it (it is never zero, so
    it is always truthy). *)
Inductive jsval : Type :=
  | JUndefined
  | JNull
  | JBool (b : bool)
  | JNum (z : Z)
  | JFrac (repr : string)
  | JStr (s : string).

(** ToBoolean. *)
Definition truthy (v : jsval) : bool :=
  match v with
  | JUndefined | JNull => false
  | JBool b => b
  | JNum z => negb (z =? 0)
  | JFrac _ => true
  | JStr s => negb (String.eqb s "")
  end.

(** [a || b]. *)
Definition jsOr (a b : jsval) : jsval := if truthy a then a else b.

(** Decimal text of an integer, as [Number.prototype.toString] prints it
    (JavaScript switches to exponent notation from 10^21 on; sizes,
    levels and margins are far below). *)
Definition numToString (z : Z) : string := NilZero.string_of_int (Z.to_int z).

(** ToString, as applied to the value of a template hole. *)
Definition toString (v : jsval) : string :=
  match v with
  | JUndefined => "undefined"
  | JNull => "null"
  | JBool true => "true"
  | JBool false => "false"
  | JNum z => numToString z
  | JFrac repr => repr
  | JStr s => s
  end.

(** [v === "lit"]. *)
Definition strictEqStr (v : jsval) (lit : string) : bool :=
  match v with
  | JStr s => String.eqb s lit
  | _ => false
  end.

(** Truthiness of a [string | null] field. *)
Definition truthyText (t : option string) : bool :=
  match t with
  | Some s => negb (String.eqb s "")
  | None => false
  end.

(** [t || d] for a [string | null] field. *)
Definition textOr (t : option string) (d : string) : string :=
  match t with
  | Some s => if String.eqb s "" then d else s
  | None => d
  end.

(** The double quote character, as a one-character string. *)
Definition dq : string := String "034"%char EmptyString.

(** ** Substrings *)

(** [Contains hay needle]: the text [needle] occurs in [hay]. *)
Definition Contains (hay needle : string) : Prop :=
  exists pre post : string, hay = pre ++ needle ++ post.

Fixpoint startsWith (p s : string) : bool :=
  match p, s with
  | EmptyString, _ => true
  | String a p', String b s' => Ascii.eqb a b && startsWith p' s'
  | String _ _, EmptyString => false
  end.

(** [String.prototype.includes]. *)
Fixpoint includes (hay needle : string) : bool :=
  startsWith needle hay ||
  match hay with
  | EmptyString => false
  | String _ hay' => includes hay' needle
  end.

(** [ch c s]: the character [c] occurs in [s]. *)
Fixpoint hasChar (c : ascii) (s : string) : bool :=
  match s with
  | EmptyString => false
  | String a s' => Ascii.eqb a c || hasChar c s'
  end.

(** [anyInClass s]: some character of [s] is one of the five. *)
Fixpoint anyInClassOf (cls : ascii -> bool) (s : string) : bool :=
  match s with
  | EmptyString => false
  | String a s' => cls a || anyInClassOf cls s'
  end.

(** ** The escaper *)

(** The [map] object of [escapeHtml]. *)
Definition escapeMap : list (ascii * string) :=
  [ ("&"%char, "&amp;");
    ("<"%char, "&lt;");
    (">"%char, "&gt;");
    ("034"%char, "&quot;");
    ("'"%char, "&#039;") ].

(** [map[m]]: an own-property lookup; a missing key gives [undefined]. *)
Fixpoint mapGet (m : list (ascii * string)) (k : ascii) : jsval :=
  match m with
  | [] => JUndefined
  | (k', v) :: m' => if Ascii.eqb k' k then JStr v else mapGet m' k
  end.

(** The character class of the regular expression: ampersand, less-than,
    greater-than, double quote, single quote. *)
Definition inClass (c : ascii) : bool :=
  Ascii.eqb c "&" || Ascii.eqb c "<" || Ascii.eqb c ">"
  || Ascii.eqb c "034" || Ascii.eqb c "'".

(** [text.replace(re, (m) => map[m])] with the global flag: every
    character of the class is replaced, left to right, by the text of
    [map[m]]; every other character is kept. *)
Fixpoint escapeHtml (text : string) : string :=
  match text with
  | EmptyString => EmptyString
  | String c rest =>
      (if inClass c then toString (mapGet escapeMap c) else String c EmptyString)
      ++ escapeHtml rest
  end.

(** Reading the five entities back, used to state that the escaper loses
    nothing: it is not part of the program. *)
Fixpoint unescapeHtml (s : string) : string :=
  match s with
  | String "&" (String "a" (String "m" (String "p" (String ";" r)))) =>
      String "&" (unescapeHtml r)
  | String "&" (String "l" (String "t" (String ";" r))) =>
      String "<" (unescapeHtml r)
  | String "&" (String "g" (String "t" (String ";" r))) =>
      String ">" (unescapeHtml r)
  | String "&" (String "q" (String "u" (String "o" (String "t" (String ";" r))))) =>
      String "034" (unescapeHtml r)
  | String "&" (String "#" (String "0" (String "3" (String "9" (String ";" r))))) =>
      String "'" (unescapeHtml r)
  | String c r => String c (unescapeHtml r)
  | EmptyString => EmptyString
  end.


(** ** The structural document tree *)

#[local] Unset Elimination Schemes.

(** An mdast node, with the properties the renderer reads: [type],
    [depth] (the level of a heading), [value], [ordered], [url], [alt] and
    the optional [children] array.  Table rows and table cells are nodes
    too; the renderer reads only their [children]. *)
Inductive node : Type :=
  mkNode {
    node_type : string;
    node_depth : Z;
    node_value : string;
    node_ordered : jsval;
    node_url : string;
    node_alt : option string;
    node_children : option (list node)
  }.

#[local] Set Elimination Schemes.

(** ** The formatting rule *)

(** One entry of the heading-style mapping.  The mapping itself is a
    [gmap] from the keys [h1], [h2], ... to entries: a key without entry
    is an absent (or falsy) property of the JSON object, for which the
    source takes the empty object literal. *)
Record HeadingStyle : Type :=
  mkHeadingStyle {
    hs_fontSize : jsval;
    hs_fontWeight : jsval;
    hs_marginTop : jsval;
    hs_marginBottom : jsval
  }.

(** The empty object literal that stands in for a missing entry. *)
Definition emptyHeadingStyle : HeadingStyle :=
  mkHeadingStyle JUndefined JUndefined JUndefined JUndefined.

Record CodeBlockStyles : Type :=
  mkCodeBlockStyles {
    cs_fontFamily : jsval;
    cs_fontSize : jsval;
    cs_backgroundColor : jsval;
    cs_padding : jsval;
    cs_borderRadius : jsval;
    cs_lineHeight : jsval
  }.

Record TableStyles : Type :=
  mkTableStyles {
    ts_borderColor : jsval;
    ts_headerBackgroundColor : jsval;
    ts_cellPadding : jsval;
    ts_fontSize : jsval
  }.

(** A row of the [formattingRules] table.  The three JSON columns are not
    null, so each is an object; the fields compared or printed by the
    renderer are [jsval]s, since callers build rules from loosely typed
    input. *)
Record FormattingRule : Type :=
  mkFormattingRule {
    id : Z;
    userId : Z;
    name : string;
    description : option string;
    fontFamily : string;
    fontSize : jsval;
    lineHeight : string;
    headingStyles : gmap string HeadingStyle;
    pageSize : jsval;
    marginTop : jsval;
    marginBottom : jsval;
    marginLeft : jsval;
    marginRight : jsval;
    headerText : option string;
    footerText : option string;
    codeBlockStyles : CodeBlockStyles;
    tableStyles : TableStyles;
    pageBreakBeforeHeadings : jsval;
    preventOrphanHeadings : jsval;
    keepCodeBlocksTogether : jsval;
    isPreset : jsval;
    createdAt : Z;
    updatedAt : Z
  }.

(** [DEFAULT_HEADING_STYLES], [DEFAULT_CODE_BLOCK_STYLES] and
    [DEFAULT_TABLE_STYLES] of the schema. *)
Definition numStyle (a b c d : Z) : HeadingStyle :=
  mkHeadingStyle (JNum a) (JNum b) (JNum c) (JNum d).

Definition DEFAULT_HEADING_STYLES : gmap string HeadingStyle :=
  <["h1" := numStyle 32 900 24 12]>
  (<["h2" := numStyle 24 800 20 10]>
  (<["h3" := numStyle 20 700 16 8]>
  (<["h4" := numStyle 16 600 12 6]>
  (<["h5" := numStyle 14 600 10 4]>
  (<["h6" := numStyle 12 600 8 4]> ∅))))).

Definition DEFAULT_CODE_BLOCK_STYLES : CodeBlockStyles :=
  mkCodeBlockStyles (JStr "monospace") (JNum 11) (JStr "#f5f5f5")
                    (JNum 12) (JNum 4) (JFrac "1.4").

Definition DEFAULT_TABLE_STYLES : TableStyles :=
  mkTableStyles (JStr "#ddd") (JStr "#f9f9f9") (JNum 8) (JNum 11).

(** ** The tree-to-markup renderer *)

(** [html += f(child)] for each child, in order, starting from [html]. *)
Definition forEach {A : Type} (f : A -> string) (l : list A) (html : string) : string :=
  fold_left (fun acc child => acc ++ f child) l html.

(** [children?.forEach(...)]: nothing happens when there is no array. *)
Definition forEachOpt {A : Type} (f : A -> string) (l : option (list A)) (html : string) : string :=
  match l with
  | Some l' => forEach f l' html
  | None => html
  end.

(** [forEach((row, rowIndex) => ...)], the index counted from [i]. *)
Fixpoint forEachIdx {A : Type} (f : A -> nat -> string) (l : list A) (i : nat) (html : string) : string :=
  match l with
  | [] => html
  | x :: l' => forEachIdx f l' (S i) (html ++ f x i)
  end.

(** The key of a heading level in the heading-style mapping. *)
Definition headingKey (level : Z) : string := "h" ++ numToString level.

(** The inline style of a heading, and the heading element. *)
Definition headingCss (headingStyle : HeadingStyle) : string :=
  "font-size: " ++ toString (jsOr (hs_fontSize headingStyle) (JNum 16))
  ++ "px; font-weight: " ++ toString (jsOr (hs_fontWeight headingStyle) (JNum 600))
  ++ "; margin-top: " ++ toString (jsOr (hs_marginTop headingStyle) (JNum 12))
  ++ "px; margin-bottom: " ++ toString (jsOr (hs_marginBottom headingStyle) (JNum 6))
  ++ "px;".

Definition headingHtml (level : Z) (headingStyle : HeadingStyle) (content : string) : string :=
  "<h" ++ numToString level ++ " style=" ++ dq ++ headingCss headingStyle ++ dq ++ ">"
  ++ content ++ "</h" ++ numToString level ++ ">".

(** Inline code. *)
Definition inlineCodeCss (codeStyle : CodeBlockStyles) : string :=
  "font-family: " ++ toString (jsOr (cs_fontFamily codeStyle) (JStr "monospace"))
  ++ "; font-size: " ++ toString (jsOr (cs_fontSize codeStyle) (JNum 11))
  ++ "px; background-color: " ++ toString (jsOr (cs_backgroundColor codeStyle) (JStr "#f5f5f5"))
  ++ "; padding: 2px 4px; border-radius: 3px;".

Definition inlineCodeHtml (codeStyle : CodeBlockStyles) (value : string) : string :=
  "<code style=" ++ dq ++ inlineCodeCss codeStyle ++ dq ++ ">"
  ++ escapeHtml value ++ "</code>".

(** A fenced code block. *)
Definition preCss (codeStyle : CodeBlockStyles) : string :=
  "font-family: " ++ toString (jsOr (cs_fontFamily codeStyle) (JStr "monospace"))
  ++ "; font-size: " ++ toString (jsOr (cs_fontSize codeStyle) (JNum 11))
  ++ "px; background-color: " ++ toString (jsOr (cs_backgroundColor codeStyle) (JStr "#f5f5f5"))
  ++ "; padding: " ++ toString (jsOr (cs_padding codeStyle) (JNum 12))
  ++ "px; border-radius: " ++ toString (jsOr (cs_borderRadius codeStyle) (JNum 4))
  ++ "px; overflow-x: auto; line-height: " ++ toString (jsOr (cs_lineHeight codeStyle) (JFrac "1.4"))
  ++ ";".

Definition codeHtml (codeStyle : CodeBlockStyles) (value : string) : string :=
  let content := escapeHtml value in
  "<pre style=" ++ dq ++ preCss codeStyle ++ dq ++ "><code>" ++ content ++ "</code></pre>".

(** A list. *)
Definition listTag (ordered : jsval) : string := if truthy ordered then "ol" else "ul".

Definition listCss (depth : Z) : string :=
  "margin-left: " ++ numToString (20 + depth * 20) ++ "px; margin-bottom: 1em;".

Definition listHtml (ordered : jsval) (depth : Z) (content : string) : string :=
  let tag := listTag ordered in
  "<" ++ tag ++ " style=" ++ dq ++ listCss depth ++ dq ++ ">" ++ content ++ "</" ++ tag ++ ">".

(** A table: its opening, the opening of a row, and a cell. *)
Definition tableOpen (tableStyle : TableStyles) : string :=
  "<table style=" ++ dq
  ++ "border-collapse: collapse; width: 100%; margin-bottom: 1em; border: 1px solid "
  ++ toString (jsOr (ts_borderColor tableStyle) (JStr "#ddd"))
  ++ ";" ++ dq ++ "><tbody>".

Definition rowBackground (tableStyle : TableStyles) (isHeader : bool) : string :=
  if isHeader
  then toString (jsOr (ts_headerBackgroundColor tableStyle) (JStr "#f9f9f9"))
  else "white".

Definition rowOpen (tableStyle : TableStyles) (isHeader : bool) : string :=
  "<tr style=" ++ dq ++ "background-color: " ++ rowBackground tableStyle isHeader
  ++ ";" ++ dq ++ ">".

Definition cellCss (tableStyle : TableStyles) : string :=
  "border: 1px solid " ++ toString (jsOr (ts_borderColor tableStyle) (JStr "#ddd"))
  ++ "; padding: " ++ toString (jsOr (ts_cellPadding tableStyle) (JNum 8))
  ++ "px; font-size: " ++ toString (jsOr (ts_fontSize tableStyle) (JNum 11))
  ++ "px;".

Definition cellHtml (tableStyle : TableStyles) (tag : string) (cellContent : string) : string :=
  "<" ++ tag ++ " style=" ++ dq ++ cellCss tableStyle ++ dq ++ ">"
  ++ cellContent ++ "</" ++ tag ++ ">".

Definition linkHtml (url : string) (content : string) : string :=
  "<a href=" ++ dq ++ escapeHtml url ++ dq ++ " style=" ++ dq
  ++ "color: #0066cc; text-decoration: underline;" ++ dq ++ ">" ++ content ++ "</a>".

Definition imageHtml (url : string) (alt : option string) : string :=
  "<img src=" ++ dq ++ escapeHtml url ++ dq
  ++ " alt=" ++ dq
  ++ escapeHtml (textOr alt "")
  ++ dq ++ " style=" ++ dq ++ "max-width: 100%; height: auto; margin: 1em 0;" ++ dq ++ " />".

Definition blockquoteHtml (content : string) : string :=
  "<blockquote style=" ++ dq
  ++ "border-left: 4px solid #ccc; padding-left: 12px; margin-left: 0; font-style: italic; color: #666;"
  ++ dq ++ ">" ++ content ++ "</blockquote>".

Definition paragraphHtml (rules : FormattingRule) (content : string) : string :=
  "<p style=" ++ dq ++ "margin-bottom: 1em; line-height: " ++ lineHeight rules ++ ";"
  ++ dq ++ ">" ++ content ++ "</p>".

Definition hrHtml : string :=
  "<hr style=" ++ dq ++ "border: none; border-top: 1px solid #ccc; margin: 2em 0;" ++ dq ++ " />".

(** The body of [astToHtml(node, rules, depth)], with [self] standing for
    the function itself in the recursive calls.  The source renders the
    children of a container by calling itself on a fresh root node
    holding the same [children]; the root branch only folds over them, so
    the embedding folds over them in place ([astToHtml_root] below shows
    that this is the same text). *)
Definition renderNode (self : node -> FormattingRule -> Z -> string)
    (n : node) (rules : FormattingRule) (depth : Z) : string :=
  let children_at (cs : option (list node)) (d : Z) : string :=
    forEachOpt (fun child => self child rules d) cs "" in
  match n with
  | mkNode type level value ordered url alt children =>
    if String.eqb type "root" then
      forEachOpt (fun child => self child rules depth) children ""
    else if String.eqb type "heading" then
      let headingStyle :=
        match headingStyles rules !! headingKey level with
        | Some st => st
        | None => emptyHeadingStyle
        end in
      headingHtml level headingStyle (children_at children depth)
    else if String.eqb type "paragraph" then
      paragraphHtml rules (children_at children depth)
    else if String.eqb type "text" then
      escapeHtml value
    else if String.eqb type "emphasis" then
      "<em>" ++ children_at children depth ++ "</em>"
    else if String.eqb type "strong" then
      "<strong>" ++ children_at children depth ++ "</strong>"
    else if String.eqb type "inlineCode" then
      inlineCodeHtml (codeBlockStyles rules) value
    else if String.eqb type "code" then
      codeHtml (codeBlockStyles rules) value
    else if String.eqb type "list" then
      listHtml ordered depth (children_at children (depth + 1))
    else if String.eqb type "listItem" then
      "<li>" ++ children_at children depth ++ "</li>"
    else if String.eqb type "blockquote" then
      blockquoteHtml (children_at children depth)
    else if String.eqb type "table" then
      let tableStyle := tableStyles rules in
      let tableHtml := tableOpen tableStyle in
      let tableHtml :=
        match children with
        | None => tableHtml
        | Some rows =>
            forEachIdx
              (fun row rowIndex =>
                 let isHeader := Nat.eqb rowIndex 0 && Nat.ltb 1 (List.length rows) in
                 let tag := if isHeader then "th" else "td" in
                 forEachOpt
                   (fun cell => cellHtml tableStyle tag (children_at (node_children cell) depth))
                   (node_children row)
                   (rowOpen tableStyle isHeader)
                 ++ "</tr>")
              rows 0%nat tableHtml
        end in
      tableHtml ++ "</tbody></table>"
    else if String.eqb type "link" then
      linkHtml url (children_at children depth)
    else if String.eqb type "image" then
      imageHtml url alt
    else if String.eqb type "thematicBreak" then
      hrHtml
    else
      forEachOpt (fun child => self child rules depth) children ""
  end.

(** [astToHtml(node, rules, depth)]. *)
Fixpoint astToHtml (n : node) (rules : FormattingRule) (depth : Z) {struct n} : string :=
  renderNode astToHtml n rules depth.

(** ** The document shell builder *)

(** The fixed text of the template of [generateStyledHtml], cut at its
    holes. *)
Definition shellHead : string :=
  "
<!DOCTYPE html>
<html lang=" ++ dq ++ "en" ++ dq ++ ">
<head>
  <meta charset=" ++ dq ++ "UTF-8" ++ dq ++ ">
  <meta name=" ++ dq ++ "viewport" ++ dq ++ " content=" ++ dq ++ "width=device-width, initial-scale=1.0" ++ dq ++ ">
  <title>PDF Document</title>
  <style>
    * {
      margin: 0;
      padding: 0;
      box-sizing: border-box;
    }

    ".

Definition shellAfterPage : string :=
  "
    }

    body {
      font-family: '".

Definition shellAfterBody : string :=
  ";
      color: #333;
    }

    h1, h2, h3, h4, h5, h6 {
      page-break-after: avoid;
    }

    ".

Definition shellElementRules : string :=
  "

    pre {
      page-break-inside: avoid;
    }

    table {
      page-break-inside: avoid;
    }

    img {
      page-break-inside: avoid;
    }

    p {
      margin-bottom: 1em;
    }

    ul, ol {
      margin-left: 20px;
      margin-bottom: 1em;
    }

    blockquote {
      border-left: 4px solid #ccc;
      padding-left: 12px;
      margin-left: 0;
      font-style: italic;
      color: #666;
      margin-bottom: 1em;
    }

    code {
      font-family: 'Courier New', monospace;
      background-color: #f5f5f5;
      padding: 2px 4px;
      border-radius: 3px;
    }

    pre code {
      padding: 0;
      background-color: transparent;
    }
  </style>
</head>
<body>
  ".

Definition shellTail : string :=
  "
</body>
</html>
  ".

(** A page-margin box of the [@page] rule: present when the text is
    truthy, and then it carries the escaped text. *)
Definition marginBox (box : string) (text : option string) : string :=
  if truthyText text
  then "@" ++ box ++ " { content: " ++ dq ++ escapeHtml (textOr text "") ++ dq ++ "; }"
  else "".

Definition h1BreakRule : string := "h1 { page-break-before: always; }".
Definition h2BreakRule : string := "h2 { page-break-before: always; }".
Definition orphanRule : string :=
  "h1, h2, h3 { page-break-after: avoid; orphans: 3; widows: 3; }".

(** [generateStyledHtml(content, rules)]. *)
Definition generateStyledHtml (content : string) (rules : FormattingRule) : string :=
  let size := if strictEqStr (pageSize rules) "Letter" then "8.5in 11in" else "210mm 297mm" in
  let top := toString (marginTop rules) ++ "mm" in
  let bottom := toString (marginBottom rules) ++ "mm" in
  let left := toString (marginLeft rules) ++ "mm" in
  let right := toString (marginRight rules) ++ "mm" in
  shellHead ++ "@page {
      size: " ++ size ++ ";
      margin: "
  ++ top ++ " " ++ right ++ " " ++ bottom ++ " " ++ left ++ ";
      "
  ++ marginBox "top-center" (headerText rules) ++ "
      "
  ++ marginBox "bottom-center" (footerText rules)
  ++ shellAfterPage ++ fontFamily rules ++ "', sans-serif;
      font-size: "
  ++ toString (fontSize rules) ++ "px;
      line-height: "
  ++ lineHeight rules ++ shellAfterBody
  ++ (if strictEqStr (pageBreakBeforeHeadings rules) "h1" then h1BreakRule else "") ++ "
    "
  ++ (if strictEqStr (pageBreakBeforeHeadings rules) "h2" then h2BreakRule else "") ++ "

    "
  ++ (if truthy (preventOrphanHeadings rules) then orphanRule else "")
  ++ shellElementRules ++ content ++ shellTail.

(** ** The rendering core *)

Section Core.

(** The Markdown parser ([unified] with [remark-parse] and [remark-gfm])
    is an external library: a function from the source text to the
    document tree. *)
Variable parse : string -> node.

(** [markdownToHtml(markdown, rules)]; [astToHtml] is called with its
    default depth, 0. *)
Definition markdownToHtml (markdown : string) (rules : FormattingRule) : string :=
  let ast := parse markdown in
  let htmlContent := astToHtml ast rules 0 in
  generateStyledHtml htmlContent rules.

End Core.

(** ** The PDF pipeline *)

(** A thrown JavaScript error. *)
Inductive JsError : Type := mkError (message : string).

(** How a call ends: with a value, or by throwing. *)
Inductive outcome (A : Type) : Type :=
  | Returned (a : A)
  | Thrown (e : JsError).
Arguments Returned {A} a.
Arguments Thrown {A} e.

(** The calls made on the print engine, in the order they are made. *)
Inductive Event : Type :=
  | EvConnect (browserWSEndpoint : string)
  | EvLaunch (executablePath : string)
  | EvNewPage
  | EvSetContent (html : string)
  | EvPdf (format top bottom left right : string)
  | EvDisconnect
  | EvClose.

(** Everything outside the program that a run of the pipeline consults:
    the two environment variables, the file system, and how each call on
    the engine ends. *)
Record World : Type :=
  mkWorld {
    BROWSER_WS_ENDPOINT : option string;
    CHROME_PATH : option string;
    existsSync : string -> outcome bool;
    connect : string -> outcome unit;
    launch : string -> outcome unit;
    newPage : outcome unit;
    setContent : string -> outcome unit;
    pdf : outcome string;
    disconnect : outcome unit;
    close : outcome unit
  }.

(** A computation: the calls it made on the engine and how it ended. *)
Definition M (A : Type) : Type := (list Event * outcome A)%type.

Definition ret {A : Type} (a : A) : M A := ([], Returned a).

Definition throw {A : Type} (e : JsError) : M A := ([], Thrown e).

Definition bind {A B : Type} (m : M A) (k : A -> M B) : M B :=
  match m with
  | (t1, Returned a) => let (t2, r) := k a in ((t1 ++ t2)%list, r)
  | (t1, Thrown e) => (t1, Thrown e)
  end.

Notation "'await' x <~ m ;; k" := (bind m (fun x => k))
  (at level 10, x name, m at level 99, k at level 200).

(** An awaited call on the engine. *)
Definition call {A : Type} (ev : Event) (r : outcome A) : M A := ([ev], r).

(** [try { body } finally { fin }]: [fin] always runs; when it throws, its
    error is the outcome, otherwise the outcome is that of [body]. *)
Definition tryFinally {A : Type} (body : M A) (fin : M unit) : M A :=
  let (t1, r1) := body in
  let (t2, r2) := fin in
  ((t1 ++ t2)%list, match r2 with Thrown e => Thrown e | Returned _ => r1 end).

(** The candidate paths of a local Chrome, after [filter(Boolean)]. *)
Definition chromePaths (w : World) : list string :=
  ((if truthyText (CHROME_PATH w) then [textOr (CHROME_PATH w) ""] else [])
  ++ [ "C:\Program Files\Google\Chrome\Application\chrome.exe";
       "C:\Program Files (x86)\Google\Chrome\Application\chrome.exe";
       "/usr/bin/google-chrome";
       "/usr/bin/chromium-browser";
       "/Applications/Google Chrome.app/Contents/MacOS/Google Chrome" ])%list.

(** The search loop: the first path that exists; a check that throws is
    caught and the loop continues. *)
Fixpoint findExecutable (w : World) (paths : list string) : option string :=
  match paths with
  | [] => None
  | p :: rest =>
      match existsSync w p with
      | Returned true => Some p
      | _ => findExecutable w rest
      end
  end.

(** Acquiring the engine: connecting to the endpoint when one is set,
    otherwise launching a local Chrome. *)
Definition acquire (w : World) : M unit :=
  if truthyText (BROWSER_WS_ENDPOINT w) then
    let ep := textOr (BROWSER_WS_ENDPOINT w) "" in
    call (EvConnect ep) (connect w ep)
  else
    match findExecutable w (chromePaths w) with
    | None =>
        throw (mkError
          "Chrome not found. Set BROWSER_WS_ENDPOINT or CHROME_PATH environment variable.")
    | Some executablePath => call (EvLaunch executablePath) (launch w executablePath)
    end.

(** The body of the [try] block. *)
Definition printPage (w : World) (html : string) (rules : FormattingRule) : M string :=
  await _ <~ call EvNewPage (newPage w) ;;
  await _ <~ call (EvSetContent html) (setContent w html) ;;
  let format := if strictEqStr (pageSize rules) "Letter" then "Letter" else "A4" in
  await pdfBuffer <~ call (EvPdf format
                      (toString (marginTop rules) ++ "mm")
                      (toString (marginBottom rules) ++ "mm")
                      (toString (marginLeft rules) ++ "mm")
                      (toString (marginRight rules) ++ "mm"))
                    (pdf w) ;;
  ret pdfBuffer.

(** The [finally] block. *)
Definition release (w : World) : M unit :=
  if truthyText (BROWSER_WS_ENDPOINT w)
  then call EvDisconnect (disconnect w)
  else call EvClose (close w).

Section Pipeline.

Variable parse : string -> node.

(** [generatePdfFromMarkdown(markdown, rules)]. *)
Definition generatePdfFromMarkdown (w : World) (markdown : string) (rules : FormattingRule)
  : M string :=
  let html := markdownToHtml parse markdown rules in
  await _ <~ acquire w ;;
  tryFinally (printPage w html rules) (release w).

End Pipeline.

(** ** Building trees *)

Definition container (type : string) (children : list node) : node :=
  mkNode type 0 "" JUndefined "" None (Some children).

Definition root (children : option (list node)) : node :=
  mkNode "root" 0 "" JUndefined "" None children.

Definition text (value : string) : node :=
  mkNode "text" 0 value JUndefined "" None None.

Definition heading (level : Z) (children : option (list node)) : node :=
  mkNode "heading" level "" JUndefined "" None children.

Definition paragraph (children : list node) : node := container "paragraph" children.

Definition inlineCode (value : string) : node :=
  mkNode "inlineCode" 0 value JUndefined "" None None.

Definition code (value : string) : node :=
  mkNode "code" 0 value JUndefined "" None None.

Definition list_ (ordered : jsval) (children : option (list node)) : node :=
  mkNode "list" 0 "" ordered "" None children.

Definition listItem (children : option (list node)) : node :=
  mkNode "listItem" 0 "" JUndefined "" None children.

Definition table (rows : option (list node)) : node :=
  mkNode "table" 0 "" JUndefined "" None rows.

Definition tableRow (cells : list node) : node := container "tableRow" cells.

Definition tableCell (children : list node) : node := container "tableCell" children.


Definition image (url : string) (alt : option string) : node :=
  mkNode "image" 0 "" JUndefined url alt None.

(** The number of nodes of a tree. *)
Fixpoint node_size (n : node) : nat :=
  match n with
  | mkNode _ _ _ _ _ _ children =>
      S (match children with
         | Some cs => list_sum (map node_size cs)
         | None => 0
         end)
  end.

(** ** Building rules *)

(** The rule of the test suite ([mockFormattingRule]). *)
Definition mockFormattingRule : FormattingRule :=
  {| id := 1; userId := 1; name := "Default"; description := None;
     fontFamily := "Inter"; fontSize := JNum 12; lineHeight := "1.50";
     headingStyles := DEFAULT_HEADING_STYLES;
     pageSize := JStr "A4";
     marginTop := JNum 20; marginBottom := JNum 20;
     marginLeft := JNum 20; marginRight := JNum 20;
     headerText := None; footerText := None;
     codeBlockStyles := DEFAULT_CODE_BLOCK_STYLES;
     tableStyles := DEFAULT_TABLE_STYLES;
     pageBreakBeforeHeadings := JStr "h1";
     preventOrphanHeadings := JNum 1;
     keepCodeBlocksTogether := JNum 1;
     isPreset := JNum 0;
     createdAt := 0; updatedAt := 0 |}.

(** Copies of a rule with some fields replaced, as the spread syntax
    [{ ...rule, field: value }] builds them. *)
Definition withHeaderFooter (r : FormattingRule) (header footer : option string) : FormattingRule :=
  match r with
  | mkFormattingRule a b c d e f g h i j k l m _ _ p q s t u v x y =>
      mkFormattingRule a b c d e f g h i j k l m header footer p q s t u v x y
  end.

Definition withPage (r : FormattingRule) (size top bottom left right : jsval) : FormattingRule :=
  match r with
  | mkFormattingRule a b c d e f g h _ _ _ _ _ n o p q s t u v x y =>
      mkFormattingRule a b c d e f g h size top bottom left right n o p q s t u v x y
  end.

Definition withPagination (r : FormattingRule) (breakBefore preventOrphans : jsval) : FormattingRule :=
  match r with
  | mkFormattingRule a b c d e f g h i j k l m n o p q _ _ u v x y =>
      mkFormattingRule a b c d e f g h i j k l m n o p q breakBefore preventOrphans u v x y
  end.

Definition withStyles (r : FormattingRule) (hs : gmap string HeadingStyle)
    (cs : CodeBlockStyles) (ts : TableStyles) : FormattingRule :=
  match r with
  | mkFormattingRule a b c d e f g _ i j k l m n o _ _ s t u v x y =>
      mkFormattingRule a b c d e f g hs i j k l m n o cs ts s t u v x y
  end.

(** The record fields the renderer never reads. *)
Definition withMeta (r : FormattingRule) (id' userId' : Z) (name' : string)
    (description' : option string) (keep preset : jsval) (created updated : Z) : FormattingRule :=
  match r with
  | mkFormattingRule _ _ _ _ e f g h i j k l m n o p q s t _ _ _ _ =>
      mkFormattingRule id' userId' name' description' e f g h i j k l m n o p q s t
                       keep preset created updated
  end.

(** ** Definitions of the specification *)



(** The heading element as the specification words it, given the four
    style texts. *)
Definition headingElement (level : Z) (fontSize' fontWeight' marginTop' marginBottom' : string)
    (content : string) : string :=
  "<h" ++ numToString level ++ " style=" ++ dq
  ++ ("font-size: " ++ fontSize' ++ "px; font-weight: " ++ fontWeight'
      ++ "; margin-top: " ++ marginTop' ++ "px; margin-bottom: " ++ marginBottom' ++ "px;")
  ++ dq ++ ">" ++ content ++ "</h" ++ numToString level ++ ">".

(** A list element as the specification words it, given its left margin
    in px. *)
Definition listElement (ordered : bool) (marginLeft' : Z) (content : string) : string :=
  "<" ++ (if ordered then "ol" else "ul") ++ " style=" ++ dq
  ++ ("margin-left: " ++ numToString marginLeft' ++ "px; margin-bottom: 1em;")
  ++ dq ++ ">" ++ content ++ "</" ++ (if ordered then "ol" else "ul") ++ ">".

(** A table row as the specification words it: header rows have [th]
    cells on the configured header background, data rows have [td] cells
    on a white background. *)
Definition rowElement (rules : FormattingRule) (depth : Z) (header : bool) (row : node) : string :=
  "<tr style=" ++ dq ++ "background-color: "
  ++ (if header
      then toString (jsOr (ts_headerBackgroundColor (tableStyles rules)) (JStr "#f9f9f9"))
      else "white")
  ++ ";" ++ dq ++ ">"
  ++ forEachOpt
       (fun cell =>
          cellHtml (tableStyles rules) (if header then "th" else "td")
                   (astToHtml (root (node_children cell)) rules depth))
       (node_children row) ""
  ++ "</tr>".

(** [EndsWith s suffix]: the text [s] ends with [suffix]. *)
Definition EndsWith (s suffix : string) : Prop :=
  exists pre : string, s = pre ++ suffix.

(** The node types the renderer has a branch for. *)
Definition knownTypes : list string :=
  [ "root"; "heading"; "paragraph"; "text"; "emphasis"; "strong"; "inlineCode";
    "code"; "list"; "listItem"; "blockquote"; "table"; "link"; "image";
    "thematicBreak" ].

(** ** Rules that render alike *)

(** The style a heading of a given level is rendered with. *)
Definition headingStyleOf (rules : FormattingRule) (level : Z) : HeadingStyle :=
  match headingStyles rules !! headingKey level with
  | Some st => st
  | None => emptyHeadingStyle
  end.

(** [RenderEquiv r1 r2]: the two rules give the same text to every piece
    of inline style the renderer prints. *)
Definition RenderEquiv (r1 r2 : FormattingRule) : Prop :=
  lineHeight r1 = lineHeight r2
  /\ (forall level : Z,
        headingCss (headingStyleOf r1 level) = headingCss (headingStyleOf r2 level))
  /\ inlineCodeCss (codeBlockStyles r1) = inlineCodeCss (codeBlockStyles r2)
  /\ preCss (codeBlockStyles r1) = preCss (codeBlockStyles r2)
  /\ tableOpen (tableStyles r1) = tableOpen (tableStyles r2)
  /\ (forall header : bool,
        rowOpen (tableStyles r1) header = rowOpen (tableStyles r2) header)
  /\ cellCss (tableStyles r1) = cellCss (tableStyles r2).

(** A falsy style value behaves as an absent one. *)
Definition normalizeValue (v : jsval) : jsval := if truthy v then v else JUndefined.

Definition normalizeHeadingStyle (st : HeadingStyle) : HeadingStyle :=
  mkHeadingStyle (normalizeValue (hs_fontSize st)) (normalizeValue (hs_fontWeight st))
                 (normalizeValue (hs_marginTop st)) (normalizeValue (hs_marginBottom st)).

Definition normalizeCodeBlockStyles (cs : CodeBlockStyles) : CodeBlockStyles :=
  mkCodeBlockStyles (normalizeValue (cs_fontFamily cs)) (normalizeValue (cs_fontSize cs))
                    (normalizeValue (cs_backgroundColor cs)) (normalizeValue (cs_padding cs))
                    (normalizeValue (cs_borderRadius cs)) (normalizeValue (cs_lineHeight cs)).

Definition normalizeTableStyles (ts : TableStyles) : TableStyles :=
  mkTableStyles (normalizeValue (ts_borderColor ts))
                (normalizeValue (ts_headerBackgroundColor ts))
                (normalizeValue (ts_cellPadding ts)) (normalizeValue (ts_fontSize ts)).

(** The rule with every falsy style field removed. *)
Definition normalizeRule (rules : FormattingRule) : FormattingRule :=
  withStyles rules
    (normalizeHeadingStyle <$> headingStyles rules)
    (normalizeCodeBlockStyles (codeBlockStyles rules))
    (normalizeTableStyles (tableStyles rules)).

(** ** Runs of the pipeline *)

(** The call that releases the engine of a world. *)
Definition releaseEvent (w : World) : Event :=
  if truthyText (BROWSER_WS_ENDPOINT w) then EvDisconnect else EvClose.

(** How the release call of a world ends. *)
Definition releaseOutcome (w : World) : outcome unit :=
  if truthyText (BROWSER_WS_ENDPOINT w) then disconnect w else close w.

Definition isRelease (ev : Event) : bool :=
  match ev with
  | EvDisconnect | EvClose => true
  | _ => false
  end.

(** A parser for the examples: every source is the empty document. *)
Definition emptyParse (markdown : string) : node := root (Some []).

(** A world with a remote engine on which setting the content fails, and
    then disconnecting fails too. *)
Definition failingWorld : World :=
  {| BROWSER_WS_ENDPOINT := Some "ws://engine:3000";
     CHROME_PATH := None;
     existsSync := fun _ => Returned false;
     connect := fun _ => Returned tt;
     launch := fun _ => Returned tt;
     newPage := Returned tt;
     setContent := fun _ => Thrown (mkError "setContent timed out");
     pdf := Returned "%PDF";
     disconnect := Thrown (mkError "disconnect failed");
     close := Returned tt |}.

(** A world with a local Chrome where every call succeeds. *)
Definition localWorld : World :=
  {| BROWSER_WS_ENDPOINT := None;
     CHROME_PATH := None;
     existsSync := fun p => Returned (String.eqb p "/usr/bin/google-chrome");
     connect := fun _ => Returned tt;
     launch := fun _ => Returned tt;
     newPage := Returned tt;
     setContent := fun _ => Returned tt;
     pdf := Returned "%PDF";
     disconnect := Returned tt;
     close := Returned tt |}.

(** ** The documents of the test suite *)

(** A parser that answers with a given tree, for the trees that the
    Markdown sources of the test suite parse to. *)
Definition parsesTo (ast : node) (markdown : string) : node := ast.

Definition helloTree : node :=
  root (Some [heading 1 (Some [text "Hello World"]);
              paragraph [text "This is a paragraph."]]).

Definition fencedTree : node := root (Some [code "const x = 1;"]).

Definition ampersandTree : node :=
  root (Some [paragraph [text "This has & characters"]]).

Definition headingsTree : node :=
  root (Some [heading 1 (Some [text "H1"]); heading 2 (Some [text "H2"]);
              heading 3 (Some [text "H3"])]).

(** Every needle occurs in the text. *)
Definition includesAll (html : string) (needles : list string) : bool :=
  forallb (includes html) needles.

(** ** Descendants that the renderer visits *)

(** [listFree n]: no node of the tree [n] is a list. *)
Fixpoint listFree (n : node) : bool :=
  match n with
  | mkNode type _ _ _ _ _ children =>
      negb (String.eqb type "list")
      && match children with
         | Some cs => forallb listFree cs
         | None => true
         end
  end.

(** The node types whose branch renders the [children] array; the other
    branches ([text], [inlineCode], [code], [image], [thematicBreak]) do
    not look at it, and [table] goes through its rows and cells. *)
Definition rendersChildren (type : string) : bool :=
  negb (existsb (String.eqb type)
          ["text"; "inlineCode"; "code"; "table"; "image"; "thematicBreak"]).

(** [Visits n m]: rendering [n] renders [m], which is [n] itself, a child
    of a node that renders its children, or a child of a cell of a row of
    a table, and so on downwards. *)
Inductive Visits : node -> node -> Prop :=
  | Visits_self (n : node) : Visits n n
  | Visits_child (n c m : node) (cs : list node) :
      rendersChildren (node_type n) = true ->
      node_children n = Some cs -> In c cs ->
      Visits c m -> Visits n m
  | Visits_cell (n row cell c m : node) (rows cells cs : list node) :
      node_type n = "table" ->
      node_children n = Some rows -> In row rows ->
      node_children row = Some cells -> In cell cells ->
      node_children cell = Some cs -> In c cs ->
      Visits c m -> Visits n m.

(** ** Worlds that differ in the local Chrome only *)

(** The world [w] with another [CHROME_PATH], another file system, and
    other outcomes of launching and closing a local Chrome. *)
Definition withLocalChrome (w : World) (chromePath : option string)
    (exists' : string -> outcome bool) (launch' : string -> outcome unit)
    (close' : outcome unit) : World :=
  {| BROWSER_WS_ENDPOINT := BROWSER_WS_ENDPOINT w;
     CHROME_PATH := chromePath;
     existsSync := exists';
     connect := connect w;
     launch := launch';
     newPage := newPage w;
     setContent := setContent w;
     pdf := pdf w;
     disconnect := disconnect w;
     close := close' |}.

(** A world without endpoint where only the Chrome named by
    [CHROME_PATH] and the Chromium of a Linux system exist, and where the
    check of the first fixed path throws. *)
Definition customChromeWorld : World :=
  {| BROWSER_WS_ENDPOINT := Some "";
     CHROME_PATH := Some "/opt/chrome/chrome";
     existsSync := fun p =>
       if String.eqb p "C:\Program Files\Google\Chrome\Application\chrome.exe"
       then Thrown (mkError "EACCES")
       else Returned (String.eqb p "/opt/chrome/chrome"
                      || String.eqb p "/usr/bin/chromium-browser");
     connect := fun _ => Returned tt;
     launch := fun _ => Returned tt;
     newPage := Returned tt;
     setContent := fun _ => Returned tt;
     pdf := Thrown (mkError "printing failed");
     disconnect := Returned tt;
     close := Returned tt |}.

(** The physical size the stylesheet gives to a print format. *)
Definition formatDimensions (format : string) : string :=
  if String.eqb format "Letter" then "8.5in 11in" else "210mm 297mm".

(** [StartsWith s p]: the text [s] starts with [p]. *)
Definition StartsWith (s p : string) : Prop :=
  exists post : string, s = p ++ post.

(** ** The objects of the database layer ([server/db.ts]) *)

(** [a || d] on an optional number: absent and 0 give the default. *)
Definition numOr (v : option Z) (d : Z) : Z :=
  match v with
  | Some z => if z =? 0 then d else z
  | None => d
  end.

(** [a ?? d] on an optional number: only absent gives the default. *)
Definition numNullish (v : option Z) (d : Z) : Z :=
  match v with
  | Some z => z
  | None => d
  end.

(** [a || null] on an optional number and on an optional text. *)
Definition numOrNull (v : option Z) : option Z :=
  match v with
  | Some z => if z =? 0 then None else Some z
  | None => None
  end.

Definition textOrNull (v : option string) : option string :=
  match v with
  | Some s => if String.eqb s "" then None else Some s
  | None => None
  end.

(** [a || d] on an optional object: an object, even an empty one, is kept. *)
Definition objOr {A : Type} (v : option A) (d : A) : A :=
  match v with
  | Some a => a
  | None => d
  end.

(** The [data] argument of [createFormattingRule]. *)
Module RuleData.
Record t : Type :=
  mk {
    name : string;
    description : option string;
    fontFamily : option string;
    fontSize : option Z;
    lineHeight : option string;
    headingStyles : option (gmap string HeadingStyle);
    pageSize : option string;
    marginTop : option Z;
    marginBottom : option Z;
    marginLeft : option Z;
    marginRight : option Z;
    headerText : option string;
    footerText : option string;
    codeBlockStyles : option CodeBlockStyles;
    tableStyles : option TableStyles;
    pageBreakBeforeHeadings : option string;
    preventOrphanHeadings : option Z;
    keepCodeBlocksTogether : option Z;
    isPreset : option Z
  }.
End RuleData.

(** The [rule] object that [createFormattingRule] inserts. *)
Module NewRule.
Record t : Type :=
  mk {
    userId : Z;
    name : string;
    description : option string;
    fontFamily : string;
    fontSize : Z;
    lineHeight : string;
    headingStyles : gmap string HeadingStyle;
    pageSize : string;
    marginTop : Z;
    marginBottom : Z;
    marginLeft : Z;
    marginRight : Z;
    headerText : option string;
    footerText : option string;
    codeBlockStyles : CodeBlockStyles;
    tableStyles : TableStyles;
    pageBreakBeforeHeadings : string;
    preventOrphanHeadings : Z;
    keepCodeBlocksTogether : Z;
    isPreset : Z
  }.
End NewRule.

(** The status of a conversion. *)
Inductive Status : Type := Pending | Completed | Failed.

(** The [data] argument of [createConversion]. *)
Module ConversionData.
Record t : Type :=
  mk {
    formattingRuleId : option Z;
    markdownTitle : option string;
    markdownSize : Z;
    pdfUrl : option string;
    pdfSize : option Z;
    generationTimeMs : option Z;
    status : option Status;
    errorMessage : option string
  }.
End ConversionData.

(** The [conversion] object that [createConversion] inserts. *)
Module NewConversion.
Record t : Type :=
  mk {
    userId : Z;
    formattingRuleId : option Z;
    markdownTitle : option string;
    markdownSize : Z;
    pdfUrl : option string;
    pdfSize : option Z;
    generationTimeMs : option Z;
    status : Status;
    errorMessage : option string
  }.
End NewConversion.

(** The object literal [rule] of [createFormattingRule]. *)
Definition ruleOf (userId : Z) (data : RuleData.t) : NewRule.t :=
  {| NewRule.userId := userId;
     NewRule.name := RuleData.name data;
     NewRule.description := textOrNull (RuleData.description data);
     NewRule.fontFamily := textOr (RuleData.fontFamily data) "Inter";
     NewRule.fontSize := numOr (RuleData.fontSize data) 12;
     NewRule.lineHeight := textOr (RuleData.lineHeight data) "1.50";
     NewRule.headingStyles := objOr (RuleData.headingStyles data) DEFAULT_HEADING_STYLES;
     NewRule.pageSize := textOr (RuleData.pageSize data) "A4";
     NewRule.marginTop := numOr (RuleData.marginTop data) 20;
     NewRule.marginBottom := numOr (RuleData.marginBottom data) 20;
     NewRule.marginLeft := numOr (RuleData.marginLeft data) 20;
     NewRule.marginRight := numOr (RuleData.marginRight data) 20;
     NewRule.headerText := textOrNull (RuleData.headerText data);
     NewRule.footerText := textOrNull (RuleData.footerText data);
     NewRule.codeBlockStyles :=
       objOr (RuleData.codeBlockStyles data) DEFAULT_CODE_BLOCK_STYLES;
     NewRule.tableStyles := objOr (RuleData.tableStyles data) DEFAULT_TABLE_STYLES;
     NewRule.pageBreakBeforeHeadings :=
       textOr (RuleData.pageBreakBeforeHeadings data) "h1";
     NewRule.preventOrphanHeadings := numNullish (RuleData.preventOrphanHeadings data) 1;
     NewRule.keepCodeBlocksTogether := numNullish (RuleData.keepCodeBlocksTogether data) 1;
     NewRule.isPreset := numOr (RuleData.isPreset data) 0 |}.

(** The object literal [conversion] of [createConversion]. *)
Definition conversionOf (userId : Z) (data : ConversionData.t) : NewConversion.t :=
  {| NewConversion.userId := userId;
     NewConversion.formattingRuleId := numOrNull (ConversionData.formattingRuleId data);
     NewConversion.markdownTitle := textOrNull (ConversionData.markdownTitle data);
     NewConversion.markdownSize := ConversionData.markdownSize data;
     NewConversion.pdfUrl := textOrNull (ConversionData.pdfUrl data);
     NewConversion.pdfSize := numOrNull (ConversionData.pdfSize data);
     NewConversion.generationTimeMs := numOrNull (ConversionData.generationTimeMs data);
     NewConversion.status := objOr (ConversionData.status data) Pending;
     NewConversion.errorMessage := textOrNull (ConversionData.errorMessage data) |}.

(** The row of [formattingRules] that holds the inserted values, with the
    id and the two timestamps that the database gives it. *)
Definition asRow (id' created updated : Z) (r : NewRule.t) : FormattingRule :=
  mkFormattingRule id' (NewRule.userId r) (NewRule.name r) (NewRule.description r)
    (NewRule.fontFamily r) (JNum (NewRule.fontSize r)) (NewRule.lineHeight r)
    (NewRule.headingStyles r) (JStr (NewRule.pageSize r))
    (JNum (NewRule.marginTop r)) (JNum (NewRule.marginBottom r))
    (JNum (NewRule.marginLeft r)) (JNum (NewRule.marginRight r))
    (NewRule.headerText r) (NewRule.footerText r)
    (NewRule.codeBlockStyles r) (NewRule.tableStyles r)
    (JStr (NewRule.pageBreakBeforeHeadings r))
    (JNum (NewRule.preventOrphanHeadings r))
    (JNum (NewRule.keepCodeBlocksTogether r))
    (JNum (NewRule.isPreset r)) created updated.

(** ** The calls of the database layer *)

Module Db.

(** The handle that [drizzle(url)] returns. *)
Inductive DbHandle : Type := mkDbHandle (url : string).

(** The value of a column of the [users] table in an insert or update. *)
Inductive Role : Type := RoleUser | RoleAdmin.

Inductive dbval : Type :=
  | DNull
  | DText (s : string)
  | DDate (t : Z)
  | DRole (r : Role).

Definition dbTruthy (v : dbval) : bool :=
  match v with
  | DNull => false
  | DText s => negb (String.eqb s "")
  | DDate _ => true
  | DRole _ => true
  end.

(** An optional, nullable property of an input object. *)
Inductive nullable (A : Type) : Type :=
  | Undefined
  | Null
  | Value (a : A).
Arguments Undefined {A}.
Arguments Null {A}.
Arguments Value {A} a.

(** [InsertUser], as [upsertUser] reads it. *)
Record InsertUser : Type :=
  mkInsertUser {
    openId : string;
    name : nullable string;
    email : nullable string;
    loginMethod : nullable string;
    lastSignedIn : option Z;
    role : option Role
  }.

(** The statements sent to the database. *)
Inductive Query : Type :=
  | QUpsertUser (values updateSet : gmap string dbval)
  | QInsertRule (rule : NewRule.t)
  | QInsertConversion (conversion : NewConversion.t).

Inductive DbEvent : Type :=
  | EvDrizzle (url : string)
  | EvWarn (message : string)
  | EvError (message : string)
  | EvQuery (q : Query).

(** What a call of the database layer consults: the environment, how
    [drizzle] and the statements end, the owner's open id ([ENV]), and the
    successive readings of the clock ([new Date()]). *)
Record DbWorld : Type :=
  mkDbWorld {
    DATABASE_URL : option string;
    drizzle : string -> outcome DbHandle;
    execute : Query -> outcome Z;
    ownerOpenId : string;
    clock : nat -> Z
  }.

(** [getDb()], from the module variable [_db] to its new value, which is
    also the value returned. *)
Definition getDb (w : DbWorld) (_db : option DbHandle) : list DbEvent * option DbHandle :=
  match _db with
  | Some h => ([], Some h)
  | None =>
      if truthyText (DATABASE_URL w) then
        let url := textOr (DATABASE_URL w) "" in
        match drizzle w url with
        | Returned h => ([EvDrizzle url], Some h)
        | Thrown _ => ([EvDrizzle url; EvWarn "[Database] Failed to connect:"], None)
        end
      else ([], None)
  end.

(** The three text fields, in the order of [textFields]. *)
Inductive TextField : Type := FName | FEmail | FLoginMethod.

Definition textFields : list TextField := [FName; FEmail; FLoginMethod].

Definition fieldKey (field : TextField) : string :=
  match field with
  | FName => "name"
  | FEmail => "email"
  | FLoginMethod => "loginMethod"
  end.

Definition fieldOf (user : InsertUser) (field : TextField) : nullable string :=
  match field with
  | FName => name user
  | FEmail => email user
  | FLoginMethod => loginMethod user
  end.

(** [assignNullable(field)], on the pair of [values] and [updateSet]. *)
Definition assignNullable (user : InsertUser) (acc : gmap string dbval * gmap string dbval)
    (field : TextField) : gmap string dbval * gmap string dbval :=
  match fieldOf user field with
  | Undefined => acc
  | Null => (<[fieldKey field := DNull]> (fst acc), <[fieldKey field := DNull]> (snd acc))
  | Value s => (<[fieldKey field := DText s]> (fst acc), <[fieldKey field := DText s]> (snd acc))
  end.

(** The body of the [try] block of [upsertUser] up to the statement: the
    [values] and the [updateSet] that are sent. *)
Definition upsertStatement (w : DbWorld) (user : InsertUser) : Query :=
  let values : gmap string dbval := {[ "openId" := DText (openId user) ]} in
  let updateSet : gmap string dbval := ∅ in
  let '(values, updateSet) := fold_left (assignNullable user) textFields (values, updateSet) in
  let '(values, updateSet) :=
    match lastSignedIn user with
    | Some t => (<["lastSignedIn" := DDate t]> values, <["lastSignedIn" := DDate t]> updateSet)
    | None => (values, updateSet)
    end in
  let '(values, updateSet) :=
    match role user with
    | Some r => (<["role" := DRole r]> values, <["role" := DRole r]> updateSet)
    | None =>
        if String.eqb (openId user) (ownerOpenId w)
        then (<["role" := DRole RoleAdmin]> values, <["role" := DRole RoleAdmin]> updateSet)
        else (values, updateSet)
    end in
  let '(values, reads) :=
    if match values !! "lastSignedIn" with Some v => dbTruthy v | None => false end
    then (values, 0%nat)
    else (<["lastSignedIn" := DDate (clock w 0%nat)]> values, 1%nat) in
  let updateSet :=
    if Nat.eqb (size updateSet) 0
    then <["lastSignedIn" := DDate (clock w reads)]> updateSet
    else updateSet in
  QUpsertUser values updateSet.

(** [upsertUser(user)]: the events, the new value of [_db], the outcome. *)
Definition upsertUser (w : DbWorld) (_db : option DbHandle) (user : InsertUser)
  : list DbEvent * option DbHandle * outcome unit :=
  if String.eqb (openId user) "" then
    ([], _db, Thrown (mkError "User openId is required for upsert"))
  else
    let '(opened, db) := getDb w _db in
    match db with
    | None =>
        ((opened ++ [EvWarn "[Database] Cannot upsert user: database not available"])%list,
         db, Returned tt)
    | Some _ =>
        let q := upsertStatement w user in
        match execute w q with
        | Returned _ => ((opened ++ [EvQuery q])%list, db, Returned tt)
        | Thrown e =>
            ((opened ++ [EvQuery q; EvError "[Database] Failed to upsert user:"])%list,
             db, Thrown e)
        end
    end.

(** [createFormattingRule(userId, data)]. *)
Definition createFormattingRule (w : DbWorld) (_db : option DbHandle)
    (userId : Z) (data : RuleData.t) : list DbEvent * option DbHandle * outcome Z :=
  let '(opened, db) := getDb w _db in
  match db with
  | None => (opened, db, Thrown (mkError "Database not available"))
  | Some _ =>
      let rule := ruleOf userId data in
      ((opened ++ [EvQuery (QInsertRule rule)])%list, db, execute w (QInsertRule rule))
  end.

(** [createConversion(userId, data)]. *)
Definition createConversion (w : DbWorld) (_db : option DbHandle)
    (userId : Z) (data : ConversionData.t) : list DbEvent * option DbHandle * outcome Z :=
  let '(opened, db) := getDb w _db in
  match db with
  | None => (opened, db, Thrown (mkError "Database not available"))
  | Some _ =>
      let conversion := conversionOf userId data in
      ((opened ++ [EvQuery (QInsertConversion conversion)])%list, db,
       execute w (QInsertConversion conversion))
  end.

End Db.

(** The two objects of an upsert statement. *)
Definition upsertValues (q : Db.Query) : gmap string Db.dbval :=
  match q with Db.QUpsertUser values _ => values | _ => ∅ end.

Definition upsertUpdateSet (q : Db.Query) : gmap string Db.dbval :=
  match q with Db.QUpsertUser _ updateSet => updateSet | _ => ∅ end.

(** What a text field of the input becomes in a statement. *)
Definition storedText (v : Db.nullable string) : option Db.dbval :=
  match v with
  | Db.Undefined => None
  | Db.Null => Some Db.DNull
  | Db.Value s => Some (Db.DText s)
  end.

(** The input gives nothing but the open id, and the open id is not the
    owner's. *)
Definition onlyOpenId (w : Db.DbWorld) (user : Db.InsertUser) : bool :=
  match Db.name user, Db.email user, Db.loginMethod user,
        Db.lastSignedIn user, Db.role user with
  | Db.Undefined, Db.Undefined, Db.Undefined, None, None =>
      negb (String.eqb (Db.openId user) (Db.ownerOpenId w))
  | _, _, _, _, _ => false
  end.

(** Worlds and users for the examples. *)
Definition dbWorld : Db.DbWorld :=
  {| Db.DATABASE_URL := Some "mysql://localhost/app";
     Db.drizzle := fun url => Returned (Db.mkDbHandle url);
     Db.execute := fun _ => Returned 1;
     Db.ownerOpenId := "owner-1";
     Db.clock := fun k => 1700000000000 + Z.of_nat k |}.

Definition noDbWorld : Db.DbWorld :=
  {| Db.DATABASE_URL := None;
     Db.drizzle := fun url => Returned (Db.mkDbHandle url);
     Db.execute := fun _ => Thrown (mkError "ER_DUP");
     Db.ownerOpenId := "owner-1";
     Db.clock := fun k => 1700000000000 + Z.of_nat k |}.

Definition bareUser (openId : string) : Db.InsertUser :=
  Db.mkInsertUser openId Db.Undefined Db.Undefined Db.Undefined None None.

(** An optional number or text without its falsy value. *)
Definition truthyNum (v : option Z) : option Z := numOrNull v.

Definition truthyStr (v : option string) : option string := textOrNull v.

(** The input of [createFormattingRule] with every field that is
    defaulted by [||] dropped when it is 0 or the empty text. *)
Definition dropFalsy (data : RuleData.t) : RuleData.t :=
  {| RuleData.name := RuleData.name data;
     RuleData.description := truthyStr (RuleData.description data);
     RuleData.fontFamily := truthyStr (RuleData.fontFamily data);
     RuleData.fontSize := truthyNum (RuleData.fontSize data);
     RuleData.lineHeight := truthyStr (RuleData.lineHeight data);
     RuleData.headingStyles := RuleData.headingStyles data;
     RuleData.pageSize := truthyStr (RuleData.pageSize data);
     RuleData.marginTop := truthyNum (RuleData.marginTop data);
     RuleData.marginBottom := truthyNum (RuleData.marginBottom data);
     RuleData.marginLeft := truthyNum (RuleData.marginLeft data);
     RuleData.marginRight := truthyNum (RuleData.marginRight data);
     RuleData.headerText := truthyStr (RuleData.headerText data);
     RuleData.footerText := truthyStr (RuleData.footerText data);
     RuleData.codeBlockStyles := RuleData.codeBlockStyles data;
     RuleData.tableStyles := RuleData.tableStyles data;
     RuleData.pageBreakBeforeHeadings := truthyStr (RuleData.pageBreakBeforeHeadings data);
     RuleData.preventOrphanHeadings := RuleData.preventOrphanHeadings data;
     RuleData.keepCodeBlocksTogether := RuleData.keepCodeBlocksTogether data;
     RuleData.isPreset := truthyNum (RuleData.isPreset data) |}.

(** The input that gives a name and nothing else. *)
Definition nameOnly (name : string) : RuleData.t :=
  RuleData.mk name None None None None None None None None None None None None
              None None None None None None.

(** An input that asks for zero margins, no orphan control and an empty
    heading-style object. *)
Definition zeroData : RuleData.t :=
  RuleData.mk "Tight" (Some "") None (Some 0) None (Some ∅) None
              (Some 0) (Some 0) (Some 0) (Some 0) None None
              None None None (Some 0) (Some 0) None.

(** ** The [generatePdf] procedure of the converter router *)

(** A copy of a rule with another typography. *)
Definition withTypography (r : FormattingRule) (family : string) (size : jsval)
    (height : string) : FormattingRule :=
  match r with
  | mkFormattingRule a b c d _ _ _ h i j k l m n o p q s t u v x y =>
      mkFormattingRule a b c d family size height h i j k l m n o p q s t u v x y
  end.

Module Api.

(** A finite number of the input: an integer, or a number that is not an
    integer, carried with the decimal text JavaScript prints for it. *)
Inductive number : Type :=
  | Int (z : Z)
  | Frac (repr : string).

Definition toJs (n : number) : jsval :=
  match n with
  | Int z => JNum z
  | Frac repr => JFrac repr
  end.

(** The validated input of the procedure. *)
Record Input : Type :=
  mkInput {
    markdown : string;
    fontFamily : string;
    fontSize : number;
    lineHeight : number;
    pageSize : string;
    marginTop : number;
    marginBottom : number;
    marginLeft : number;
    marginRight : number
  }.

(** The object literal [formattingRule].  It has no id, owner, name,
    description, preset flag or timestamps; the renderer reads none of
    them, and they are given neutral values here. *)
Definition formattingRule (input : Input) : FormattingRule :=
  mkFormattingRule 0 0 "" None
    (fontFamily input) (toJs (fontSize input)) (toString (toJs (lineHeight input)))
    DEFAULT_HEADING_STYLES
    (JStr (pageSize input))
    (toJs (marginTop input)) (toJs (marginBottom input))
    (toJs (marginLeft input)) (toJs (marginRight input))
    None None
    DEFAULT_CODE_BLOCK_STYLES DEFAULT_TABLE_STYLES
    (JStr "h1") (JNum 1) (JNum 1) JUndefined 0 0.

End Api.

(** The input the client sends, with margins of 0. *)
Definition zeroMarginInput : Api.Input :=
  Api.mkInput "# Title" "Inter" (Api.Int 12) (Api.Frac "1.5") "A4"
              (Api.Int 0) (Api.Int 0) (Api.Int 0) (Api.Int 0).

(** ** Style values and table elements, as the specification words them *)

(** The text printed for a style field that has a fixed default: the
    configured value when there is one, the default for an absent field
    and equally for [null], [false], the number 0 and the empty
    string. *)
Definition configuredOr (v : jsval) (default : string) : string :=
  match v with
  | JUndefined | JNull | JBool false => default
  | JBool true => "true"
  | JNum z => if z =? 0 then default else numToString z
  | JFrac repr => repr
  | JStr s => if String.eqb s "" then default else s
  end.

(** The opening of a table, of a row and a cell, with the configured
    colours and sizes or their defaults. *)
Definition tableElementOpen (ts : TableStyles) : string :=
  "<table style=" ++ dq
  ++ "border-collapse: collapse; width: 100%; margin-bottom: 1em; border: 1px solid "
  ++ configuredOr (ts_borderColor ts) "#ddd" ++ ";" ++ dq ++ "><tbody>".

Definition tableCellElement (ts : TableStyles) (tag content : string) : string :=
  "<" ++ tag ++ " style=" ++ dq
  ++ ("border: 1px solid " ++ configuredOr (ts_borderColor ts) "#ddd"
      ++ "; padding: " ++ configuredOr (ts_cellPadding ts) "8"
      ++ "px; font-size: " ++ configuredOr (ts_fontSize ts) "11" ++ "px;")
  ++ dq ++ ">" ++ content ++ "</" ++ tag ++ ">".

(** A row of a table: a header row has [th] cells and the configured
    header background, a data row has [td] cells and a white
    background. *)
Definition tableRowElement (rules : FormattingRule) (depth : Z) (header : bool) (row : node)
    : string :=
  "<tr style=" ++ dq ++ "background-color: "
  ++ (if header then configuredOr (ts_headerBackgroundColor (tableStyles rules)) "#f9f9f9"
      else "white")
  ++ ";" ++ dq ++ ">"
  ++ match node_children row with
     | Some cells =>
         fold_right
           (fun cell rest =>
              tableCellElement (tableStyles rules) (if header then "th" else "td")
                               (astToHtml (root (node_children cell)) rules depth)
              ++ rest)
           "" cells
     | None => ""
     end
  ++ "</tr>".

(** The rows of a table, numbered from [i]: the row numbered 0 is a
    header row when the table has more than one row. *)
Fixpoint tableRowsFrom (rules : FormattingRule) (depth : Z) (total : nat) (i : nat)
    (rows : list node) : string :=
  match rows with
  | [] => ""
  | row :: rest =>
      tableRowElement rules depth (Nat.eqb i 0 && Nat.ltb 1 total) row
      ++ tableRowsFrom rules depth total (S i) rest
  end.

(** A table style with its own colours and sizes, none of them a default,
    and a padding of 0. *)
Definition customTableStyles : TableStyles :=
  mkTableStyles (JStr "#333") (JStr "#eef") (JNum 0) (JNum 9).

(** The inline-code and code-block elements, with the configured style
    values or their defaults; [escaped] is the escaped value of the
    node. *)
Definition inlineCodeElement (cs : CodeBlockStyles) (escaped : string) : string :=
  "<code style=" ++ dq
  ++ ("font-family: " ++ configuredOr (cs_fontFamily cs) "monospace"
      ++ "; font-size: " ++ configuredOr (cs_fontSize cs) "11"
      ++ "px; background-color: " ++ configuredOr (cs_backgroundColor cs) "#f5f5f5"
      ++ "; padding: 2px 4px; border-radius: 3px;")
  ++ dq ++ ">" ++ escaped ++ "</code>".

Definition codeBlockElement (cs : CodeBlockStyles) (escaped : string) : string :=
  "<pre style=" ++ dq
  ++ ("font-family: " ++ configuredOr (cs_fontFamily cs) "monospace"
      ++ "; font-size: " ++ configuredOr (cs_fontSize cs) "11"
      ++ "px; background-color: " ++ configuredOr (cs_backgroundColor cs) "#f5f5f5"
      ++ "; padding: " ++ configuredOr (cs_padding cs) "12"
      ++ "px; border-radius: " ++ configuredOr (cs_borderRadius cs) "4"
      ++ "px; overflow-x: auto; line-height: " ++ configuredOr (cs_lineHeight cs) "1.4"
      ++ ";")
  ++ dq ++ "><code>" ++ escaped ++ "</code></pre>".

(** The heading element of a style entry. *)
Definition headingElementOf (level : Z) (st : HeadingStyle) (content : string) : string :=
  headingElement level
    (configuredOr (hs_fontSize st) "16") (configuredOr (hs_fontWeight st) "600")
    (configuredOr (hs_marginTop st) "12") (configuredOr (hs_marginBottom st) "6")
    content.

(** A code style that sets a font family and a border radius and holds 0
    or the empty string in its other fields, and a heading style with a
    weight of its own and 0 elsewhere. *)
Definition zeroedCodeStyles : CodeBlockStyles :=
  mkCodeBlockStyles (JStr "Fira Code") (JNum 0) (JStr "") (JNum 0) (JNum 6) JUndefined.

Definition zeroedHeadingStyle : HeadingStyle :=
  mkHeadingStyle (JNum 0) (JNum 700) (JStr "") (JNum 0).

(** ** The document, line by line *)

(** The template of [generateStyledHtml] once more, cut at its newlines:
    the document as a list of lines, every line a list of pieces (fixed
    text and values of the rule).  It is compared with the document of
    the source in [generateStyledHtml_lines]. *)

(** The newline character, and a text given as lines, each line given as
    the pieces it is made of. *)
Definition newline : ascii := "010"%char.

Fixpoint catPieces (pieces : list string) (rest : string) : string :=
  match pieces with
  | [] => rest
  | p :: pieces' => p ++ catPieces pieces' rest
  end.

Fixpoint catLines (lines : list (list string)) : string :=
  match lines with
  | [] => ""
  | l :: lines' =>
      catPieces l (match lines' with
                   | [] => ""
                   | _ :: _ => String newline (catLines lines')
                   end)
  end.

(** The physical dimensions of the page, and the three conditional
    rules: each is printed when the rule asks for it, and is the empty
    text otherwise. *)
Definition pageDimensions (rules : FormattingRule) : string :=
  match pageSize rules with
  | JStr "Letter" => "8.5in 11in"
  | _ => "210mm 297mm"
  end.

Definition h1Slot (rules : FormattingRule) : string :=
  match pageBreakBeforeHeadings rules with
  | JStr "h1" => "h1 { page-break-before: always; }"
  | _ => ""
  end.

Definition h2Slot (rules : FormattingRule) : string :=
  match pageBreakBeforeHeadings rules with
  | JStr "h2" => "h2 { page-break-before: always; }"
  | _ => ""
  end.

Definition orphanSlot (rules : FormattingRule) : string :=
  if truthy (preventOrphanHeadings rules)
  then "h1, h2, h3 { page-break-after: avoid; orphans: 3; widows: 3; }"
  else "".

(** The lines of the document before the [@page] rule. *)
Definition headLines : list (list string) :=
  [ [];
    ["<!DOCTYPE html>"];
    ["<html lang="; dq; "en"; dq; ">"];
    ["<head>"];
    ["  <meta charset="; dq; "UTF-8"; dq; ">"];
    ["  <meta name="; dq; "viewport"; dq; " content="; dq; "width=device-width, initial-scale=1.0"; dq; ">"];
    ["  <title>PDF Document</title>"];
    ["  <style>"];
    ["    * {"];
    ["      margin: 0;"];
    ["      padding: 0;"];
    ["      box-sizing: border-box;"];
    ["    }"];
    [] ].

(** The [@page] rule: size, margins and the two margin boxes. *)
Definition pageRuleLines (rules : FormattingRule) : list (list string) :=
  [ ["    @page {"];
    ["      size: "; pageDimensions rules; ";"];
    ["      margin: "; toString (marginTop rules) ++ "mm"; " "; toString (marginRight rules) ++ "mm"; " "; toString (marginBottom rules) ++ "mm"; " "; toString (marginLeft rules) ++ "mm"; ";"];
    ["      "; marginBox "top-center" (headerText rules)];
    ["      "; marginBox "bottom-center" (footerText rules)];
    ["    }"] ].

(** The rule for [body]: font family, font size and line height of the rule. *)
Definition bodyRuleLines (rules : FormattingRule) : list (list string) :=
  [ [];
    ["    body {"];
    ["      font-family: '"; fontFamily rules; "', sans-serif;"];
    ["      font-size: "; toString (fontSize rules); "px;"];
    ["      line-height: "; lineHeight rules; ";"];
    ["      color: #333;"];
    ["    }"] ].

(** The fixed rule for all headings. *)
Definition headingRuleLines : list (list string) :=
  [ [];
    ["    h1, h2, h3, h4, h5, h6 {"];
    ["      page-break-after: avoid;"];
    ["    }"];
    [] ].

(** The three conditional rules, each on a line of its own. *)
Definition slotLines (rules : FormattingRule) : list (list string) :=
  [ ["    "; h1Slot rules];
    ["    "; h2Slot rules];
    [];
    ["    "; orphanSlot rules] ].

(** The fixed rules for the elements, the end of the stylesheet and the opening of the body. *)
Definition elementRuleLines : list (list string) :=
  [ [];
    ["    pre {"];
    ["      page-break-inside: avoid;"];
    ["    }"];
    [];
    ["    table {"];
    ["      page-break-inside: avoid;"];
    ["    }"];
    [];
    ["    img {"];
    ["      page-break-inside: avoid;"];
    ["    }"];
    [];
    ["    p {"];
    ["      margin-bottom: 1em;"];
    ["    }"];
    [];
    ["    ul, ol {"];
    ["      margin-left: 20px;"];
    ["      margin-bottom: 1em;"];
    ["    }"];
    [];
    ["    blockquote {"];
    ["      border-left: 4px solid #ccc;"];
    ["      padding-left: 12px;"];
    ["      margin-left: 0;"];
    ["      font-style: italic;"];
    ["      color: #666;"];
    ["      margin-bottom: 1em;"];
    ["    }"];
    [];
    ["    code {"];
    ["      font-family: 'Courier New', monospace;"];
    ["      background-color: #f5f5f5;"];
    ["      padding: 2px 4px;"];
    ["      border-radius: 3px;"];
    ["    }"];
    [];
    ["    pre code {"];
    ["      padding: 0;"];
    ["      background-color: transparent;"];
    ["    }"];
    ["  </style>"];
    ["</head>"];
    ["<body>"] ].

(** The body fragment. *)
Definition bodyLines (content : string) : list (list string) :=
  [ ["  "; content] ].

(** The closing of the document. *)
Definition tailLines : list (list string) :=
  [ ["</body>"];
    ["</html>"];
    ["  "] ].
(** The whole document. *)
Definition documentLines (content : string) (rules : FormattingRule) : list (list string) :=
  (headLines ++ pageRuleLines rules ++ bodyRuleLines rules ++ headingRuleLines
   ++ slotLines rules ++ elementRuleLines ++ bodyLines content ++ tailLines)%list.

(** No opening brace occurs in the values of the rule that are printed
    into the stylesheet: the four margins, the header and footer texts,
    the font family, the font size and the line height. *)
Definition braceFree (s : string) : Prop := hasChar "{" s = false.

Definition valuesBraceFree (rules : FormattingRule) : Prop :=
  braceFree (toString (marginTop rules)) /\ braceFree (toString (marginRight rules))
  /\ braceFree (toString (marginBottom rules)) /\ braceFree (toString (marginLeft rules))
  /\ braceFree (textOr (headerText rules) "") /\ braceFree (textOr (footerText rules) "")
  /\ braceFree (fontFamily rules) /\ braceFree (toString (fontSize rules))
  /\ braceFree (lineHeight rules).

(** A rule that asks for no page break and no orphan control, and whose
    font family closes the [body] rule and carries a page-break rule of
    its own. *)
Definition smuggledFontFamily : string :=
  "Inter', serif; } h1 { page-break-before: always; } body { font-family: 'Inter".

Definition smugglingRule : FormattingRule :=
  withTypography (withPagination mockFormattingRule (JStr "none") (JNum 0))
                 smuggledFontFamily (JNum 12) "1.5".

(** The fixed texts that share a line of the stylesheet with a value of
    the rule. *)
Definition fixedLineTexts : list string :=
  [ "    @page {"; "      size: 8.5in 11in;"; "      size: 210mm 297mm;"; "    }"; "";
    "    body {"; "      color: #333;"; "      ";
    "      @top-center { content: "; "      @bottom-center { content: "; "; }" ].

(** A text that can be searched for line by line: it is not empty, has
    no newline and no double quote, has an opening brace, does not start
    with a space, and occurs in none of the fixed lines of the
    document. *)
Definition lineSearchable (n : string) : bool :=
  negb (String.eqb n "")
  && negb (hasChar newline n) && negb (hasChar "034" n) && hasChar "{" n
  && negb (startsWith " " n)
  && negb (existsb (fun l => includes (catPieces l "") n)
                   (headLines ++ headingRuleLines ++ elementRuleLines ++ tailLines))
  && forallb (fun s => negb (includes s n)) fixedLineTexts.

(** ** The renderer on loosely typed input *)

(** [astToHtml] takes [node: any], and the three style columns of a rule
    have the type [unknown].  The definitions below follow the source on
    such input, where a property access on [undefined] or [null] and a
    call of [replace] on a value that is not a string raise a
    [TypeError]: a node carries any value in [value], [url] and [alt],
    and each of the three style objects of a rule may be missing. *)

(** The [TypeError] of the engine (its message depends on the engine). *)
Definition typeError : JsError := mkError "TypeError".

#[local] Unset Elimination Schemes.

Inductive looseNode : Type :=
  mkLooseNode {
    loose_type : string;
    loose_depth : Z;
    loose_value : jsval;
    loose_ordered : jsval;
    loose_url : jsval;
    loose_alt : jsval;
    loose_children : option (list looseNode)
  }.

#[local] Set Elimination Schemes.

(** The fields of a rule that [astToHtml] reads; [None] is a style
    object that is [undefined] or [null]. *)
Record LooseRule : Type :=
  mkLooseRule {
    loose_lineHeight : string;
    loose_headingStyles : option (gmap string HeadingStyle);
    loose_codeBlockStyles : option CodeBlockStyles;
    loose_tableStyles : option TableStyles
  }.

(** Sequencing of two steps, the second of which is skipped when the
    first raises. *)
Definition andThen {A B : Type} (r : outcome A) (k : A -> outcome B) : outcome B :=
  match r with
  | Returned a => k a
  | Thrown e => Thrown e
  end.

(** [escapeHtml(v)]: [v.replace] exists for strings only. *)
Definition escapeText (v : jsval) : outcome string :=
  match v with
  | JStr s => Returned (escapeHtml s)
  | _ => Thrown typeError
  end.

(** The loops of the renderer, left as soon as a step raises. *)
Definition forEachR {A : Type} (f : A -> outcome string) (l : list A) (html : string)
    : outcome string :=
  fold_left
    (fun acc child => andThen acc (fun h => andThen (f child) (fun s => Returned (h ++ s))))
    l (Returned html).

Definition forEachOptR {A : Type} (f : A -> outcome string) (l : option (list A))
    (html : string) : outcome string :=
  match l with
  | Some l' => forEachR f l' html
  | None => Returned html
  end.

Fixpoint forEachIdxR {A : Type} (f : A -> nat -> string -> outcome string) (l : list A)
    (i : nat) (html : string) : outcome string :=
  match l with
  | [] => Returned html
  | x :: l' => andThen (f x i html) (fun html' => forEachIdxR f l' (S i) html')
  end.

(** The body of [astToHtml] on loosely typed input. *)
Definition renderLoose (self : looseNode -> LooseRule -> Z -> outcome string)
    (n : looseNode) (rules : LooseRule) (depth : Z) : outcome string :=
  let children_at (cs : option (list looseNode)) (d : Z) : outcome string :=
    forEachOptR (fun child => self child rules d) cs "" in
  match n with
  | mkLooseNode type level value ordered url alt children =>
    if String.eqb type "root" then
      children_at children depth
    else if String.eqb type "heading" then
      match loose_headingStyles rules with
      | None => Thrown typeError
      | Some styles =>
          let headingStyle :=
            match styles !! headingKey level with
            | Some st => st
            | None => emptyHeadingStyle
            end in
          andThen (children_at children depth)
                  (fun content => Returned (headingHtml level headingStyle content))
      end
    else if String.eqb type "paragraph" then
      andThen (children_at children depth)
              (fun content =>
                 Returned ("<p style=" ++ dq ++ "margin-bottom: 1em; line-height: "
                           ++ loose_lineHeight rules ++ ";" ++ dq ++ ">" ++ content ++ "</p>"))
    else if String.eqb type "text" then
      escapeText value
    else if String.eqb type "emphasis" then
      andThen (children_at children depth)
              (fun content => Returned ("<em>" ++ content ++ "</em>"))
    else if String.eqb type "strong" then
      andThen (children_at children depth)
              (fun content => Returned ("<strong>" ++ content ++ "</strong>"))
    else if String.eqb type "inlineCode" then
      match loose_codeBlockStyles rules with
      | None => Thrown typeError
      | Some codeStyle =>
          andThen (escapeText value)
                  (fun escaped =>
                     Returned ("<code style=" ++ dq ++ inlineCodeCss codeStyle ++ dq ++ ">"
                               ++ escaped ++ "</code>"))
      end
    else if String.eqb type "code" then
      andThen (escapeText value)
              (fun content =>
                 match loose_codeBlockStyles rules with
                 | None => Thrown typeError
                 | Some codeStyle =>
                     Returned ("<pre style=" ++ dq ++ preCss codeStyle ++ dq ++ "><code>"
                               ++ content ++ "</code></pre>")
                 end)
    else if String.eqb type "list" then
      andThen (children_at children (depth + 1))
              (fun content => Returned (listHtml ordered depth content))
    else if String.eqb type "listItem" then
      andThen (children_at children depth)
              (fun content => Returned ("<li>" ++ content ++ "</li>"))
    else if String.eqb type "blockquote" then
      andThen (children_at children depth)
              (fun content => Returned (blockquoteHtml content))
    else if String.eqb type "table" then
      match loose_tableStyles rules with
      | None => Thrown typeError
      | Some tableStyle =>
          andThen
            match children with
            | None => Returned (tableOpen tableStyle)
            | Some rows =>
                forEachIdxR
                  (fun row rowIndex tableHtml =>
                     let isHeader := Nat.eqb rowIndex 0 && Nat.ltb 1 (List.length rows) in
                     let tag := if isHeader then "th" else "td" in
                     andThen
                       (forEachOptR
                          (fun cell =>
                             andThen (children_at (loose_children cell) depth)
                                     (fun cellContent =>
                                        Returned (cellHtml tableStyle tag cellContent)))
                          (loose_children row)
                          (tableHtml ++ rowOpen tableStyle isHeader))
                       (fun tableHtml' => Returned (tableHtml' ++ "</tr>")))
                  rows 0%nat (tableOpen tableStyle)
            end
            (fun tableHtml => Returned (tableHtml ++ "</tbody></table>"))
      end
    else if String.eqb type "link" then
      andThen (children_at children depth)
              (fun content =>
                 andThen (escapeText url)
                         (fun href =>
                            Returned ("<a href=" ++ dq ++ href ++ dq ++ " style=" ++ dq
                                      ++ "color: #0066cc; text-decoration: underline;"
                                      ++ dq ++ ">" ++ content ++ "</a>")))
    else if String.eqb type "image" then
      andThen (escapeText url)
              (fun src =>
                 andThen (escapeText (jsOr alt (JStr "")))
                         (fun alt' =>
                            Returned ("<img src=" ++ dq ++ src ++ dq ++ " alt=" ++ dq ++ alt'
                                      ++ dq ++ " style=" ++ dq
                                      ++ "max-width: 100%; height: auto; margin: 1em 0;"
                                      ++ dq ++ " />")))
    else if String.eqb type "thematicBreak" then
      Returned hrHtml
    else
      children_at children depth
  end.

Fixpoint astToHtmlLoose (n : looseNode) (rules : LooseRule) (depth : Z) {struct n}
    : outcome string :=
  renderLoose astToHtmlLoose n rules depth.

(** A tree of the typed model as a loosely typed tree, and a rule with
    its three style objects present. *)
Fixpoint looseOf (n : node) : looseNode :=
  match n with
  | mkNode type level value ordered url alt children =>
      mkLooseNode type level (JStr value) ordered (JStr url)
        (match alt with
         | Some s => JStr s
         | None => JUndefined
         end)
        (match children with
         | Some l => Some (List.map looseOf l)
         | None => None
         end)
  end.

Definition looseRuleOf (rules : FormattingRule) : LooseRule :=
  mkLooseRule (lineHeight rules) (Some (headingStyles rules))
              (Some (codeBlockStyles rules)) (Some (tableStyles rules)).

(** The shape of a tree of the data model: a [text], [inlineCode] or
    [code] node has a string value, a [link] or [image] node a string
    url, and the alternative text of an image is a string when it is not
    falsy; so for every descendant. *)
Definition isText (v : jsval) : bool :=
  match v with
  | JStr _ => true
  | _ => false
  end.

Definition typeIn (type : string) (types : list string) : bool :=
  existsb (String.eqb type) types.

Fixpoint wellShaped (n : looseNode) : bool :=
  match n with
  | mkLooseNode type level value ordered url alt children =>
      (if typeIn type ["text"; "inlineCode"; "code"] then isText value else true)
      && (if typeIn type ["link"; "image"] then isText url else true)
      && (if String.eqb type "image" then isText (jsOr alt (JStr "")) else true)
      && match children with
         | Some l => forallb wellShaped l
         | None => true
         end
  end.

Fixpoint looseSize (n : looseNode) : nat :=
  match n with
  | mkLooseNode _ _ _ _ _ _ children =>
      S (match children with
         | Some l => fold_right (fun c acc => (looseSize c + acc)%nat) 0%nat l
         | None => 0%nat
         end)
  end.

(** A paragraph of two texts around a node of an unknown kind, with no
    string in the fields the renderer does not read. *)
Definition looseParagraph : looseNode :=
  mkLooseNode "paragraph" 0 JUndefined JUndefined JUndefined JUndefined
    (Some [ mkLooseNode "text" 0 (JStr "a < b") JUndefined JUndefined JUndefined None;
            mkLooseNode "footnoteReference" 0 JNull JNull JNull JNull None;
            mkLooseNode "inlineCode" 0 (JStr "x") JUndefined JUndefined JUndefined None ]).

(** A rule whose code style has no field at all, and a rule without its
    heading-style object. *)
Definition bareStylesRule : LooseRule :=
  mkLooseRule "1.5" (Some ∅)
    (Some (mkCodeBlockStyles JUndefined JUndefined JUndefined JUndefined JUndefined JUndefined))
    (Some (mkTableStyles JUndefined JUndefined JUndefined JUndefined)).

Definition noHeadingStylesRule : LooseRule :=
  mkLooseRule "1.5" None (Some DEFAULT_CODE_BLOCK_STYLES) (Some DEFAULT_TABLE_STYLES).

(** The typed reading of a loosely typed tree: a value that is not a
    string reads as the empty text, an alternative text that is not a
    string as none. *)
Definition textOf (v : jsval) : string :=
  match v with
  | JStr s => s
  | _ => ""
  end.

Fixpoint typedOf (n : looseNode) : node :=
  match n with
  | mkLooseNode type level value ordered url alt children =>
      mkNode type level (textOf value) ordered (textOf url)
        (match alt with
         | JStr s => Some s
         | _ => None
         end)
        (match children with
         | Some l => Some (List.map typedOf l)
         | None => None
         end)
  end.

(** The three style objects of a rule are present. *)
Definition stylesPresent (rules : LooseRule) : Prop :=
  loose_headingStyles rules <> None
  /\ loose_codeBlockStyles rules <> None
  /\ loose_tableStyles rules <> None.

(** ** What the renderer reads of a tree *)



(** * Properties *)

(** Reducing the projections of a node that has been taken apart. *)
Ltac node_fields :=
  cbn [node_type node_depth node_value node_ordered node_url node_alt node_children].

(** ** Strings *)

Lemma append_cons (c : ascii) (s t : string) : String c s ++ t = String c (s ++ t).
Proof. reflexivity. Qed.

Lemma append_nil_l (s : string) : "" ++ s = s.
Proof. reflexivity. Qed.

Lemma append_nil_r (s : string) : s ++ "" = s.
Proof. induction s as [|c s IH]; [reflexivity|]. rewrite append_cons, IH. reflexivity. Qed.

Lemma append_assoc (s t u : string) : (s ++ t) ++ u = s ++ t ++ u.
Proof.
  induction s as [|c s IH]; [reflexivity|].
  rewrite !append_cons, IH. reflexivity.
Qed.

Lemma startsWith_app (p t : string) : startsWith p (p ++ t) = true.
Proof.
  induction p as [|c p IH]; [reflexivity|].
  rewrite append_cons. simpl. rewrite Ascii.eqb_refl. exact IH.
Qed.

Lemma startsWith_inv (p s : string) :
  startsWith p s = true -> exists t, s = p ++ t.
Proof.
  revert s. induction p as [|c p IH]; intros s H.
  - exists s. reflexivity.
  - destruct s as [|b s]; [discriminate|].
    simpl in H. apply andb_true_iff in H as [Hc Hp].
    apply Ascii.eqb_eq in Hc. subst b.
    destruct (IH s Hp) as [t ->]. exists t. reflexivity.
Qed.

(** [includes] decides [Contains]. *)
Lemma includes_Contains (hay needle : string) :
  includes hay needle = true <-> Contains hay needle.
Proof.
  split.
  - induction hay as [|c hay IH]; simpl; intros H.
    + rewrite orb_false_r in H. apply startsWith_inv in H as [t ->].
      exists "", t. reflexivity.
    + apply orb_true_iff in H as [H|H].
      * apply startsWith_inv in H as [t ->]. exists "", t. reflexivity.
      * destruct (IH H) as (pre & post & ->). exists (String c pre), post. reflexivity.
  - intros (pre & post & ->). induction pre as [|c pre IH].
    + rewrite append_nil_l. destruct (needle ++ post) eqn:E; simpl; rewrite <- E;
        rewrite startsWith_app; reflexivity.
    + rewrite append_cons. simpl. rewrite IH. apply orb_true_r.
Qed.

Lemma not_includes_not_Contains (hay needle : string) :
  includes hay needle = false -> ~ Contains hay needle.
Proof.
  intros H C. apply includes_Contains in C. congruence.
Qed.

Lemma Contains_prefix (needle post : string) : Contains (needle ++ post) needle.
Proof. exists "", post. reflexivity. Qed.

Lemma Contains_app_r (s t needle : string) : Contains t needle -> Contains (s ++ t) needle.
Proof.
  intros (pre & post & ->). exists (s ++ pre), post.
  symmetry. apply append_assoc.
Qed.

(** The needle starts after [n] pieces of a concatenation. *)
Tactic Notation "contains_after" integer(n) :=
  do n apply Contains_app_r; apply Contains_prefix.

Lemma hasChar_app (c : ascii) (s t : string) :
  hasChar c (s ++ t) = hasChar c s || hasChar c t.
Proof.
  induction s as [|a s IH]; [reflexivity|].
  rewrite append_cons. simpl. rewrite IH. apply orb_assoc.
Qed.

Lemma Contains_refl (s : string) : Contains s s.
Proof. exists "", "". rewrite append_nil_r. reflexivity. Qed.

Lemma Contains_trans (a b c : string) : Contains a b -> Contains b c -> Contains a c.
Proof.
  intros (p1 & q1 & ->) (p2 & q2 & ->).
  exists (p1 ++ p2), (q2 ++ q1). rewrite !append_assoc. reflexivity.
Qed.

Lemma Contains_app_left (s t needle : string) :
  Contains s needle -> Contains (s ++ t) needle.
Proof.
  intros (pre & post & ->). exists pre, (post ++ t).
  rewrite !append_assoc. reflexivity.
Qed.

Lemma length_append (s t : string) :
  String.length (s ++ t) = (String.length s + String.length t)%nat.
Proof.
  induction s as [|c s IH]; [reflexivity|].
  rewrite append_cons. simpl. rewrite IH. reflexivity.
Qed.

Lemma append_cancel_r (s1 s2 t : string) : s1 ++ t = s2 ++ t -> s1 = s2.
Proof.
  revert s2. induction s1 as [|c s1 IH]; intros s2 H.
  - destruct s2 as [|d s2]; [reflexivity|].
    apply (f_equal String.length) in H.
    rewrite append_nil_l, append_cons in H. simpl in H. rewrite length_append in H. lia.
  - destruct s2 as [|d s2].
    + apply (f_equal String.length) in H.
      rewrite append_nil_l, append_cons in H. simpl in H. rewrite length_append in H. lia.
    + rewrite !append_cons in H. injection H as -> H. f_equal. apply IH. exact H.
Qed.

(** ** Folding over children *)

Lemma forEach_acc {A : Type} (f : A -> string) (l : list A) (html : string) :
  forEach f l html = html ++ forEach f l "".
Proof.
  unfold forEach. revert html.
  induction l as [|x l IH]; intros html; simpl.
  - symmetry. apply append_nil_r.
  - rewrite IH, (IH ("" ++ f x)), append_nil_l, append_assoc. reflexivity.
Qed.

Lemma forEach_nil {A : Type} (f : A -> string) (html : string) :
  forEach f [] html = html.
Proof. reflexivity. Qed.

Lemma forEach_cons {A : Type} (f : A -> string) (x : A) (l : list A) (html : string) :
  forEach f (x :: l) html = html ++ f x ++ forEach f l "".
Proof.
  unfold forEach at 1. simpl. fold (forEach f l (html ++ f x)).
  rewrite forEach_acc, append_assoc. reflexivity.
Qed.

Lemma forEach_ext {A : Type} (f g : A -> string) (l : list A) (html : string) :
  (forall x, In x l -> f x = g x) -> forEach f l html = forEach g l html.
Proof.
  unfold forEach. revert html.
  induction l as [|x l IH]; intros html H; simpl; [reflexivity|].
  rewrite (H x (or_introl eq_refl)). apply IH.
  intros y Hy. apply H. right. exact Hy.
Qed.

Lemma forEachOpt_ext {A : Type} (f g : A -> string) (l : option (list A)) (html : string) :
  (forall cs x, l = Some cs -> In x cs -> f x = g x) ->
  forEachOpt f l html = forEachOpt g l html.
Proof.
  destruct l as [cs|]; simpl; intros H; [|reflexivity].
  apply forEach_ext. intros x Hx. exact (H cs x eq_refl Hx).
Qed.

Lemma forEachIdx_ext {A : Type} (f g : A -> nat -> string) (l : list A) (i : nat) (html : string) :
  (forall x j, In x l -> f x j = g x j) -> forEachIdx f l i html = forEachIdx g l i html.
Proof.
  revert i html.
  induction l as [|x l IH]; intros i html H; simpl; [reflexivity|].
  rewrite (H x i (or_introl eq_refl)). apply IH.
  intros y j Hy. apply H. right. exact Hy.
Qed.

Lemma forEach_fold_right {A : Type} (f : A -> string) (l : list A) :
  forEach f l "" = fold_right (fun x acc => f x ++ acc) "" l.
Proof.
  induction l as [|x l IH]; [reflexivity|].
  rewrite forEach_cons, append_nil_l, IH. reflexivity.
Qed.

(** ** The size of a tree and the unfolding of the renderer *)

Lemma node_size_child (n c : node) (cs : list node) :
  node_children n = Some cs -> In c cs -> (node_size c < node_size n)%nat.
Proof.
  destruct n as [ty lv v o u a ch]. simpl. intros -> Hin.
  enough (node_size c <= list_sum (map node_size cs))%nat by lia.
  induction cs as [|x cs IH]; [destruct Hin|].
  simpl. destruct Hin as [->|Hin]; [lia|]. specialize (IH Hin). lia.
Qed.

Lemma astToHtml_unfold (n : node) (rules : FormattingRule) (depth : Z) :
  astToHtml n rules depth = renderNode astToHtml n rules depth.
Proof. destruct n; reflexivity. Qed.

(** Rendering the children through a fresh root node, as the source does,
    is folding over them. *)
Lemma astToHtml_root (children : option (list node)) (rules : FormattingRule) (depth : Z) :
  astToHtml (root children) rules depth
  = forEachOpt (fun child => astToHtml child rules depth) children "".
Proof. reflexivity. Qed.

(** ** The escaper *)

Lemma inClass_true (c : ascii) :
  inClass c = true ->
  c = "&"%char \/ c = "<"%char \/ c = ">"%char \/ c = "034"%char \/ c = "'"%char.
Proof.
  unfold inClass. rewrite !orb_true_iff, !Ascii.eqb_eq. tauto.
Qed.


Lemma escapeHtml_cons (c : ascii) (rest : string) :
  escapeHtml (String c rest)
  = (if inClass c then toString (mapGet escapeMap c) else String c "") ++ escapeHtml rest.
Proof. reflexivity. Qed.



Lemma unescapeHtml_plain (c : ascii) (r : string) :
  c <> "&"%char -> unescapeHtml (String c r) = String c (unescapeHtml r).
Proof.
  intros H.
  destruct c as [[] [] [] [] [] [] [] []]; try reflexivity.
  exfalso. apply H. reflexivity.
Qed.

Lemma unescape_escape (s : string) : unescapeHtml (escapeHtml s) = s.
Proof.
  induction s as [|c s IH]; [reflexivity|].
  rewrite escapeHtml_cons. destruct (inClass c) eqn:E.
  - destruct (inClass_true c E) as [-> | [-> | [-> | [-> | -> ]]]];
      change (toString (mapGet escapeMap _)) with "&amp;" ||
      change (toString (mapGet escapeMap _)) with "&lt;" ||
      change (toString (mapGet escapeMap _)) with "&gt;" ||
      change (toString (mapGet escapeMap _)) with "&quot;" ||
      change (toString (mapGet escapeMap _)) with "&#039;";
      rewrite !append_cons, append_nil_l;
      cbn [unescapeHtml]; rewrite IH; reflexivity.
  - rewrite append_cons, append_nil_l, unescapeHtml_plain, IH; [reflexivity|].
    intros ->. discriminate.
Qed.

Lemma escapeHtml_plain (s : string) :
  anyInClassOf inClass s = false -> escapeHtml s = s.
Proof.
  induction s as [|c s IH]; [reflexivity|].
  simpl. intros H. apply orb_false_iff in H as [Hc Hs].
  rewrite Hc, IH by exact Hs. reflexivity.
Qed.





(** ** Dispatch on the node type *)

Section Dispatch.

Variables (level : Z) (value : string) (ordered : jsval) (url : string)
          (alt : option string) (children : option (list node)).
Variables (rules : FormattingRule) (depth : Z).

Lemma astToHtml_heading :
  astToHtml (mkNode "heading" level value ordered url alt children) rules depth
  = headingHtml level
      (match headingStyles rules !! headingKey level with
       | Some st => st
       | None => emptyHeadingStyle
       end)
      (forEachOpt (fun child => astToHtml child rules depth) children "").
Proof. reflexivity. Qed.

Lemma astToHtml_list :
  astToHtml (mkNode "list" level value ordered url alt children) rules depth
  = listHtml ordered depth
      (forEachOpt (fun child => astToHtml child rules (depth + 1)) children "").
Proof. reflexivity. Qed.

Lemma astToHtml_listItem :
  astToHtml (mkNode "listItem" level value ordered url alt children) rules depth
  = "<li>" ++ forEachOpt (fun child => astToHtml child rules depth) children "" ++ "</li>".
Proof. reflexivity. Qed.

Lemma astToHtml_table :
  astToHtml (mkNode "table" level value ordered url alt children) rules depth
  = match children with
    | None => tableOpen (tableStyles rules)
    | Some rows =>
        forEachIdx
          (fun row rowIndex =>
             let isHeader := Nat.eqb rowIndex 0 && Nat.ltb 1 (List.length rows) in
             forEachOpt
               (fun cell =>
                  cellHtml (tableStyles rules) (if isHeader then "th" else "td")
                    (forEachOpt (fun child => astToHtml child rules depth)
                                (node_children cell) ""))
               (node_children row)
               (rowOpen (tableStyles rules) isHeader)
             ++ "</tr>")
          rows 0%nat (tableOpen (tableStyles rules))
    end
    ++ "</tbody></table>".
Proof. reflexivity. Qed.

End Dispatch.

(** ** Headings *)

Lemma jsOr_undefined (d : jsval) : jsOr JUndefined d = d.
Proof. reflexivity. Qed.

Lemma jsOr_truthy (v d : jsval) : truthy v = true -> jsOr v d = v.
Proof. unfold jsOr. intros ->. reflexivity. Qed.

Lemma jsOr_falsy (v d : jsval) : truthy v = false -> jsOr v d = d.
Proof. unfold jsOr. intros ->. reflexivity. Qed.

(** C2, as the code has it.  A heading of level [L] is rendered with the
    style found under the key [h{L}] of the heading-style mapping.  When
    the key is absent the four style texts are the fixed defaults 16, 600,
    12 and 6; when it is present, an absent field takes the same default
    and a truthy field is printed as it is.  The element is [<h{L}>] with
    [font-size], [margin-top] and [margin-bottom] in px and [font-weight]
    as a bare number, wrapping the rendered children. *)
Theorem heading_style_two_level_default (n : node) (rules : FormattingRule) (depth : Z) :
  node_type n = "heading" ->
  let L := node_depth n in
  let content := astToHtml (root (node_children n)) rules depth in
  (headingKey 1 = "h1" /\ headingKey 2 = "h2" /\ headingKey 3 = "h3"
   /\ headingKey 4 = "h4" /\ headingKey 5 = "h5" /\ headingKey 6 = "h6")
  /\ (headingStyles rules !! headingKey L = None ->
      astToHtml n rules depth = headingElement L "16" "600" "12" "6" content)
  /\ (forall st : HeadingStyle,
        headingStyles rules !! headingKey L = Some st ->
        astToHtml n rules depth
        = headingElement L
            (toString (jsOr (hs_fontSize st) (JNum 16)))
            (toString (jsOr (hs_fontWeight st) (JNum 600)))
            (toString (jsOr (hs_marginTop st) (JNum 12)))
            (toString (jsOr (hs_marginBottom st) (JNum 6)))
            content)
  /\ (forall d : jsval, jsOr JUndefined d = d)
  /\ (forall v d : jsval, truthy v = true -> jsOr v d = v).
Proof.
  destruct n as [ty lv v o u a cs].
  node_fields. intros ->.
  split; [repeat split|].
  split.
  { intros Hnone. rewrite astToHtml_heading, Hnone. reflexivity. }
  split.
  { intros st Hsome. rewrite astToHtml_heading, Hsome. reflexivity. }
  split; [exact jsOr_undefined|exact jsOr_truthy].
Qed.

Lemma heading_style_two_level_default_witness :
  astToHtml (heading 2 (Some [text "Intro"])) mockFormattingRule 0
  = headingElement 2 "24" "800" "20" "10" "Intro"
  /\ astToHtml (heading 2 (Some [text "Intro"]))
       (withStyles mockFormattingRule ∅ DEFAULT_CODE_BLOCK_STYLES DEFAULT_TABLE_STYLES) 0
     = headingElement 2 "16" "600" "12" "6" "Intro"
  /\ astToHtml (heading 2 (Some [text "Intro"]))
       (withStyles mockFormattingRule
          (<["h2" := mkHeadingStyle (JNum 40) JUndefined JUndefined (JNum 3)]> ∅)
          DEFAULT_CODE_BLOCK_STYLES DEFAULT_TABLE_STYLES) 0
     = headingElement 2 "40" "600" "12" "3" "Intro".
Proof.
  split.
  { destruct (heading_style_two_level_default
                (heading 2 (Some [text "Intro"])) mockFormattingRule 0 eq_refl)
      as (_ & _ & Hsome & _).
    exact (Hsome (numStyle 24 800 20 10) eq_refl). }
  split.
  { destruct (heading_style_two_level_default
                (heading 2 (Some [text "Intro"]))
                (withStyles mockFormattingRule ∅ DEFAULT_CODE_BLOCK_STYLES DEFAULT_TABLE_STYLES)
                0 eq_refl)
      as (_ & Hnone & _).
    exact (Hnone eq_refl). }
  destruct (heading_style_two_level_default
              (heading 2 (Some [text "Intro"]))
              (withStyles mockFormattingRule
                 (<["h2" := mkHeadingStyle (JNum 40) JUndefined JUndefined (JNum 3)]> ∅)
                 DEFAULT_CODE_BLOCK_STYLES DEFAULT_TABLE_STYLES)
              0 eq_refl)
    as (_ & _ & Hsome & _).
  exact (Hsome (mkHeadingStyle (JNum 40) JUndefined JUndefined (JNum 3)) eq_refl).
Defined.

(** C2, as the specification words it, fails: the font weight of a heading
    is not printed in px.  With the default heading styles a level-1
    heading carries [font-weight: 900;], and [font-weight: 900px] does not
    occur in the output. *)
Lemma heading_font_weight_has_no_px :
  astToHtml (heading 1 (Some [text "Title"])) mockFormattingRule 0
  = "<h1 style=" ++ dq
    ++ "font-size: 32px; font-weight: 900; margin-top: 24px; margin-bottom: 12px;"
    ++ dq ++ ">Title</h1>"
  /\ ~ Contains (astToHtml (heading 1 (Some [text "Title"])) mockFormattingRule 0)
                "font-weight: 900px".
Proof.
  split; [vm_compute; reflexivity|].
  apply not_includes_not_Contains. vm_compute. reflexivity.
Qed.

(** ** Style values *)

Lemma toString_jsOr (v d : jsval) :
  toString (jsOr v d) = configuredOr v (toString d).
Proof.
  destruct v as [| |[|]|z|r|s]; try reflexivity.
  - unfold jsOr. simpl. destruct (z =? 0); reflexivity.
  - unfold jsOr. simpl. destruct (String.eqb s ""); reflexivity.
Qed.

Lemma tableOpen_element (ts : TableStyles) : tableOpen ts = tableElementOpen ts.
Proof. unfold tableOpen, tableElementOpen. rewrite toString_jsOr. reflexivity. Qed.

Lemma cellHtml_element (ts : TableStyles) (tag content : string) :
  cellHtml ts tag content = tableCellElement ts tag content.
Proof.
  unfold cellHtml, cellCss, tableCellElement. rewrite !toString_jsOr.
  rewrite !append_assoc. reflexivity.
Qed.

Lemma headingHtml_element (level : Z) (st : HeadingStyle) (content : string) :
  headingHtml level st content = headingElementOf level st content.
Proof.
  unfold headingHtml, headingCss, headingElementOf, headingElement.
  rewrite !toString_jsOr. reflexivity.
Qed.

Lemma inlineCodeHtml_element (cs : CodeBlockStyles) (value : string) :
  inlineCodeHtml cs value = inlineCodeElement cs (escapeHtml value).
Proof.
  unfold inlineCodeHtml, inlineCodeCss, inlineCodeElement.
  rewrite !toString_jsOr. reflexivity.
Qed.

Lemma codeHtml_element (cs : CodeBlockStyles) (value : string) :
  codeHtml cs value = codeBlockElement cs (escapeHtml value).
Proof.
  unfold codeHtml, preCss, codeBlockElement. cbv zeta.
  rewrite !toString_jsOr. reflexivity.
Qed.

Lemma configuredOr_falsy (v : jsval) (d : string) : truthy v = false -> configuredOr v d = d.
Proof.
  destruct v as [| |[|]|z|r|s]; simpl; try reflexivity; try discriminate.
  - destruct (z =? 0); [reflexivity|discriminate].
  - destruct (String.eqb s ""); [reflexivity|discriminate].
Qed.

Lemma configuredOr_truthy (v : jsval) (d : string) :
  truthy v = true -> configuredOr v d = toString v.
Proof.
  destruct v as [| |[|]|z|r|s]; simpl; try reflexivity; try discriminate.
  - destruct (z =? 0); [discriminate|reflexivity].
  - destruct (String.eqb s ""); [discriminate|reflexivity].
Qed.

(** ** Tables *)

Lemma forEachOpt_acc {A : Type} (f : A -> string) (l : option (list A)) (html : string) :
  forEachOpt f l html = html ++ forEachOpt f l "".
Proof.
  destruct l as [l|]; simpl; [apply forEach_acc|].
  symmetry. apply append_nil_r.
Qed.

Lemma forEachIdx_from_S {A : Type} (f : A -> nat -> string) (g : A -> string)
    (l : list A) (i : nat) (html : string) :
  (forall x j, f x (S j) = g x) ->
  forEachIdx f l (S i) html = forEach g l html.
Proof.
  intros H. unfold forEach. revert i html.
  induction l as [|x l IH]; intros i html; simpl; [reflexivity|].
  rewrite H. apply IH.
Qed.

(** The row emitted by the loop of the source is [rowElement]. *)
Lemma table_row_loop (rules : FormattingRule) (depth : Z) (header : bool) (row : node) :
  forEachOpt
    (fun cell =>
       cellHtml (tableStyles rules) (if header then "th" else "td")
         (forEachOpt (fun child => astToHtml child rules depth) (node_children cell) ""))
    (node_children row)
    (rowOpen (tableStyles rules) header)
  ++ "</tr>"
  = rowElement rules depth header row.
Proof.
  rewrite forEachOpt_acc. unfold rowElement, rowOpen, rowBackground.
  rewrite !append_assoc. reflexivity.
Qed.

Lemma rowElement_element (rules : FormattingRule) (depth : Z) (header : bool) (row : node) :
  rowElement rules depth header row = tableRowElement rules depth header row.
Proof.
  assert (Hcells :
            forEachOpt
              (fun cell =>
                 cellHtml (tableStyles rules) (if header then "th" else "td")
                          (astToHtml (root (node_children cell)) rules depth))
              (node_children row) ""
            = match node_children row with
              | Some cells =>
                  fold_right
                    (fun cell rest =>
                       tableCellElement (tableStyles rules) (if header then "th" else "td")
                                        (astToHtml (root (node_children cell)) rules depth)
                       ++ rest)
                    "" cells
              | None => ""
              end).
  { destruct (node_children row) as [cells|]; [|reflexivity].
    cbn [forEachOpt]. rewrite forEach_fold_right.
    induction cells as [|cell cells IH]; [reflexivity|].
    cbn [fold_right]. rewrite cellHtml_element, IH. reflexivity. }
  unfold rowElement, tableRowElement. rewrite toString_jsOr, Hcells. reflexivity.
Qed.

Lemma table_rows_loop (rules : FormattingRule) (depth : Z) (total : nat)
    (rows : list node) (i : nat) (html : string) :
  forEachIdx
    (fun row rowIndex =>
       let isHeader := Nat.eqb rowIndex 0 && Nat.ltb 1 total in
       forEachOpt
         (fun cell =>
            cellHtml (tableStyles rules) (if isHeader then "th" else "td")
              (forEachOpt (fun child => astToHtml child rules depth) (node_children cell) ""))
         (node_children row)
         (rowOpen (tableStyles rules) isHeader)
       ++ "</tr>")
    rows i html
  = html ++ tableRowsFrom rules depth total i rows.
Proof.
  revert i html. induction rows as [|row rows IH]; intros i html.
  - symmetry. apply append_nil_r.
  - cbn [forEachIdx tableRowsFrom]. rewrite IH.
    pose proof (table_row_loop rules depth (Nat.eqb i 0 && Nat.ltb 1 total) row) as Hr.
    cbv beta iota zeta in Hr |- *. rewrite Hr, rowElement_element.
    apply append_assoc.
Qed.

Lemma tableRowsFrom_data (rules : FormattingRule) (depth : Z) (total : nat) (i : nat)
    (rows : list node) :
  tableRowsFrom rules depth total (S i) rows
  = fold_right (fun r html => tableRowElement rules depth false r ++ html) "" rows.
Proof.
  revert i. induction rows as [|r rows IH]; intros i; [reflexivity|].
  cbn [tableRowsFrom fold_right Nat.eqb andb]. rewrite IH. reflexivity.
Qed.

Lemma astToHtml_table_rows (n : node) (rules : FormattingRule) (depth : Z) (rows : list node) :
  node_type n = "table" ->
  node_children n = Some rows ->
  astToHtml n rules depth
  = tableElementOpen (tableStyles rules)
    ++ tableRowsFrom rules depth (List.length rows) 0 rows
    ++ "</tbody></table>".
Proof.
  destruct n as [ty lv v o u a cs]. node_fields. intros -> ->.
  rewrite astToHtml_table.
  pose proof (table_rows_loop rules depth (List.length rows) rows 0 (tableOpen (tableStyles rules)))
    as Hl.
  cbv beta iota zeta in Hl |- *. rewrite Hl, tableOpen_element. apply append_assoc.
Qed.

(** C3.  A table is its opening, its rows in order and its closing.  The
    row numbered [i] is a header row exactly when [i] is 0 and the table
    has more than one row: its cells are then [th] cells and the row has
    the configured header background (the default [#f9f9f9] when none is
    configured); every other row, and the only row of a one-row table,
    has [td] cells on a white background.  A cell carries the same inline
    style whatever its tag: the configured border colour, padding and
    font size, each replaced by its default ([#ddd], 8, 11) when it is
    not configured. *)
Theorem table_header_row_only_with_several_rows
    (n : node) (rules : FormattingRule) (depth : Z) :
  node_type n = "table" ->
  let ts := tableStyles rules in
  (node_children n = None ->
   astToHtml n rules depth = tableElementOpen ts ++ "</tbody></table>")
  /\ (forall rows : list node,
        node_children n = Some rows ->
        astToHtml n rules depth
        = tableElementOpen ts
          ++ tableRowsFrom rules depth (List.length rows) 0 rows
          ++ "</tbody></table>")
  /\ (node_children n = Some [] ->
      astToHtml n rules depth = tableElementOpen ts ++ "</tbody></table>")
  /\ (forall r : node,
        node_children n = Some [r] ->
        astToHtml n rules depth
        = tableElementOpen ts ++ tableRowElement rules depth false r ++ "</tbody></table>")
  /\ (forall (r0 r1 : node) (rest : list node),
        node_children n = Some (r0 :: r1 :: rest) ->
        astToHtml n rules depth
        = tableElementOpen ts ++ tableRowElement rules depth true r0
          ++ fold_right (fun r html => tableRowElement rules depth false r ++ html)
                        "" (r1 :: rest)
          ++ "</tbody></table>")
  /\ (forall (i total : nat),
        Nat.eqb i 0 && Nat.ltb 1 total = true <-> (i = 0 /\ 1 < total)%nat).
Proof.
  destruct n as [ty lv v o u a cs].
  node_fields. intros ->.
  assert (Hrows : forall rows : list node,
             cs = Some rows ->
             astToHtml (mkNode "table" lv v o u a cs) rules depth
             = tableElementOpen (tableStyles rules)
               ++ tableRowsFrom rules depth (List.length rows) 0 rows
               ++ "</tbody></table>").
  { intros rows Hcs. apply astToHtml_table_rows; [reflexivity|exact Hcs]. }
  split.
  { intros ->. rewrite astToHtml_table, tableOpen_element. reflexivity. }
  split; [exact Hrows|].
  split.
  { intros H. rewrite (Hrows _ H). reflexivity. }
  split.
  { intros r H. rewrite (Hrows _ H). cbn [tableRowsFrom List.length Nat.eqb Nat.ltb Nat.leb andb].
    rewrite append_nil_r. reflexivity. }
  split.
  { intros r0 r1 rest H. rewrite (Hrows _ H).
    change (tableRowsFrom rules depth (List.length (r0 :: r1 :: rest)) 0 (r0 :: r1 :: rest))
      with (tableRowElement rules depth true r0
            ++ tableRowsFrom rules depth (List.length (r0 :: r1 :: rest)) 1 (r1 :: rest)).
    rewrite tableRowsFrom_data, append_assoc. reflexivity. }
  intros i total. rewrite andb_true_iff, Nat.eqb_eq, Nat.ltb_lt. reflexivity.
Qed.

Lemma table_header_row_only_with_several_rows_witness :
  astToHtml (table (Some [tableRow [tableCell [text "only"]]]))
    (withStyles mockFormattingRule DEFAULT_HEADING_STYLES DEFAULT_CODE_BLOCK_STYLES
                customTableStyles) 0
  = "<table style=" ++ dq
    ++ "border-collapse: collapse; width: 100%; margin-bottom: 1em; border: 1px solid #333;"
    ++ dq ++ "><tbody>"
    ++ "<tr style=" ++ dq ++ "background-color: white;" ++ dq ++ ">"
    ++ "<td style=" ++ dq ++ "border: 1px solid #333; padding: 8px; font-size: 9px;" ++ dq
    ++ ">only</td></tr>"
    ++ "</tbody></table>"
  /\ astToHtml (table (Some [tableRow [tableCell [text "k"]]; tableRow [tableCell [text "v"]]]))
       (withStyles mockFormattingRule DEFAULT_HEADING_STYLES DEFAULT_CODE_BLOCK_STYLES
                   customTableStyles) 0
     = "<table style=" ++ dq
       ++ "border-collapse: collapse; width: 100%; margin-bottom: 1em; border: 1px solid #333;"
       ++ dq ++ "><tbody>"
       ++ "<tr style=" ++ dq ++ "background-color: #eef;" ++ dq ++ ">"
       ++ "<th style=" ++ dq ++ "border: 1px solid #333; padding: 8px; font-size: 9px;" ++ dq
       ++ ">k</th></tr>"
       ++ "<tr style=" ++ dq ++ "background-color: white;" ++ dq ++ ">"
       ++ "<td style=" ++ dq ++ "border: 1px solid #333; padding: 8px; font-size: 9px;" ++ dq
       ++ ">v</td></tr>"
       ++ "</tbody></table>"
  /\ astToHtml (table (Some [tableRow [tableCell [text "k"]]; tableRow [tableCell [text "v"]]]))
       mockFormattingRule 0
     = "<table style=" ++ dq
       ++ "border-collapse: collapse; width: 100%; margin-bottom: 1em; border: 1px solid #ddd;"
       ++ dq ++ "><tbody>"
       ++ "<tr style=" ++ dq ++ "background-color: #f9f9f9;" ++ dq ++ ">"
       ++ "<th style=" ++ dq ++ "border: 1px solid #ddd; padding: 8px; font-size: 11px;" ++ dq
       ++ ">k</th></tr>"
       ++ "<tr style=" ++ dq ++ "background-color: white;" ++ dq ++ ">"
       ++ "<td style=" ++ dq ++ "border: 1px solid #ddd; padding: 8px; font-size: 11px;" ++ dq
       ++ ">v</td></tr>"
       ++ "</tbody></table>".
Proof.
  split; [|split].
  - destruct (table_header_row_only_with_several_rows
                (table (Some [tableRow [tableCell [text "only"]]]))
                (withStyles mockFormattingRule DEFAULT_HEADING_STYLES DEFAULT_CODE_BLOCK_STYLES
                            customTableStyles) 0 eq_refl)
      as (_ & _ & _ & Hone & _).
    rewrite (Hone _ eq_refl). vm_compute. reflexivity.
  - destruct (table_header_row_only_with_several_rows
                (table (Some [tableRow [tableCell [text "k"]]; tableRow [tableCell [text "v"]]]))
                (withStyles mockFormattingRule DEFAULT_HEADING_STYLES DEFAULT_CODE_BLOCK_STYLES
                            customTableStyles) 0 eq_refl)
      as (_ & _ & _ & _ & Hmany & _).
    rewrite (Hmany _ _ _ eq_refl). vm_compute. reflexivity.
  - destruct (table_header_row_only_with_several_rows
                (table (Some [tableRow [tableCell [text "k"]]; tableRow [tableCell [text "v"]]]))
                mockFormattingRule 0 eq_refl)
      as (_ & _ & _ & _ & Hmany & _).
    rewrite (Hmany _ _ _ eq_refl). vm_compute. reflexivity.
Defined.

(** ** Lists *)

(** C4.  A list rendered at depth [d] is an [ol] element when its ordered
    flag is truthy and a [ul] element otherwise, with the inline style
    [margin-left: (20 + d*20)px; margin-bottom: 1em;]; its children are
    rendered at depth [d + 1], a list item renders its children at its own
    depth, so a list directly inside an item of a list has a left margin
    20px larger; and the document root is rendered at depth 0. *)
Theorem list_margin_grows_by_20px_per_level (rules : FormattingRule) (depth : Z) :
  (forall n : node,
     node_type n = "list" ->
     astToHtml n rules depth
     = listElement (truthy (node_ordered n)) (20 + depth * 20)
         (astToHtml (root (node_children n)) rules (depth + 1)))
  /\ (forall n : node,
        node_type n = "listItem" ->
        astToHtml n rules depth
        = "<li>" ++ astToHtml (root (node_children n)) rules depth ++ "</li>")
  /\ (forall (outer inner : jsval) (items : option (list node)),
        astToHtml (list_ outer (Some [listItem (Some [list_ inner items])])) rules depth
        = listElement (truthy outer) (20 + depth * 20)
            ("<li>"
             ++ listElement (truthy inner) (20 + depth * 20 + 20)
                  (astToHtml (root items) rules (depth + 1 + 1))
             ++ "</li>"))
  /\ (forall (parse : string -> node) (markdown : string),
        markdownToHtml parse markdown rules
        = generateStyledHtml (astToHtml (parse markdown) rules 0) rules)
  /\ (forall (ordered : jsval) (items : option (list node)),
        astToHtml (root (Some [list_ ordered items])) rules 0
        = listElement (truthy ordered) 20 (astToHtml (root items) rules 1)).
Proof.
  assert (Hlist : forall (n : node) (d : Z),
             node_type n = "list" ->
             astToHtml n rules d
             = listElement (truthy (node_ordered n)) (20 + d * 20)
                 (astToHtml (root (node_children n)) rules (d + 1))).
  { intros [ty lv v o u a cs] d. node_fields.
    intros ->. rewrite astToHtml_list.
    unfold listHtml, listElement, listTag, listCss. reflexivity. }
  split; [intros n; apply Hlist|].
  split.
  { intros [ty lv v o u a cs]. node_fields.
    intros ->. reflexivity. }
  split; [|split; reflexivity].
  intros outer inner items.
  replace (20 + depth * 20 + 20) with (20 + (depth + 1) * 20) by lia.
  reflexivity.
Qed.

Lemma list_margin_grows_by_20px_per_level_witness :
  astToHtml
    (list_ (JBool false)
       (Some [listItem (Some [text "a"; list_ (JBool true) (Some [listItem (Some [text "b"])])])]))
    mockFormattingRule 0
  = "<ul style=" ++ dq ++ "margin-left: 20px; margin-bottom: 1em;" ++ dq ++ "><li>a"
    ++ "<ol style=" ++ dq ++ "margin-left: 40px; margin-bottom: 1em;" ++ dq ++ "><li>b</li></ol>"
    ++ "</li></ul>".
Proof.
  destruct (list_margin_grows_by_20px_per_level mockFormattingRule 0) as (Hlist & _).
  rewrite (Hlist
             (list_ (JBool false)
                (Some [listItem
                         (Some [text "a";
                                list_ (JBool true) (Some [listItem (Some [text "b"])])])]))
             eq_refl).
  vm_compute. reflexivity.
Defined.

(** ** The document shell *)

Lemma strictEqStr_true (v : jsval) (lit : string) :
  strictEqStr v lit = true <-> v = JStr lit.
Proof.
  destruct v; simpl; try (split; [discriminate|discriminate]).
  rewrite String.eqb_eq. split; [intros ->; reflexivity|intros [= ->]; reflexivity].
Qed.

Lemma strictEqStr_false (v : jsval) (lit : string) :
  strictEqStr v lit = false <-> v <> JStr lit.
Proof.
  rewrite <- strictEqStr_true. destruct (strictEqStr v lit); split; congruence.
Qed.

Lemma EndsWith_refl (s : string) : EndsWith s s.
Proof. exists "". reflexivity. Qed.

Lemma EndsWith_app (s t suffix : string) : EndsWith t suffix -> EndsWith (s ++ t) suffix.
Proof.
  intros [pre ->]. exists (s ++ pre). symmetry. apply append_assoc.
Qed.

(** C5.  The document opens with the fixed head of the shell followed by
    the [@page] rule; the size of that rule is [8.5in 11in] exactly when
    the page size of the rule is the string [Letter], and [210mm 297mm]
    for every other value; its margin declaration lists the top, right,
    bottom and left margins of the rule, in that order, each followed by
    [mm]. *)
Theorem page_rule_size_and_margins (content : string) (rules : FormattingRule) :
  exists size rest : string,
    generateStyledHtml content rules
    = shellHead ++ "@page {
      size: " ++ size ++ ";
      margin: "
      ++ (toString (marginTop rules) ++ "mm") ++ " "
      ++ (toString (marginRight rules) ++ "mm") ++ " "
      ++ (toString (marginBottom rules) ++ "mm") ++ " "
      ++ (toString (marginLeft rules) ++ "mm") ++ ";" ++ rest
    /\ (pageSize rules = JStr "Letter" <-> size = "8.5in 11in")
    /\ (pageSize rules <> JStr "Letter" <-> size = "210mm 297mm").
Proof.
  exists (if strictEqStr (pageSize rules) "Letter" then "8.5in 11in" else "210mm 297mm").
  eexists. split; [unfold generateStyledHtml; cbv zeta; reflexivity|].
  destruct (strictEqStr (pageSize rules) "Letter") eqn:E.
  - apply strictEqStr_true in E. split; split; intros H; congruence.
  - apply strictEqStr_false in E. split; split; intros H; congruence.
Qed.

Lemma page_rule_size_and_margins_witness :
  Contains
    (generateStyledHtml ""
       (withPage mockFormattingRule (JStr "Letter") (JNum 30) (JNum 25) (JNum 20) (JNum 20)))
    "@page {
      size: 8.5in 11in;
      margin: 30mm 20mm 25mm 20mm;"
  /\ Contains
       (generateStyledHtml ""
          (withPage mockFormattingRule JUndefined (JNum 30) (JNum 25) (JNum 10) (JNum 15)))
       "@page {
      size: 210mm 297mm;
      margin: 30mm 15mm 25mm 10mm;".
Proof.
  split.
  - destruct (page_rule_size_and_margins ""
                (withPage mockFormattingRule (JStr "Letter")
                   (JNum 30) (JNum 25) (JNum 20) (JNum 20)))
      as (size & rest & Hdoc & Hletter & _).
    rewrite Hdoc, (proj1 Hletter eq_refl).
    apply Contains_app_r. exists "", rest. reflexivity.
  - destruct (page_rule_size_and_margins ""
                (withPage mockFormattingRule JUndefined
                   (JNum 30) (JNum 25) (JNum 10) (JNum 15)))
      as (size & rest & Hdoc & _ & Hother).
    rewrite Hdoc, (proj1 Hother); [|discriminate].
    apply Contains_app_r. exists "", rest. reflexivity.
Defined.

Lemma before_hole (s : string) (g K : string -> string) :
  (exists pre, forall c, g c = pre ++ K c) ->
  exists pre, forall c, s ++ g c = pre ++ K c.
Proof.
  intros [pre H]. exists (s ++ pre). intros c. rewrite H. symmetry. apply append_assoc.
Qed.

Lemma generateStyledHtml_body (rules : FormattingRule) :
  exists pre : string,
    forall content : string,
      generateStyledHtml content rules = pre ++ content ++ shellTail.
Proof.
  unfold generateStyledHtml. cbv zeta.
  do 28 apply (before_hole _ _ (fun c => c ++ shellTail)).
  exists "". intros c. reflexivity.
Qed.

(** ** The document, line by line *)

Lemma catPieces_rest (pieces : list string) (rest : string) :
  catPieces pieces rest = catPieces pieces "" ++ rest.
Proof.
  induction pieces as [|p pieces IH]; [reflexivity|].
  cbn [catPieces]. rewrite IH, append_assoc. reflexivity.
Qed.

Lemma startsWith_before_foreign (c : ascii) (n a b : string) :
  hasChar c n = false -> startsWith n (a ++ String c b) = startsWith n a.
Proof.
  revert a. induction n as [|x n IH]; intros a H; [reflexivity|].
  cbn [hasChar] in H. apply orb_false_iff in H as [Hx Hn].
  destruct a as [|y a].
  - rewrite append_nil_l. cbn [startsWith]. rewrite Hx. reflexivity.
  - rewrite append_cons. cbn [startsWith]. rewrite (IH a Hn). reflexivity.
Qed.

Lemma includes_split (c : ascii) (n a b : string) :
  hasChar c n = false ->
  includes (a ++ String c b) n = includes a n || includes b n.
Proof.
  intros H. induction a as [|y a IH].
  - rewrite append_nil_l. cbn [includes].
    rewrite <- (append_nil_l (String c b)) at 1.
    rewrite (startsWith_before_foreign c n "" b H), orb_false_r. reflexivity.
  - rewrite append_cons. cbn [includes]. rewrite IH.
    rewrite <- append_cons, (startsWith_before_foreign c n (String y a) b H).
    apply orb_assoc.
Qed.

Lemma includes_empty (n : string) : n <> "" -> includes "" n = false.
Proof. destruct n; [congruence|reflexivity]. Qed.

Lemma catLines_includes (n : string) (lines : list (list string)) :
  n <> "" -> hasChar newline n = false ->
  includes (catLines lines) n = existsb (fun l => includes (catPieces l "") n) lines.
Proof.
  intros Hne Hnl. induction lines as [|l lines IH]; [apply includes_empty; exact Hne|].
  cbn [catLines existsb]. destruct lines as [|l' lines].
  - cbn [existsb]. rewrite orb_false_r. reflexivity.
  - rewrite catPieces_rest, (includes_split newline n _ _ Hnl), IH. reflexivity.
Qed.

Lemma includes_hasChar (c : ascii) (s n : string) :
  includes s n = true -> hasChar c n = true -> hasChar c s = true.
Proof.
  intros H Hc. apply includes_Contains in H as (pre & post & ->).
  rewrite !hasChar_app, Hc. apply orb_true_iff. right. reflexivity.
Qed.

Lemma includes_without_char (c : ascii) (s n : string) :
  hasChar c s = false -> hasChar c n = true -> includes s n = false.
Proof.
  intros Hs Hn. destruct (includes s n) eqn:E; [|reflexivity].
  rewrite (includes_hasChar c s n E Hn) in Hs. discriminate.
Qed.

Lemma h1Slot_source (rules : FormattingRule) :
  (if strictEqStr (pageBreakBeforeHeadings rules) "h1" then h1BreakRule else "")
  = h1Slot rules.
Proof.
  unfold h1Slot. destruct (strictEqStr (pageBreakBeforeHeadings rules) "h1") eqn:E.
  - apply strictEqStr_true in E. rewrite E. reflexivity.
  - destruct (pageBreakBeforeHeadings rules) as [| | | | |s]; try reflexivity.
    simpl in E. apply String.eqb_neq in E.
    repeat (destruct s as [|[[|] [|] [|] [|] [|] [|] [|] [|]] s]; try reflexivity).
    congruence.
Qed.

Lemma h2Slot_source (rules : FormattingRule) :
  (if strictEqStr (pageBreakBeforeHeadings rules) "h2" then h2BreakRule else "")
  = h2Slot rules.
Proof.
  unfold h2Slot. destruct (strictEqStr (pageBreakBeforeHeadings rules) "h2") eqn:E.
  - apply strictEqStr_true in E. rewrite E. reflexivity.
  - destruct (pageBreakBeforeHeadings rules) as [| | | | |s]; try reflexivity.
    simpl in E. apply String.eqb_neq in E.
    repeat (destruct s as [|[[|] [|] [|] [|] [|] [|] [|] [|]] s]; try reflexivity).
    congruence.
Qed.

Lemma pageDimensions_source (rules : FormattingRule) :
  (if strictEqStr (pageSize rules) "Letter" then "8.5in 11in" else "210mm 297mm")
  = pageDimensions rules.
Proof.
  unfold pageDimensions. destruct (strictEqStr (pageSize rules) "Letter") eqn:E.
  - apply strictEqStr_true in E. rewrite E. reflexivity.
  - destruct (pageSize rules) as [| | | | |s]; try reflexivity.
    simpl in E. apply String.eqb_neq in E.
    repeat (destruct s as [|[[|] [|] [|] [|] [|] [|] [|] [|]] s]; try reflexivity).
    congruence.
Qed.

(** The document of the source is the document given line by line. *)
Lemma generateStyledHtml_lines (content : string) (rules : FormattingRule) :
  generateStyledHtml content rules = catLines (documentLines content rules).
Proof.
  unfold generateStyledHtml. cbv zeta.
  rewrite h1Slot_source, h2Slot_source, pageDimensions_source.
  reflexivity.
Qed.

Lemma hasChar_escapeHtml_brace (s : string) :
  hasChar "{" s = false -> hasChar "{" (escapeHtml s) = false.
Proof.
  induction s as [|c s IH]; [reflexivity|].
  cbn [hasChar]. intros H. apply orb_false_iff in H as [Hc Hs].
  rewrite escapeHtml_cons, hasChar_app, (IH Hs), orb_false_r.
  destruct (inClass c) eqn:E.
  - destruct (inClass_true c E) as [-> | [-> | [-> | [-> | -> ]]]]; reflexivity.
  - cbn [hasChar]. rewrite Hc. reflexivity.
Qed.

Lemma includes_split_dq (n a b : string) :
  hasChar "034" n = false ->
  includes (a ++ dq ++ b) n = includes a n || includes b n.
Proof. intros H. exact (includes_split "034" n a b H). Qed.

Lemma includes_after_space (n s : string) :
  startsWith " " n = false -> includes (" " ++ s) n = includes s n.
Proof.
  intros H. change (" " ++ s) with (String " " s). cbn [includes].
  destruct n as [|x n]; [destruct s; reflexivity|].
  cbn [startsWith] in H |- *. rewrite andb_true_r in H.
  rewrite Ascii.eqb_sym in H. rewrite H. reflexivity.
Qed.

(** Membership in a list given in full. *)
Ltac in_list :=
  unfold fixedLineTexts; cbn [In]; repeat (first [left; reflexivity | right]).

Section LineSearch.

Variable n : string.
Hypothesis Hn : lineSearchable n = true.

Lemma lineSearchable_facts :
  n <> "" /\ hasChar newline n = false /\ hasChar "034" n = false
  /\ hasChar "{" n = true /\ startsWith " " n = false
  /\ existsb (fun l => includes (catPieces l "") n)
             (headLines ++ headingRuleLines ++ elementRuleLines ++ tailLines) = false
  /\ forall s, In s fixedLineTexts -> includes s n = false.
Proof.
  unfold lineSearchable in Hn.
  repeat (apply andb_true_iff in Hn as [Hn ?]).
  repeat match goal with
         | H : negb _ = true |- _ => apply negb_true_iff in H
         end.
  apply String.eqb_neq in Hn.
  repeat split; try assumption.
  intros s Hs.
  match goal with
  | H : forallb _ _ = true |- _ => rewrite forallb_forall in H; specialize (H s Hs)
  end.
  apply negb_true_iff. assumption.
Qed.

Lemma includes_braceless (s : string) : braceFree s -> includes s n = false.
Proof.
  intros Hs. apply (includes_without_char "{"); [exact Hs|].
  exact (proj1 (proj2 (proj2 (proj2 lineSearchable_facts)))).
Qed.

Lemma includes_fixed (s : string) : In s fixedLineTexts -> includes s n = false.
Proof. apply lineSearchable_facts. Qed.

Lemma includes_marginBox_line (box : string) (text : option string) :
  box = "top-center" \/ box = "bottom-center" ->
  braceFree (textOr text "") ->
  includes (catPieces ["      "; marginBox box text] "") n = false.
Proof.
  intros Hbox Htext. cbn [catPieces]. rewrite append_nil_r. unfold marginBox.
  destruct lineSearchable_facts as (_ & _ & Hdq & _).
  destruct (truthyText text); [|apply includes_fixed; in_list].
  destruct Hbox as [-> | ->].
  - change ("      " ++ "@" ++ "top-center" ++ " { content: " ++ dq
            ++ escapeHtml (textOr text "") ++ dq ++ "; }")
      with ("      @top-center { content: " ++ dq
            ++ (escapeHtml (textOr text "") ++ dq ++ "; }")).
    rewrite (includes_split_dq _ _ _ Hdq), (includes_split_dq _ _ _ Hdq).
    rewrite (includes_braceless _ (hasChar_escapeHtml_brace _ Htext)).
    rewrite !includes_fixed; [reflexivity|in_list|in_list].
  - change ("      " ++ "@" ++ "bottom-center" ++ " { content: " ++ dq
            ++ escapeHtml (textOr text "") ++ dq ++ "; }")
      with ("      @bottom-center { content: " ++ dq
            ++ (escapeHtml (textOr text "") ++ dq ++ "; }")).
    rewrite (includes_split_dq _ _ _ Hdq), (includes_split_dq _ _ _ Hdq).
    rewrite (includes_braceless _ (hasChar_escapeHtml_brace _ Htext)).
    rewrite !includes_fixed; [reflexivity|in_list|in_list].
Qed.

Lemma includes_fixed_line (s : string) :
  In s fixedLineTexts -> includes (catPieces [s] "") n = false.
Proof. intros H. cbn [catPieces]. rewrite append_nil_r. exact (includes_fixed s H). Qed.

Lemma includes_braceless_line (l : list string) :
  List.Forall braceFree l -> includes (catPieces l "") n = false.
Proof.
  intros H. apply includes_braceless. unfold braceFree.
  induction H as [|p l Hp _ IH]; [reflexivity|].
  cbn [catPieces]. rewrite hasChar_app, Hp, IH. reflexivity.
Qed.

Lemma includes_slot_line (slot : string) :
  includes (catPieces ["    "; slot] "") n = includes slot n.
Proof.
  destruct lineSearchable_facts as (_ & _ & _ & _ & Hsp & _).
  cbn [catPieces]. rewrite append_nil_r.
  change ("    " ++ slot) with (" " ++ " " ++ " " ++ " " ++ slot).
  rewrite !(includes_after_space _ _ Hsp). reflexivity.
Qed.

Lemma includes_body_line (content : string) :
  includes (catPieces ["  "; content] "") n = includes content n.
Proof.
  destruct lineSearchable_facts as (_ & _ & _ & _ & Hsp & _).
  cbn [catPieces]. rewrite append_nil_r.
  change ("  " ++ content) with (" " ++ " " ++ content).
  rewrite !(includes_after_space _ _ Hsp). reflexivity.
Qed.

Lemma pageDimensions_cases (rules : FormattingRule) :
  pageDimensions rules = "8.5in 11in" \/ pageDimensions rules = "210mm 297mm".
Proof.
  rewrite <- pageDimensions_source.
  destruct (strictEqStr (pageSize rules) "Letter"); [left|right]; reflexivity.
Qed.

(** A searchable text occurs in the document only in one of the three
    conditional rules or in the body, when no value of the rule has an
    opening brace. *)
Lemma document_includes (content : string) (rules : FormattingRule) :
  valuesBraceFree rules ->
  includes (generateStyledHtml content rules) n
  = includes (h1Slot rules) n || includes (h2Slot rules) n
    || includes (orphanSlot rules) n || includes content n.
Proof.
  intros (Hmt & Hmr & Hmb & Hml & Hhead & Hfoot & Hff & Hfs & Hlh).
  destruct lineSearchable_facts as (Hne & Hnl & _ & _ & _ & Hblocks & _).
  rewrite !existsb_app in Hblocks.
  apply orb_false_iff in Hblocks as [Hb1 Hblocks].
  apply orb_false_iff in Hblocks as [Hb2 Hblocks].
  apply orb_false_iff in Hblocks as [Hb3 Hb4].
  assert (Hmm : forall v : string, braceFree v -> braceFree (v ++ "mm")).
  { intros v Hv. unfold braceFree. rewrite hasChar_app, Hv. reflexivity. }
  rewrite generateStyledHtml_lines, (catLines_includes n _ Hne Hnl).
  unfold documentLines. rewrite !existsb_app, Hb1, Hb2, Hb3, Hb4.
  assert (Hpage : existsb (fun l => includes (catPieces l "") n) (pageRuleLines rules) = false).
  { unfold pageRuleLines. cbn [existsb].
    rewrite (includes_fixed_line "    @page {"), (includes_fixed_line "    }")
      by in_list.
    rewrite !includes_marginBox_line
      by first [assumption | left; reflexivity | right; reflexivity].
    rewrite (includes_braceless_line [_; _; _; _; _; _; _; _; _])
      by (repeat constructor; apply Hmm; assumption).
    destruct (pageDimensions_cases rules) as [-> | ->].
    - change (catPieces ["      size: "; "8.5in 11in"; ";"] "")
        with (catPieces ["      size: 8.5in 11in;"] "").
      rewrite includes_fixed_line by in_list. reflexivity.
    - change (catPieces ["      size: "; "210mm 297mm"; ";"] "")
        with (catPieces ["      size: 210mm 297mm;"] "").
      rewrite includes_fixed_line by in_list. reflexivity. }
  assert (Hbody : existsb (fun l => includes (catPieces l "") n) (bodyRuleLines rules) = false).
  { unfold bodyRuleLines. cbn [existsb].
    rewrite (includes_fixed_line "    body {"), (includes_fixed_line "      color: #333;"),
            (includes_fixed_line "    }") by in_list.
    rewrite !(includes_braceless_line [_; _; _]) by (repeat constructor; assumption).
    change (catPieces [] "") with "".
    rewrite (includes_fixed "") by in_list. reflexivity. }
  rewrite Hpage, Hbody.
  unfold slotLines, bodyLines. cbn [existsb].
  rewrite !includes_slot_line, includes_body_line.
  change (catPieces [] "") with "".
  rewrite (includes_fixed "") by in_list.
  cbn [orb]. rewrite !orb_false_r.
  destruct (includes (h1Slot rules) n), (includes (h2Slot rules) n),
    (includes (orphanSlot rules) n); reflexivity.
Qed.

End LineSearch.

Lemma catLines_Contains (n : string) (l : list string) (lines : list (list string)) :
  In l lines -> Contains (catPieces l "") n -> Contains (catLines lines) n.
Proof.
  intros Hin Hl. induction lines as [|l' lines IH]; [destruct Hin|].
  cbn [catLines]. rewrite catPieces_rest. destruct Hin as [-> | Hin].
  - apply Contains_app_left. exact Hl.
  - apply Contains_app_r. destruct lines as [|l'' lines]; [destruct Hin|].
    apply (Contains_app_r (String newline "")). exact (IH Hin).
Qed.

Lemma slot_Contains (content : string) (rules : FormattingRule) (slot : string) :
  In ["    "; slot] (slotLines rules) ->
  Contains (generateStyledHtml content rules) slot.
Proof.
  intros Hin. rewrite generateStyledHtml_lines.
  apply (catLines_Contains slot ["    "; slot]).
  - unfold documentLines. do 4 (apply in_or_app; right).
    apply in_or_app. left. exact Hin.
  - cbn [catPieces]. apply Contains_app_r, Contains_prefix.
Qed.

Lemma printed_value_Contains (content : string) (rules : FormattingRule) (n : string) :
  Contains (fontFamily rules) n \/ Contains content n ->
  Contains (generateStyledHtml content rules) n.
Proof.
  intros H. rewrite generateStyledHtml_lines. destruct H as [H | H].
  - apply (catLines_Contains n ["      font-family: '"; fontFamily rules; "', sans-serif;"]).
    + unfold documentLines. do 2 (apply in_or_app; right).
      apply in_or_app. left. unfold bodyRuleLines. cbn [In]. right. right. left. reflexivity.
    + cbn [catPieces]. apply Contains_app_r, Contains_app_left. exact H.
  - apply (catLines_Contains n ["  "; content]).
    + unfold documentLines. do 6 (apply in_or_app; right).
      apply in_or_app. left. left. reflexivity.
    + cbn [catPieces]. apply Contains_app_r, Contains_app_left. exact H.
Qed.

Lemma Contains_empty (n : string) : n <> "" -> ~ Contains "" n.
Proof.
  intros Hne (pre & post & H). destruct pre; [|discriminate].
  rewrite append_nil_l in H. destruct n; [congruence|discriminate].
Qed.

Lemma h1Rule_searchable : lineSearchable "h1 { page-break-before: always; }" = true.
Proof. vm_compute. reflexivity. Qed.

Lemma h2Rule_searchable : lineSearchable "h2 { page-break-before: always; }" = true.
Proof. vm_compute. reflexivity. Qed.

Lemma orphanBlock_searchable :
  lineSearchable "h1, h2, h3 { page-break-after: avoid; orphans: 3; widows: 3; }" = true.
Proof. vm_compute. reflexivity. Qed.

(** C6, as the code has it.  The document is the template given line by
    line.  After the fixed rule for all headings it has one line for each
    conditional rule: the page-break-before rule for [h1] when
    [pageBreakBeforeHeadings] is the string [h1], the same for [h2], and
    the orphan and widow block for [h1], [h2], [h3] when
    [preventOrphanHeadings] is truthy; a line whose rule is not asked for
    is empty.  The builder prints these rules nowhere else: when none of
    the values of the rule that it prints into the stylesheet has an
    opening brace, each rule occurs in the document exactly when the rule
    asks for it or the body carries it.  The font family and the body are
    printed as they are, so whatever text they carry occurs in the
    document. *)
Theorem conditional_pagination_rules (content : string) (rules : FormattingRule) :
  let h1Rule := "h1 { page-break-before: always; }" in
  let h2Rule := "h2 { page-break-before: always; }" in
  let orphanBlock := "h1, h2, h3 { page-break-after: avoid; orphans: 3; widows: 3; }" in
  generateStyledHtml content rules = catLines (documentLines content rules)
  /\ (pageBreakBeforeHeadings rules = JStr "h1" -> h1Slot rules = h1Rule)
  /\ (pageBreakBeforeHeadings rules <> JStr "h1" -> h1Slot rules = "")
  /\ (pageBreakBeforeHeadings rules = JStr "h2" -> h2Slot rules = h2Rule)
  /\ (pageBreakBeforeHeadings rules <> JStr "h2" -> h2Slot rules = "")
  /\ (truthy (preventOrphanHeadings rules) = true -> orphanSlot rules = orphanBlock)
  /\ (truthy (preventOrphanHeadings rules) = false -> orphanSlot rules = "")
  /\ (pageBreakBeforeHeadings rules = JStr "h1" ->
      Contains (generateStyledHtml content rules) h1Rule)
  /\ (pageBreakBeforeHeadings rules = JStr "h2" ->
      Contains (generateStyledHtml content rules) h2Rule)
  /\ (truthy (preventOrphanHeadings rules) = true ->
      Contains (generateStyledHtml content rules) orphanBlock)
  /\ (forall n : string,
        Contains (fontFamily rules) n \/ Contains content n ->
        Contains (generateStyledHtml content rules) n)
  /\ (valuesBraceFree rules ->
      (Contains (generateStyledHtml content rules) h1Rule
       <-> pageBreakBeforeHeadings rules = JStr "h1" \/ Contains content h1Rule)
      /\ (Contains (generateStyledHtml content rules) h2Rule
          <-> pageBreakBeforeHeadings rules = JStr "h2" \/ Contains content h2Rule)
      /\ (Contains (generateStyledHtml content rules) orphanBlock
          <-> truthy (preventOrphanHeadings rules) = true \/ Contains content orphanBlock)).
Proof.
  cbv zeta.
  assert (H1 : pageBreakBeforeHeadings rules = JStr "h1" ->
               h1Slot rules = "h1 { page-break-before: always; }").
  { intros H. unfold h1Slot. rewrite H. reflexivity. }
  assert (H1' : pageBreakBeforeHeadings rules <> JStr "h1" -> h1Slot rules = "").
  { intros H. rewrite <- h1Slot_source. apply strictEqStr_false in H. rewrite H. reflexivity. }
  assert (H2 : pageBreakBeforeHeadings rules = JStr "h2" ->
               h2Slot rules = "h2 { page-break-before: always; }").
  { intros H. unfold h2Slot. rewrite H. reflexivity. }
  assert (H2' : pageBreakBeforeHeadings rules <> JStr "h2" -> h2Slot rules = "").
  { intros H. rewrite <- h2Slot_source. apply strictEqStr_false in H. rewrite H. reflexivity. }
  assert (H3 : truthy (preventOrphanHeadings rules) = true ->
               orphanSlot rules
               = "h1, h2, h3 { page-break-after: avoid; orphans: 3; widows: 3; }").
  { intros H. unfold orphanSlot. rewrite H. reflexivity. }
  assert (H3' : truthy (preventOrphanHeadings rules) = false -> orphanSlot rules = "").
  { intros H. unfold orphanSlot. rewrite H. reflexivity. }
  split; [apply generateStyledHtml_lines|].
  do 6 (split; [assumption|]).
  split.
  { intros H. rewrite <- (H1 H). apply slot_Contains. unfold slotLines. in_list. }
  split.
  { intros H. rewrite <- (H2 H). apply slot_Contains. unfold slotLines. in_list. }
  split.
  { intros H. rewrite <- (H3 H). apply slot_Contains. unfold slotLines. in_list. }
  split; [apply printed_value_Contains|].
  intros Hvalues.
  rewrite <- !includes_Contains.
  rewrite (document_includes _ h1Rule_searchable content rules Hvalues),
          (document_includes _ h2Rule_searchable content rules Hvalues),
          (document_includes _ orphanBlock_searchable content rules Hvalues).
  destruct (strictEqStr (pageBreakBeforeHeadings rules) "h1") eqn:E1;
    [apply strictEqStr_true in E1; rewrite (H1 E1)
    |apply strictEqStr_false in E1; rewrite (H1' E1)];
    (destruct (strictEqStr (pageBreakBeforeHeadings rules) "h2") eqn:E2;
     [apply strictEqStr_true in E2; rewrite (H2 E2)
     |apply strictEqStr_false in E2; rewrite (H2' E2)]);
    (destruct (truthy (preventOrphanHeadings rules)) eqn:E3;
     [rewrite (H3 eq_refl)|rewrite (H3' eq_refl)]);
    repeat split;
    try (intros _; left; first [exact E1 | exact E2 | reflexivity]);
    try (intros _; reflexivity);
    try (intros H; right; exact H);
    try (intros [H | H]; [congruence | exact H]).
Qed.

Lemma conditional_pagination_rules_witness :
  Contains (generateStyledHtml "" mockFormattingRule) "h1 { page-break-before: always; }"
  /\ ~ Contains (generateStyledHtml "" mockFormattingRule) "h2 { page-break-before: always; }"
  /\ Contains (generateStyledHtml "" mockFormattingRule)
       "h1, h2, h3 { page-break-after: avoid; orphans: 3; widows: 3; }"
  /\ ~ Contains
         (generateStyledHtml "<p>x</p>"
            (withPagination mockFormattingRule (JStr "none") (JNum 0)))
         "h1 { page-break-before: always; }"
  /\ ~ Contains
         (generateStyledHtml "<p>x</p>"
            (withPagination mockFormattingRule (JStr "none") (JNum 0)))
         "h1, h2, h3 { page-break-after: avoid; orphans: 3; widows: 3; }".
Proof.
  assert (Hmock : valuesBraceFree mockFormattingRule) by (repeat split; reflexivity).
  assert (Hnone : valuesBraceFree (withPagination mockFormattingRule (JStr "none") (JNum 0)))
    by (repeat split; reflexivity).
  destruct (conditional_pagination_rules "" mockFormattingRule)
    as (_ & _ & _ & _ & _ & _ & _ & Hh1 & _ & Horphan & _ & Hiff).
  destruct (Hiff Hmock) as (_ & Hh2 & _).
  destruct (conditional_pagination_rules "<p>x</p>"
              (withPagination mockFormattingRule (JStr "none") (JNum 0)))
    as (_ & _ & _ & _ & _ & _ & _ & _ & _ & _ & _ & Hiff').
  destruct (Hiff' Hnone) as (Hn1 & _ & Hn3).
  split; [exact (Hh1 eq_refl)|].
  split.
  { intros H. apply Hh2 in H as [H | H]; [vm_compute in H; discriminate|].
    apply (Contains_empty "h2 { page-break-before: always; }"); [discriminate|exact H]. }
  split; [exact (Horphan eq_refl)|].
  split.
  { intros H. apply Hn1 in H as [H | H]; [vm_compute in H; discriminate|].
    revert H. apply not_includes_not_Contains. reflexivity. }
  intros H. apply Hn3 in H as [H | H]; [vm_compute in H; discriminate|].
  revert H. apply not_includes_not_Contains. reflexivity.
Defined.

(** C6, as the specification words it, fails: a rule that asks for no
    page break and no orphan control, and whose font family carries the
    text of a page-break rule, gives a stylesheet with that rule in it.
    The font family is printed as it is, between the quotes of the
    [font-family] declaration, and the router of the application takes
    any string as a font family.  Escaping would not change this: a
    header text is escaped, and a header text that spells the rule still
    puts its text into the document. *)
Lemma unrequested_rule_occurs_in_the_output :
  pageBreakBeforeHeadings smugglingRule = JStr "none"
  /\ truthy (preventOrphanHeadings smugglingRule) = false
  /\ Contains (generateStyledHtml "" smugglingRule) "h1 { page-break-before: always; }"
  /\ Contains (generateStyledHtml "" smugglingRule)
       "font-family: 'Inter', serif; } h1 { page-break-before: always; } body { font-family: 'Inter', sans-serif;"
  /\ Contains
       (generateStyledHtml ""
          (withHeaderFooter (withPagination mockFormattingRule (JStr "none") (JNum 0))
                            (Some "h1 { page-break-before: always; }") None))
       "h1 { page-break-before: always; }".
Proof.
  split; [reflexivity|]. split; [reflexivity|].
  repeat split; apply includes_Contains; vm_compute; reflexivity.
Qed.

(** ** Rules that render alike *)

Lemma astToHtml_ext (r1 r2 : FormattingRule) :
  RenderEquiv r1 r2 ->
  forall (n : node) (depth : Z), astToHtml n r1 depth = astToHtml n r2 depth.
Proof.
  intros (Hlh & Hh & Hic & Hpre & Hto & Hro & Hcc).
  assert (Hsize : forall (k : nat) (n : node),
             (node_size n < k)%nat ->
             forall depth, astToHtml n r1 depth = astToHtml n r2 depth).
  { induction k as [|k IH]; intros n Hk depth; [lia|].
    assert (Hsub : forall m : node, (node_size m < node_size n)%nat ->
                   forall d, astToHtml m r1 d = astToHtml m r2 d).
    { intros m Hm d. apply IH. lia. }
    clear IH Hk.
    destruct n as [ty lv v o u a cs].
    assert (Hch : forall d,
               forEachOpt (fun child => astToHtml child r1 d) cs ""
               = forEachOpt (fun child => astToHtml child r2 d) cs "").
    { intros d. apply forEachOpt_ext. intros l x -> Hx.
      apply Hsub. eapply node_size_child; [reflexivity|exact Hx]. }
    rewrite !astToHtml_unfold. unfold renderNode. cbv zeta.
    rewrite !Hch.
    repeat match goal with
           | |- (if String.eqb ty ?lit then _ else _) = _ =>
               destruct (String.eqb ty lit); [|]
           end; try reflexivity.
    - unfold headingHtml. fold (headingStyleOf r1 lv) (headingStyleOf r2 lv).
      rewrite Hh. reflexivity.
    - unfold paragraphHtml. rewrite Hlh. reflexivity.
    - unfold inlineCodeHtml. rewrite Hic. reflexivity.
    - unfold codeHtml. rewrite Hpre. reflexivity.
    - f_equal. destruct cs as [rows|]; [|exact Hto].
      rewrite Hto. apply forEachIdx_ext. intros row j Hrow.
      cbv zeta. f_equal. rewrite Hro. apply forEachOpt_ext.
      intros cells cell Hcells Hcell.
      assert (Hin : forEachOpt (fun child => astToHtml child r1 depth) (node_children cell) ""
                    = forEachOpt (fun child => astToHtml child r2 depth) (node_children cell) "").
      { apply forEachOpt_ext. intros l x Hl Hx.
        apply Hsub.
        pose proof (node_size_child cell x l Hl Hx).
        pose proof (node_size_child row cell cells Hcells Hcell).
        pose proof (node_size_child (mkNode ty lv v o u a (Some rows)) row rows eq_refl Hrow).
        lia. }
      unfold cellHtml. rewrite Hcc, Hin. reflexivity. }
  intros n depth. apply (Hsize (S (node_size n))). lia.
Qed.

Lemma RenderEquiv_withMeta (rules : FormattingRule) (id' userId' : Z) (name' : string)
    (description' : option string) (keep preset : jsval) (created updated : Z) :
  RenderEquiv (withMeta rules id' userId' name' description' keep preset created updated) rules.
Proof. destruct rules. repeat split. Qed.

Lemma generateStyledHtml_withMeta (content : string) (rules : FormattingRule)
    (id' userId' : Z) (name' : string) (description' : option string)
    (keep preset : jsval) (created updated : Z) :
  generateStyledHtml content
    (withMeta rules id' userId' name' description' keep preset created updated)
  = generateStyledHtml content rules.
Proof. destruct rules. reflexivity. Qed.

(** ** The events of a run of the pipeline *)

Lemma acquire_cases (w : World) :
  (truthyText (BROWSER_WS_ENDPOINT w) = true
   /\ acquire w = ([EvConnect (textOr (BROWSER_WS_ENDPOINT w) "")],
                   connect w (textOr (BROWSER_WS_ENDPOINT w) "")))
  \/ (truthyText (BROWSER_WS_ENDPOINT w) = false
      /\ ((exists e, acquire w = ([], Thrown e))
          \/ (exists p, acquire w = ([EvLaunch p], launch w p)))).
Proof.
  unfold acquire. destruct (truthyText (BROWSER_WS_ENDPOINT w)).
  - left. split; reflexivity.
  - right. split; [reflexivity|].
    destruct (findExecutable w (chromePaths w)) as [p|].
    + right. exists p. reflexivity.
    + left. eexists. reflexivity.
Qed.

Lemma printPage_cases (w : World) (html : string) (rules : FormattingRule) :
  exists (format top bottom left right : string),
    fst (printPage w html rules) = [EvNewPage]
    \/ fst (printPage w html rules) = [EvNewPage; EvSetContent html]
    \/ fst (printPage w html rules)
       = [EvNewPage; EvSetContent html; EvPdf format top bottom left right].
Proof.
  unfold printPage, bind, call, ret.
  do 5 eexists.
  destruct (newPage w) as [[]|e]; [|left; reflexivity].
  destruct (setContent w html) as [[]|e]; [|right; left; reflexivity].
  destruct (pdf w) as [buf|e]; right; right; reflexivity.
Qed.

Lemma bind_fst_snd {A B : Type} (m : M A) (k : A -> M B) :
  bind m k
  = match snd m with
    | Returned a => ((fst m ++ fst (k a))%list, snd (k a))
    | Thrown e => (fst m, Thrown e)
    end.
Proof.
  destruct m as [t [a|e]]; simpl; [|reflexivity].
  destruct (k a); reflexivity.
Qed.

Lemma tryFinally_fst_snd {A : Type} (body : M A) (fin : M unit) :
  tryFinally body fin
  = ((fst body ++ fst fin)%list,
     match snd fin with
     | Thrown e => Thrown e
     | Returned _ => snd body
     end).
Proof. destruct body, fin. reflexivity. Qed.

Lemma release_fst_snd (w : World) :
  release w = ([releaseEvent w], releaseOutcome w).
Proof.
  unfold release, releaseEvent, releaseOutcome, call.
  destruct (truthyText _); reflexivity.
Qed.

Lemma generatePdfFromMarkdown_run (parse : string -> node) (w : World)
    (markdown : string) (rules : FormattingRule) :
  generatePdfFromMarkdown parse w markdown rules
  = match snd (acquire w) with
    | Returned _ =>
        ((fst (acquire w)
          ++ fst (printPage w (markdownToHtml parse markdown rules) rules)
          ++ [releaseEvent w])%list,
         match releaseOutcome w with
         | Thrown e => Thrown e
         | Returned _ => snd (printPage w (markdownToHtml parse markdown rules) rules)
         end)
    | Thrown e => (fst (acquire w), Thrown e)
    end.
Proof.
  unfold generatePdfFromMarkdown. cbv zeta.
  rewrite bind_fst_snd. destruct (snd (acquire w)); [|reflexivity].
  rewrite tryFinally_fst_snd, release_fst_snd. reflexivity.
Qed.

Lemma acquire_events (w : World) :
  Forall (fun ev => isRelease ev = false
                    /\ forall html, ev <> EvSetContent html) (fst (acquire w)).
Proof.
  destruct (acquire_cases w) as [[_ ->] | [_ [[e ->] | [p ->]]]]; simpl;
    repeat constructor; discriminate.
Qed.

Lemma printPage_events (w : World) (html : string) (rules : FormattingRule) :
  Forall (fun ev => isRelease ev = false
                    /\ forall html', ev = EvSetContent html' -> html' = html)
         (fst (printPage w html rules)).
Proof.
  destruct (printPage_cases w html rules) as (f & t & b & l & r & [-> | [-> | ->]]);
    repeat constructor; try discriminate; intros html' [= ->]; reflexivity.
Qed.

(** ** Determinism *)







(** ** Releasing the print engine *)

(** C9, as the code has it.  When the engine cannot be acquired the run
    ends with the acquisition error and makes no release call.  Once the
    engine is acquired, the run makes exactly one release call, as its
    last call, whatever the outcome of the page operations: [disconnect]
    when the engine was reached through the WebSocket endpoint, [close]
    when it was launched locally.  When the release call returns, the
    outcome of the run is the outcome of the page operations (the PDF
    bytes or their error); when the release call throws, the outcome of
    the run is the error of the release call. *)
Theorem engine_released_on_every_exit_path
    (parse : string -> node) (w : World) (markdown : string) (rules : FormattingRule) :
  let html := markdownToHtml parse markdown rules in
  let run := generatePdfFromMarkdown parse w markdown rules in
  (forall e : JsError,
     snd (acquire w) = Thrown e ->
     run = (fst (acquire w), Thrown e)
     /\ Forall (fun ev => isRelease ev = false) (fst run))
  /\ (forall u : unit,
        snd (acquire w) = Returned u ->
        fst run = (fst (acquire w) ++ fst (printPage w html rules) ++ [releaseEvent w])%list
        /\ Forall (fun ev => isRelease ev = false)
                  (fst (acquire w) ++ fst (printPage w html rules))%list
        /\ (truthyText (BROWSER_WS_ENDPOINT w) = true ->
            fst (acquire w) = [EvConnect (textOr (BROWSER_WS_ENDPOINT w) "")]
            /\ releaseEvent w = EvDisconnect)
        /\ (truthyText (BROWSER_WS_ENDPOINT w) = false ->
            (exists p : string, fst (acquire w) = [EvLaunch p])
            /\ releaseEvent w = EvClose)
        /\ (forall e : JsError, releaseOutcome w = Thrown e -> snd run = Thrown e)
        /\ (forall u' : unit,
              releaseOutcome w = Returned u' -> snd run = snd (printPage w html rules))).
Proof.
  intros html run. subst run html.
  rewrite generatePdfFromMarkdown_run.
  pose proof (acquire_events w) as Ha.
  pose proof (printPage_events w (markdownToHtml parse markdown rules) rules) as Hp.
  split.
  - intros e He. rewrite He. split; [reflexivity|].
    cbn [fst]. eapply List.Forall_impl; [|exact Ha]. intros ev [H _]. exact H.
  - intros u Hu. rewrite Hu. cbn [fst snd].
    split; [reflexivity|].
    split.
    { apply List.Forall_app. split.
      - eapply List.Forall_impl; [|exact Ha]. intros ev [H _]. exact H.
      - eapply List.Forall_impl; [|exact Hp]. intros ev [H _]. exact H. }
    split.
    { intros Ht. unfold releaseEvent. rewrite Ht.
      destruct (acquire_cases w) as [[_ ->] | [Hf _]]; [split; reflexivity|congruence]. }
    split.
    { intros Hf. unfold releaseEvent. rewrite Hf. split; [|reflexivity].
      destruct (acquire_cases w) as [[Ht _] | [_ [[e He] | [p Hp']]]].
      - congruence.
      - rewrite He in Hu. discriminate.
      - exists p. rewrite Hp'. reflexivity. }
    split.
    { intros e ->. reflexivity. }
    intros u' ->. reflexivity.
Qed.

Lemma engine_released_on_every_exit_path_witness :
  fst (generatePdfFromMarkdown emptyParse localWorld "# Title" mockFormattingRule)
  = [ EvLaunch "/usr/bin/google-chrome"; EvNewPage;
      EvSetContent (markdownToHtml emptyParse "# Title" mockFormattingRule);
      EvPdf "A4" "20mm" "20mm" "20mm" "20mm"; EvClose ]
  /\ snd (generatePdfFromMarkdown emptyParse failingWorld "# Title" mockFormattingRule)
     = Thrown (mkError "disconnect failed").
Proof.
  split.
  - destruct (engine_released_on_every_exit_path
                emptyParse localWorld "# Title" mockFormattingRule) as (_ & Hacq).
    destruct (Hacq tt eq_refl) as (Htrace & _).
    rewrite Htrace. reflexivity.
  - destruct (engine_released_on_every_exit_path
                emptyParse failingWorld "# Title" mockFormattingRule) as (_ & Hacq).
    destruct (Hacq tt eq_refl) as (_ & _ & _ & _ & Hthrown & _).
    exact (Hthrown _ eq_refl).
Defined.

(** C9, as the specification words it, fails: a failure of the release
    call hides the error of the page operations.  In a world where setting
    the content fails and disconnecting then fails too, the run does
    disconnect, but its outcome is the disconnect error alone; the error
    of [setContent] is nowhere in what the caller receives. *)
Lemma release_failure_masks_the_original_error :
  snd (printPage failingWorld
         (markdownToHtml emptyParse "# Title" mockFormattingRule) mockFormattingRule)
  = Thrown (mkError "setContent timed out")
  /\ generatePdfFromMarkdown emptyParse failingWorld "# Title" mockFormattingRule
     = ([ EvConnect "ws://engine:3000"; EvNewPage;
          EvSetContent (markdownToHtml emptyParse "# Title" mockFormattingRule);
          EvDisconnect ],
        Thrown (mkError "disconnect failed"))
  /\ mkError "disconnect failed" <> mkError "setContent timed out".
Proof.
  split; [reflexivity|]. split; [reflexivity|discriminate].
Qed.

(** ** Leniency *)

Lemma astToHtml_unknown (n : node) (rules : FormattingRule) (depth : Z) :
  ~ In (node_type n) knownTypes ->
  astToHtml n rules depth
  = forEachOpt (fun child => astToHtml child rules depth) (node_children n) "".
Proof.
  destruct n as [ty lv v o u a cs]. node_fields. intros Hty.
  rewrite astToHtml_unfold. unfold renderNode. cbv zeta.
  repeat match goal with
         | |- (if String.eqb ty ?lit then _ else _) = _ =>
             destruct (String.eqb_spec ty lit) as [Heq | _];
             [exfalso; apply Hty; rewrite Heq; unfold knownTypes; simpl; tauto|]
         end.
  reflexivity.
Qed.

(** ** The renderer on loosely typed input *)

Lemma forEachR_thrown {A : Type} (f : A -> outcome string) (l : list A) (e : JsError) :
  fold_left
    (fun acc child => andThen acc (fun h => andThen (f child) (fun s => Returned (h ++ s))))
    l (Thrown e)
  = Thrown e.
Proof. induction l as [|x l IH]; [reflexivity|exact IH]. Qed.

Lemma forEachR_returns {A B : Type} (f : A -> outcome string) (g : B -> string) (h : A -> B)
    (l : list A) (html : string) :
  (forall x, In x l -> f x = Returned (g (h x))) ->
  forEachR f l html = Returned (forEach g (List.map h l) html).
Proof.
  unfold forEachR, forEach. revert html.
  induction l as [|x l IH]; intros html H; [reflexivity|].
  cbn [fold_left List.map]. rewrite (H x (or_introl eq_refl)). cbn [andThen].
  apply IH. intros y Hy. apply H. right. exact Hy.
Qed.

Lemma forEachOptR_returns {A B : Type} (f : A -> outcome string) (g : B -> string)
    (h : A -> B) (l : option (list A)) (html : string) :
  (forall l' x, l = Some l' -> In x l' -> f x = Returned (g (h x))) ->
  forEachOptR f l html
  = Returned (forEachOpt g (match l with Some l' => Some (List.map h l') | None => None end)
                         html).
Proof.
  destruct l as [l'|]; intros H; [|reflexivity].
  apply forEachR_returns. intros x Hx. exact (H l' x eq_refl Hx).
Qed.

Lemma forEachIdxR_returns {A B : Type} (f : A -> nat -> string -> outcome string)
    (g : B -> nat -> string) (h : A -> B) (l : list A) (i : nat) (html : string) :
  (forall x j acc, In x l -> f x j acc = Returned (acc ++ g (h x) j)) ->
  forEachIdxR f l i html = Returned (forEachIdx g (List.map h l) i html).
Proof.
  revert i html. induction l as [|x l IH]; intros i html H; [reflexivity|].
  cbn [forEachIdxR forEachIdx List.map]. rewrite (H x i html (or_introl eq_refl)).
  cbn [andThen]. apply IH. intros y j acc Hy. apply H. right. exact Hy.
Qed.

Lemma astToHtmlLoose_unfold (n : looseNode) (rules : LooseRule) (depth : Z) :
  astToHtmlLoose n rules depth = renderLoose astToHtmlLoose n rules depth.
Proof. destruct n. reflexivity. Qed.

Lemma looseSize_child (n c : looseNode) (cs : list looseNode) :
  loose_children n = Some cs -> In c cs -> (looseSize c < looseSize n)%nat.
Proof.
  destruct n as [ty lv v o u a ch]. cbn [loose_children]. intros -> Hin.
  cbn [looseSize]. induction cs as [|x cs IH]; [destruct Hin|].
  cbn [fold_right]. destruct Hin as [-> | Hin]; [lia|].
  specialize (IH Hin). lia.
Qed.

Lemma wellShaped_child (n c : looseNode) (cs : list looseNode) :
  wellShaped n = true -> loose_children n = Some cs -> In c cs -> wellShaped c = true.
Proof.
  destruct n as [ty lv v o u a ch]. cbn [loose_children wellShaped]. intros H -> Hin.
  apply andb_true_iff in H as [_ H].
  rewrite forallb_forall in H. exact (H c Hin).
Qed.

Lemma typedOf_children (n : looseNode) :
  node_children (typedOf n)
  = match loose_children n with
    | Some l => Some (List.map typedOf l)
    | None => None
    end.
Proof. destruct n. reflexivity. Qed.

(** On a tree of the data model and a rule whose style objects are
    present the renderer returns, and what it returns is the text of the
    typed renderer. *)
Lemma astToHtmlLoose_typed (rules : FormattingRule) (n : looseNode) (depth : Z) :
  wellShaped n = true ->
  astToHtmlLoose n (looseRuleOf rules) depth = Returned (astToHtml (typedOf n) rules depth).
Proof.
  assert (Hsize : forall (k : nat) (n : looseNode),
             (looseSize n < k)%nat -> wellShaped n = true ->
             forall depth,
               astToHtmlLoose n (looseRuleOf rules) depth
               = Returned (astToHtml (typedOf n) rules depth)).
  { induction k as [|k IH]; intros m Hk Hm d; [lia|].
    assert (Hsub : forall c : looseNode,
               (looseSize c < looseSize m)%nat -> wellShaped c = true ->
               forall d', astToHtmlLoose c (looseRuleOf rules) d'
                          = Returned (astToHtml (typedOf c) rules d')).
    { intros c Hc Hw d'. apply IH; [lia|exact Hw]. }
    clear IH Hk.
    assert (Hkids : forall (p : looseNode),
               (looseSize p <= looseSize m)%nat -> wellShaped p = true ->
               forall d',
                 forEachOptR (fun child => astToHtmlLoose child (looseRuleOf rules) d')
                             (loose_children p) ""
                 = Returned (forEachOpt (fun child => astToHtml child rules d')
                                        (node_children (typedOf p)) "")).
    { intros p Hp Hw d'. rewrite typedOf_children.
      apply (forEachOptR_returns _ (fun child => astToHtml child rules d') typedOf).
      intros l x Hl Hx. apply Hsub.
      - pose proof (looseSize_child p x l Hl Hx). lia.
      - exact (wellShaped_child p x l Hw Hl Hx). }
    pose proof (Hkids m (Nat.le_refl _) Hm) as Hch.
    assert (Hrowcell : forall (rows cells : list looseNode) (row cell : looseNode),
               loose_children m = Some rows -> In row rows ->
               loose_children row = Some cells -> In cell cells ->
               (looseSize cell <= looseSize m)%nat /\ wellShaped cell = true).
    { intros rows cells row cell Hrows Hrow Hcells Hcell.
      pose proof (looseSize_child m row rows Hrows Hrow).
      pose proof (looseSize_child row cell cells Hcells Hcell).
      split; [lia|].
      apply (wellShaped_child row cell cells); [|exact Hcells|exact Hcell].
      exact (wellShaped_child m row rows Hm Hrows Hrow). }
    destruct m as [ty lv v o u a cs].
    cbn [loose_children typedOf node_children] in Hch, Hrowcell.
    rewrite astToHtmlLoose_unfold, astToHtml_unfold.
    cbn [typedOf]. unfold renderLoose, renderNode. cbv zeta.
    cbn [wellShaped] in Hm.
    repeat match goal with
           | |- (if String.eqb ty ?lit then _ else _) = _ =>
               destruct (String.eqb_spec ty lit) as [-> | _]
           end;
      cbn [looseRuleOf loose_headingStyles loose_codeBlockStyles loose_tableStyles
           loose_lineHeight];
      try reflexivity; try (rewrite Hch; reflexivity).
    - (* text *)
      cbn in Hm. destruct v; try discriminate. reflexivity.
    - (* inlineCode *)
      cbn in Hm. destruct v; try discriminate. reflexivity.
    - (* code *)
      cbn in Hm. destruct v; try discriminate. reflexivity.
    - (* table *)
      destruct cs as [rows|]; [|reflexivity].
      rewrite (forEachIdxR_returns _
                 (fun row rowIndex =>
                    forEachOpt
                      (fun cell =>
                         cellHtml (tableStyles rules)
                           (if Nat.eqb rowIndex 0 && Nat.ltb 1 (List.length rows)
                            then "th" else "td")
                           (forEachOpt (fun child => astToHtml child rules d)
                                       (node_children cell) ""))
                      (node_children row)
                      (rowOpen (tableStyles rules)
                               (Nat.eqb rowIndex 0 && Nat.ltb 1 (List.length rows)))
                    ++ "</tr>")
                 typedOf).
      + cbn [andThen]. rewrite length_map. reflexivity.
      + intros row j acc Hrow. cbv zeta.
        rewrite typedOf_children.
        rewrite (forEachOptR_returns _
                   (fun cell =>
                      cellHtml (tableStyles rules)
                        (if Nat.eqb j 0 && Nat.ltb 1 (List.length rows) then "th" else "td")
                        (forEachOpt (fun child => astToHtml child rules d)
                                    (node_children cell) ""))
                   typedOf).
        * cbn [andThen]. f_equal.
          rewrite (forEachOpt_acc _ _ (acc ++ _)), (forEachOpt_acc _ _ (rowOpen _ _)).
          rewrite !append_assoc. reflexivity.
        * intros cells cell Hcells Hcell.
          destruct (Hrowcell rows cells row cell eq_refl Hrow Hcells Hcell) as [Hle Hw].
          rewrite (Hkids cell Hle Hw). reflexivity.
    - (* link *)
      rewrite Hch. cbn [andThen]. cbn in Hm. destruct u; try discriminate. reflexivity.
    - (* image *)
      cbn in Hm. destruct u; try discriminate. cbn [escapeText andThen textOf].
      apply andb_true_iff in Hm as [Hm _].
      destruct a as [| |[|]|z|r|s0]; try discriminate; try reflexivity.
      + unfold jsOr in *. simpl in *. destruct (z =? 0); [reflexivity|discriminate].
      + unfold jsOr, imageHtml, textOr. simpl. destruct (String.eqb s0 ""); reflexivity. }
  intros Hn. apply (Hsize (S (looseSize n))); [lia|exact Hn].
Qed.

Lemma astToHtmlLoose_looseOf (rules : FormattingRule) (n : node) (depth : Z) :
  astToHtmlLoose (looseOf n) (looseRuleOf rules) depth = Returned (astToHtml n rules depth).
Proof.
  assert (Hback : forall (k : nat) (m : node),
             (node_size m < k)%nat ->
             wellShaped (looseOf m) = true /\ typedOf (looseOf m) = m).
  { induction k as [|k IH]; intros m Hk; [lia|].
    destruct m as [ty lv v o u a cs].
    assert (Hcs : match cs with
                  | Some l => forallb wellShaped (List.map looseOf l) = true
                              /\ List.map typedOf (List.map looseOf l) = l
                  | None => True
                  end).
    { destruct cs as [l|]; [|exact I].
      assert (Hl : forall c, In c l -> wellShaped (looseOf c) = true /\ typedOf (looseOf c) = c).
      { intros c Hc. apply IH.
        pose proof (node_size_child (mkNode ty lv v o u a (Some l)) c l eq_refl Hc). lia. }
      clear IH Hk. induction l as [|c l IHl]; [split; reflexivity|].
      destruct (Hl c (or_introl eq_refl)) as [Hw Ht].
      destruct IHl as [Hws Hts]; [intros c' Hc'; apply Hl; right; exact Hc'|].
      cbn [List.map forallb]. rewrite Hw, Hws, Ht, Hts. split; reflexivity. }
    cbn [looseOf wellShaped typedOf textOf].
    split.
    - rewrite !andb_true_iff. repeat split.
      + destruct (typeIn ty _); reflexivity.
      + destruct (typeIn ty _); reflexivity.
      + destruct (String.eqb ty "image"); [|reflexivity].
        destruct a as [s|]; [|reflexivity].
        unfold jsOr. simpl. destruct (String.eqb s ""); reflexivity.
      + destruct cs as [l|]; [exact (proj1 Hcs)|reflexivity].
    - f_equal.
      + destruct a; reflexivity.
      + destruct cs as [l|]; [rewrite (proj2 Hcs)|]; reflexivity. }
  destruct (Hback (S (node_size n)) n (Nat.lt_succ_diag_r _)) as [Hw Ht].
  rewrite (astToHtmlLoose_typed rules _ depth Hw), Ht. reflexivity.
Qed.

Lemma looseRuleOf_onto (r : LooseRule) :
  loose_headingStyles r <> None -> loose_codeBlockStyles r <> None ->
  loose_tableStyles r <> None ->
  exists rules : FormattingRule, looseRuleOf rules = r.
Proof.
  destruct r as [lh [hs|] [cs|] [ts|]]; cbn; try congruence. intros _ _ _.
  exists (withStyles (withTypography mockFormattingRule "" JUndefined lh) hs cs ts).
  reflexivity.
Qed.

Lemma astToHtmlLoose_unknown (n : looseNode) (r : LooseRule) (depth : Z) :
  ~ In (loose_type n) knownTypes ->
  astToHtmlLoose n r depth
  = forEachOptR (fun child => astToHtmlLoose child r depth) (loose_children n) "".
Proof.
  destruct n as [ty lv v o u a cs]. cbn [loose_type loose_children]. intros Hty.
  rewrite astToHtmlLoose_unfold. unfold renderLoose. cbv zeta.
  repeat match goal with
         | |- (if String.eqb ty ?lit then _ else _) = _ =>
             destruct (String.eqb_spec ty lit) as [Heq | _];
             [exfalso; apply Hty; rewrite Heq; unfold knownTypes; simpl; tauto|]
         end.
  reflexivity.
Qed.

(** C8.  The renderer is lenient over configuration.  A page size other
    than the string [Letter] gives the A4 dimensions.  A node whose type
    is none of the known ones renders as the concatenation, in order, of
    its rendered children, without a wrapper, and as the empty text when
    it has no children.  A heading whose level has no entry in the
    heading-style mapping is rendered with the fixed defaults, and every
    style field that is missing is replaced by its own default, whatever
    the other fields of the same style hold.  The renderer never raises
    on such input: on loosely typed input, where the source can raise a
    [TypeError], it returns for every tree of the data model and every
    rule whose three style objects are present, whatever fields and
    levels these objects have or lack, and what it returns is the text of
    the typed renderer.  What makes the source raise is not a missing
    field or level but a missing style object (at the first heading, code
    or table node) or a text without a string value. *)
Theorem renderer_is_lenient (rules : FormattingRule) :
  (forall content : string,
     pageSize rules <> JStr "Letter" ->
     exists rest : string,
       generateStyledHtml content rules
       = shellHead ++ "@page {
      size: 210mm 297mm;" ++ rest)
  /\ (forall (n : node) (depth : Z),
        ~ In (node_type n) knownTypes ->
        astToHtml n rules depth
        = match node_children n with
          | Some children =>
              fold_right (fun child rest => astToHtml child rules depth ++ rest) "" children
          | None => ""
          end)
  /\ (forall (n : node) (depth : Z),
        ~ In (node_type n) knownTypes ->
        node_children n = None \/ node_children n = Some [] ->
        astToHtml n rules depth = "")
  /\ (forall (n : node) (depth : Z),
        node_type n = "heading" ->
        headingStyles rules !! headingKey (node_depth n) = None ->
        astToHtml n rules depth
        = headingElement (node_depth n) "16" "600" "12" "6"
            (astToHtml (root (node_children n)) rules depth))
  /\ (forall d : string, configuredOr JUndefined d = d /\ configuredOr JNull d = d)
  /\ (forall (n : node) (depth : Z) (st : HeadingStyle),
        node_type n = "heading" ->
        headingStyles rules !! headingKey (node_depth n) = Some st ->
        astToHtml n rules depth
        = headingElement (node_depth n)
            (configuredOr (hs_fontSize st) "16") (configuredOr (hs_fontWeight st) "600")
            (configuredOr (hs_marginTop st) "12") (configuredOr (hs_marginBottom st) "6")
            (astToHtml (root (node_children n)) rules depth))
  /\ (forall (n : node) (depth : Z),
        node_type n = "inlineCode" ->
        astToHtml n rules depth
        = inlineCodeElement (codeBlockStyles rules) (escapeHtml (node_value n)))
  /\ (forall (n : node) (depth : Z),
        node_type n = "code" ->
        astToHtml n rules depth
        = codeBlockElement (codeBlockStyles rules) (escapeHtml (node_value n)))
  /\ (forall (n : node) (depth : Z) (rows : list node),
        node_type n = "table" ->
        node_children n = Some rows ->
        astToHtml n rules depth
        = tableElementOpen (tableStyles rules)
          ++ tableRowsFrom rules depth (List.length rows) 0 rows
          ++ "</tbody></table>")
  /\ (forall (n : looseNode) (depth : Z),
        wellShaped n = true ->
        astToHtmlLoose n (looseRuleOf rules) depth
        = Returned (astToHtml (typedOf n) rules depth))
  /\ (forall (n : node) (depth : Z),
        astToHtmlLoose (looseOf n) (looseRuleOf rules) depth
        = Returned (astToHtml n rules depth))
  /\ (forall (r : LooseRule) (n : looseNode) (depth : Z),
        stylesPresent r -> wellShaped n = true ->
        exists html : string, astToHtmlLoose n r depth = Returned html)
  /\ (forall (r : LooseRule) (n : looseNode) (depth : Z),
        ~ In (loose_type n) knownTypes ->
        astToHtmlLoose n r depth
        = forEachOptR (fun child => astToHtmlLoose child r depth) (loose_children n) "")
  /\ (forall (r : LooseRule) (n : looseNode) (depth : Z),
        (loose_type n = "heading" /\ loose_headingStyles r = None)
        \/ ((loose_type n = "inlineCode" \/ loose_type n = "code")
            /\ loose_codeBlockStyles r = None)
        \/ (loose_type n = "table" /\ loose_tableStyles r = None)
        \/ (loose_type n = "text" /\ isText (loose_value n) = false) ->
        astToHtmlLoose n r depth = Thrown typeError).
Proof.
  split.
  { intros content Hsize. apply strictEqStr_false in Hsize.
    unfold generateStyledHtml. cbv zeta. rewrite Hsize.
    eexists. reflexivity. }
  split.
  { intros n depth Hty. rewrite (astToHtml_unknown n rules depth Hty).
    destruct (node_children n) as [cs|]; [|reflexivity].
    apply forEach_fold_right. }
  split.
  { intros n depth Hty Hcs. rewrite (astToHtml_unknown n rules depth Hty).
    destruct Hcs as [-> | ->]; reflexivity. }
  split.
  { intros [ty lv v o u a cs] depth. node_fields.
    intros -> Hnone. rewrite astToHtml_heading, Hnone. reflexivity. }
  split; [intros d; split; reflexivity|].
  split.
  { intros [ty lv v o u a cs] depth st. node_fields. intros -> Hst.
    rewrite astToHtml_heading, Hst. apply headingHtml_element. }
  split.
  { intros [ty lv v o u a cs] depth. node_fields. intros ->.
    rewrite astToHtml_unfold. apply inlineCodeHtml_element. }
  split.
  { intros [ty lv v o u a cs] depth. node_fields. intros ->.
    rewrite astToHtml_unfold. apply codeHtml_element. }
  split; [intros n depth rows; apply astToHtml_table_rows|].
  split; [intros n depth; apply astToHtmlLoose_typed|].
  split; [intros n depth; apply astToHtmlLoose_looseOf|].
  split.
  { intros r n depth (Hh & Hc & Ht) Hn.
    destruct (looseRuleOf_onto r Hh Hc Ht) as [rules' <-].
    eexists. apply astToHtmlLoose_typed. exact Hn. }
  split; [intros r n depth; apply astToHtmlLoose_unknown|].
  intros r [ty lv v o u a cs] depth.
  cbn [loose_type loose_value]. rewrite astToHtmlLoose_unfold. unfold renderLoose. cbv zeta.
  intros [[-> Hr] | [[[-> | ->] Hr] | [[-> Hr] | [-> Hv]]]]; cbn [String.eqb Ascii.eqb Bool.eqb];
    try rewrite Hr; try reflexivity.
  - destruct v; reflexivity.
  - destruct v; try reflexivity. discriminate.
Qed.

Lemma renderer_is_lenient_witness :
  Contains (generateStyledHtml "" (withPage mockFormattingRule (JStr "Tabloid")
                                     (JNum 20) (JNum 20) (JNum 20) (JNum 20)))
           "size: 210mm 297mm;"
  /\ astToHtml (container "delete" [text "a"; container "footnote" []; text "b"])
               mockFormattingRule 0 = "ab"
  /\ astToHtml (mkNode "break" 0 "" JUndefined "" None None) mockFormattingRule 0 = ""
  /\ astToHtml (heading 9 None) mockFormattingRule 0
     = headingElement 9 "16" "600" "12" "6" ""
  /\ astToHtml (code "x")
       (withStyles mockFormattingRule DEFAULT_HEADING_STYLES
          (mkCodeBlockStyles (JStr "Fira Code") JUndefined JUndefined JUndefined (JNum 6)
                             JUndefined)
          DEFAULT_TABLE_STYLES) 0
     = "<pre style=" ++ dq
       ++ "font-family: Fira Code; font-size: 11px; background-color: #f5f5f5; padding: 12px; border-radius: 6px; overflow-x: auto; line-height: 1.4;"
       ++ dq ++ "><code>x</code></pre>"
  /\ astToHtmlLoose looseParagraph bareStylesRule 0
     = Returned ("<p style=" ++ dq ++ "margin-bottom: 1em; line-height: 1.5;" ++ dq ++ ">"
                 ++ "a &lt; b"
                 ++ "<code style=" ++ dq
                 ++ "font-family: monospace; font-size: 11px; background-color: #f5f5f5; padding: 2px 4px; border-radius: 3px;"
                 ++ dq ++ ">x</code>" ++ "</p>")
  /\ astToHtmlLoose (looseOf (heading 1 None)) noHeadingStylesRule 0 = Thrown typeError.
Proof.
  destruct (renderer_is_lenient mockFormattingRule)
    as (_ & Hunknown & Hempty & Hlevel & _ & _ & _ & _ & _ & _ & _ & Hreturns & _ & Hraises).
  split.
  { destruct (renderer_is_lenient
                (withPage mockFormattingRule (JStr "Tabloid")
                   (JNum 20) (JNum 20) (JNum 20) (JNum 20))) as (Hsize & _).
    destruct (Hsize "") as [rest Hdoc]; [discriminate|].
    rewrite Hdoc. apply Contains_app_r.
    exists "@page {
      ", rest. reflexivity. }
  split.
  { rewrite Hunknown; [reflexivity|].
    vm_compute. intuition discriminate. }
  split.
  { apply Hempty; [|left; reflexivity]. vm_compute. intuition discriminate. }
  split.
  { apply (Hlevel (heading 9 None) 0); reflexivity. }
  split.
  { destruct (renderer_is_lenient
                (withStyles mockFormattingRule DEFAULT_HEADING_STYLES
                   (mkCodeBlockStyles (JStr "Fira Code") JUndefined JUndefined JUndefined
                                      (JNum 6) JUndefined)
                   DEFAULT_TABLE_STYLES))
      as (_ & _ & _ & _ & _ & _ & _ & Hcode & _).
    rewrite Hcode; [|reflexivity]. vm_compute. reflexivity. }
  split.
  { destruct (Hreturns bareStylesRule looseParagraph 0) as [html Hhtml].
    - repeat split; discriminate.
    - reflexivity.
    - rewrite Hhtml. revert Hhtml. vm_compute. intros [= <-]. reflexivity. }
  apply Hraises. left. split; reflexivity.
Defined.

(** ** Falsy style values *)

Lemma jsOr_normalizeValue (v d : jsval) : jsOr (normalizeValue v) d = jsOr v d.
Proof.
  unfold normalizeValue, jsOr. destruct (truthy v) eqn:E; [rewrite E|]; reflexivity.
Qed.

Lemma headingCss_normalize (st : HeadingStyle) :
  headingCss (normalizeHeadingStyle st) = headingCss st.
Proof.
  unfold headingCss, normalizeHeadingStyle. cbn [hs_fontSize hs_fontWeight hs_marginTop hs_marginBottom].
  rewrite !jsOr_normalizeValue. reflexivity.
Qed.

Lemma codeCss_normalize (cs : CodeBlockStyles) :
  inlineCodeCss (normalizeCodeBlockStyles cs) = inlineCodeCss cs
  /\ preCss (normalizeCodeBlockStyles cs) = preCss cs.
Proof.
  unfold inlineCodeCss, preCss, normalizeCodeBlockStyles.
  cbn [cs_fontFamily cs_fontSize cs_backgroundColor cs_padding cs_borderRadius cs_lineHeight].
  rewrite !jsOr_normalizeValue. split; reflexivity.
Qed.

Lemma tableCss_normalize (ts : TableStyles) :
  tableOpen (normalizeTableStyles ts) = tableOpen ts
  /\ (forall header, rowOpen (normalizeTableStyles ts) header = rowOpen ts header)
  /\ cellCss (normalizeTableStyles ts) = cellCss ts.
Proof.
  unfold tableOpen, rowOpen, rowBackground, cellCss, normalizeTableStyles.
  cbn [ts_borderColor ts_headerBackgroundColor ts_cellPadding ts_fontSize].
  rewrite !jsOr_normalizeValue. repeat split.
Qed.

Lemma headingStyleOf_normalizeRule (rules : FormattingRule) (level : Z) :
  headingStyleOf (normalizeRule rules) level
  = normalizeHeadingStyle (headingStyleOf rules level).
Proof.
  unfold headingStyleOf.
  replace (headingStyles (normalizeRule rules))
    with (normalizeHeadingStyle <$> headingStyles rules) by (destruct rules; reflexivity).
  rewrite lookup_fmap.
  destruct (headingStyles rules !! headingKey level); reflexivity.
Qed.

Lemma RenderEquiv_normalizeRule (rules : FormattingRule) :
  RenderEquiv rules (normalizeRule rules).
Proof.
  split; [destruct rules; reflexivity|].
  split.
  { intros level. rewrite headingStyleOf_normalizeRule, headingCss_normalize. reflexivity. }
  replace (codeBlockStyles (normalizeRule rules))
    with (normalizeCodeBlockStyles (codeBlockStyles rules)) by (destruct rules; reflexivity).
  replace (tableStyles (normalizeRule rules))
    with (normalizeTableStyles (tableStyles rules)) by (destruct rules; reflexivity).
  destruct (codeCss_normalize (codeBlockStyles rules)) as [-> ->].
  destruct (tableCss_normalize (tableStyles rules)) as (-> & Hrow & ->).
  repeat split. intros header. symmetry. apply Hrow.
Qed.

(** C10.  Defaults are applied by truthiness, so a style field holding 0
    or the empty string is rendered as if it were absent, field by field
    and whatever the other fields of the same style hold.  A field that
    is absent, [null], [false], 0 or the empty string prints its default;
    any other value is printed as it is.  Every heading, inline code,
    code block and table is rendered with exactly these texts: each of
    the four heading fields, the six code fields and the four table
    fields has its own default (16, 600, 12, 6; monospace, 11, #f5f5f5,
    12, 4, 1.4; #ddd, #f9f9f9, 8, 11).  Hence a rule and the rule with
    every falsy style field removed render every tree, and every Markdown
    source, to the same text. *)
Theorem falsy_style_fields_render_as_defaults :
  (truthy (JNum 0) = false /\ truthy (JStr "") = false)
  /\ (forall d : string,
        configuredOr (JNum 0) d = d /\ configuredOr (JStr "") d = d
        /\ configuredOr JUndefined d = d)
  /\ (forall (v : jsval) (d : string), truthy v = false -> configuredOr v d = d)
  /\ (forall (v : jsval) (d : string), truthy v = true -> configuredOr v d = toString v)
  /\ (forall (n : node) (rules : FormattingRule) (depth : Z) (st : HeadingStyle),
        node_type n = "heading" ->
        headingStyles rules !! headingKey (node_depth n) = Some st ->
        astToHtml n rules depth
        = headingElement (node_depth n)
            (configuredOr (hs_fontSize st) "16") (configuredOr (hs_fontWeight st) "600")
            (configuredOr (hs_marginTop st) "12") (configuredOr (hs_marginBottom st) "6")
            (astToHtml (root (node_children n)) rules depth))
  /\ (forall (n : node) (rules : FormattingRule) (depth : Z),
        node_type n = "inlineCode" ->
        astToHtml n rules depth
        = inlineCodeElement (codeBlockStyles rules) (escapeHtml (node_value n)))
  /\ (forall (n : node) (rules : FormattingRule) (depth : Z),
        node_type n = "code" ->
        astToHtml n rules depth
        = codeBlockElement (codeBlockStyles rules) (escapeHtml (node_value n)))
  /\ (forall (n : node) (rules : FormattingRule) (depth : Z) (rows : list node),
        node_type n = "table" ->
        node_children n = Some rows ->
        astToHtml n rules depth
        = tableElementOpen (tableStyles rules)
          ++ tableRowsFrom rules depth (List.length rows) 0 rows
          ++ "</tbody></table>")
  /\ (forall (n : node) (rules : FormattingRule) (depth : Z),
        astToHtml n rules depth = astToHtml n (normalizeRule rules) depth)
  /\ (forall (parse : string -> node) (markdown : string) (rules : FormattingRule),
        markdownToHtml parse markdown rules
        = markdownToHtml parse markdown (normalizeRule rules)).
Proof.
  split; [split; reflexivity|].
  split; [intros d; repeat split|].
  split; [exact configuredOr_falsy|].
  split; [exact configuredOr_truthy|].
  split.
  { intros [ty lv v o u a cs] rules depth st. node_fields. intros -> Hst.
    rewrite astToHtml_heading, Hst. apply headingHtml_element. }
  split.
  { intros [ty lv v o u a cs] rules depth. node_fields. intros ->.
    rewrite astToHtml_unfold. apply inlineCodeHtml_element. }
  split.
  { intros [ty lv v o u a cs] rules depth. node_fields. intros ->.
    rewrite astToHtml_unfold. apply codeHtml_element. }
  split; [intros n rules depth rows; apply astToHtml_table_rows|].
  split.
  { intros n rules depth. apply astToHtml_ext, RenderEquiv_normalizeRule. }
  intros parse markdown rules. unfold markdownToHtml. cbv zeta.
  rewrite (astToHtml_ext _ _ (RenderEquiv_normalizeRule rules)).
  destruct rules. reflexivity.
Qed.

Lemma falsy_style_fields_render_as_defaults_witness :
  astToHtml (code "x")
    (withStyles mockFormattingRule DEFAULT_HEADING_STYLES zeroedCodeStyles
                DEFAULT_TABLE_STYLES) 0
  = "<pre style=" ++ dq
    ++ "font-family: Fira Code; font-size: 11px; background-color: #f5f5f5; padding: 12px; border-radius: 6px; overflow-x: auto; line-height: 1.4;"
    ++ dq ++ "><code>x</code></pre>"
  /\ astToHtml (heading 2 (Some [text "T"]))
       (withStyles mockFormattingRule (<["h2" := zeroedHeadingStyle]> ∅)
                   DEFAULT_CODE_BLOCK_STYLES DEFAULT_TABLE_STYLES) 0
     = "<h2 style=" ++ dq
       ++ "font-size: 16px; font-weight: 700; margin-top: 12px; margin-bottom: 6px;"
       ++ dq ++ ">T</h2>"
  /\ astToHtml (table (Some [tableRow [tableCell [text "c"]]]))
       (withStyles mockFormattingRule DEFAULT_HEADING_STYLES DEFAULT_CODE_BLOCK_STYLES
                   customTableStyles) 0
     = "<table style=" ++ dq
       ++ "border-collapse: collapse; width: 100%; margin-bottom: 1em; border: 1px solid #333;"
       ++ dq ++ "><tbody>"
       ++ "<tr style=" ++ dq ++ "background-color: white;" ++ dq ++ ">"
       ++ "<td style=" ++ dq ++ "border: 1px solid #333; padding: 8px; font-size: 9px;" ++ dq
       ++ ">c</td></tr>"
       ++ "</tbody></table>"
  /\ astToHtml (code "x")
       (withStyles mockFormattingRule DEFAULT_HEADING_STYLES
          (mkCodeBlockStyles (JStr "") (JNum 0) (JStr "") (JNum 0) (JNum 0) (JNum 0))
          (mkTableStyles (JStr "") (JStr "") (JNum 0) (JNum 0))) 0
     = astToHtml (code "x") mockFormattingRule 0.
Proof.
  destruct falsy_style_fields_render_as_defaults
    as (_ & _ & _ & _ & Hheading & _ & Hcode & Htable & Hsame & _).
  split.
  { rewrite Hcode; [|reflexivity]. vm_compute. reflexivity. }
  split.
  { rewrite (Hheading _ _ _ zeroedHeadingStyle); [|reflexivity|reflexivity].
    vm_compute. reflexivity. }
  split.
  { rewrite (Htable _ _ _ [tableRow [tableCell [text "c"]]]); [|reflexivity|reflexivity].
    vm_compute. reflexivity. }
  rewrite Hsame. reflexivity.
Defined.

(** ** The test suite of the repository, on the embedding *)

Example test_basic_markdown :
  includesAll
    (markdownToHtml (parsesTo helloTree) "# Hello World

This is a paragraph." mockFormattingRule)
    ["<h1"; "Hello World"; "<p"; "This is a paragraph"] = true.
Proof. vm_compute. reflexivity. Qed.

Example test_code_blocks :
  includesAll
    (markdownToHtml (parsesTo fencedTree) "```
const x = 1;
```" mockFormattingRule)
    ["<pre"; "<code"; "const x = 1"] = true.
Proof. vm_compute. reflexivity. Qed.

Example test_escape_special_characters :
  includes
    (markdownToHtml (parsesTo ampersandTree) "This has & characters" mockFormattingRule)
    "&amp;" = true.
Proof. vm_compute. reflexivity. Qed.

Example test_heading_styling :
  includesAll
    (markdownToHtml (parsesTo headingsTree) "# H1
## H2
### H3" mockFormattingRule)
    ["<h1"; "<h2"; "<h3"; "font-size: 32px"; "font-size: 24px"; "font-size: 20px"] = true.
Proof. vm_compute. reflexivity. Qed.

Example test_page_size_and_margins :
  includes
    (markdownToHtml (parsesTo headingsTree) "# Test"
       (withPage mockFormattingRule (JStr "Letter") (JNum 20) (JNum 20) (JNum 20) (JNum 20)))
    "8.5in 11in" = true
  /\ includesAll
       (markdownToHtml (parsesTo headingsTree) "# Test"
          (withPage mockFormattingRule (JStr "A4") (JNum 30) (JNum 25) (JNum 20) (JNum 20)))
       ["30mm"; "25mm"; "<!DOCTYPE html>"; "<html"; "<head>"; "<body>"; "</html>"] = true.
Proof. split; vm_compute; reflexivity. Qed.

(** * Further properties of the code *)

(** ** The escaper as a function on texts *)

(** Escaping distributes over concatenation, so a text may be escaped
    piece by piece. *)
Theorem escapeHtml_app (s t : string) :
  escapeHtml (s ++ t) = escapeHtml s ++ escapeHtml t.
Proof.
  induction s as [|c s IH]; [reflexivity|].
  rewrite append_cons, !escapeHtml_cons, IH, append_assoc. reflexivity.
Qed.

(** Different texts have different escaped forms: in particular a text
    that already spells an entity is told apart from the character the
    entity stands for. *)
Theorem escapeHtml_injective (s t : string) :
  s <> t -> escapeHtml s <> escapeHtml t.
Proof.
  intros Hne Heq. apply Hne.
  rewrite <- (unescape_escape s), <- (unescape_escape t), Heq. reflexivity.
Qed.

Lemma escapeHtml_injective_witness :
  escapeHtml "<" <> escapeHtml "&lt;".
Proof.
  apply (escapeHtml_injective "<" "&lt;"). discriminate.
Defined.

Lemma escapeHtml_length_cons (c : ascii) (s : string) :
  String.length (escapeHtml (String c s))
  = ((if inClass c then String.length (toString (mapGet escapeMap c)) else 1)
     + String.length (escapeHtml s))%nat.
Proof.
  rewrite escapeHtml_cons, length_append. destruct (inClass c); reflexivity.
Qed.

Lemma entity_length (c : ascii) :
  inClass c = true ->
  (4 <= String.length (toString (mapGet escapeMap c)) <= 6)%nat.
Proof.
  intros H. destruct (inClass_true c H) as [-> | [-> | [-> | [-> | -> ]]]];
    simpl; lia.
Qed.

Lemma escapeHtml_length_bounds (s : string) :
  (String.length s <= String.length (escapeHtml s) <= 6 * String.length s)%nat
  /\ (anyInClassOf inClass s = true ->
      (String.length s < String.length (escapeHtml s))%nat).
Proof.
  induction s as [|c s [[IHlo IHhi] IHstrict]]; [split; [simpl; lia|discriminate]|].
  rewrite escapeHtml_length_cons.
  cbn [String.length anyInClassOf].
  destruct (inClass c) eqn:E.
  - pose proof (entity_length c E). split; [lia|]. intros _. lia.
  - split; [lia|]. cbn [orb]. intros H. specialize (IHstrict H). lia.
Qed.

(** The escaped text is at least as long as the text and at most six
    times as long; it is strictly longer as soon as the text holds one of
    the five characters. *)
Theorem escapeHtml_length (s : string) :
  (String.length s <= String.length (escapeHtml s) <= 6 * String.length s)%nat
  /\ (anyInClassOf inClass s = true ->
      (String.length s < String.length (escapeHtml s))%nat).
Proof. exact (escapeHtml_length_bounds s). Qed.

Lemma escapeHtml_length_witness :
  (String.length "a<b" < String.length (escapeHtml "a<b"))%nat.
Proof.
  apply (proj2 (escapeHtml_length "a<b")). reflexivity.
Defined.

(** The texts the escaper leaves unchanged are exactly those without any
    of the five characters, and those are also the only texts on which
    escaping twice is the same as escaping once. *)
Theorem escapeHtml_fixed_points (s : string) :
  (escapeHtml s = s <-> anyInClassOf inClass s = false)
  /\ (escapeHtml (escapeHtml s) = escapeHtml s <-> anyInClassOf inClass s = false).
Proof.
  assert (Hfix : forall u, escapeHtml u = u <-> anyInClassOf inClass u = false).
  { intros u. split; [|apply escapeHtml_plain].
    intros Heq. destruct (anyInClassOf inClass u) eqn:E; [|reflexivity].
    pose proof (proj2 (escapeHtml_length_bounds u) E) as Hlt. rewrite Heq in Hlt. lia. }
  split; [apply Hfix|].
  split.
  - intros Heq. apply Hfix.
    rewrite <- (unescape_escape (escapeHtml s)), Heq. apply unescape_escape.
  - intros H. apply Hfix in H. rewrite H. exact H.
Qed.

Lemma escapeHtml_fixed_points_witness :
  escapeHtml "plain text" = "plain text"
  /\ escapeHtml (escapeHtml "R&D") <> escapeHtml "R&D".
Proof.
  split.
  - apply (proj1 (escapeHtml_fixed_points "plain text")). reflexivity.
  - intros H. apply (proj1 (proj2 (escapeHtml_fixed_points "R&D"))) in H. discriminate.
Defined.

(** ** The renderer on siblings and descendants *)

Lemma forEach_app {A : Type} (f : A -> string) (l1 l2 : list A) (html : string) :
  forEach f (l1 ++ l2)%list html = forEach f l2 (forEach f l1 html).
Proof. unfold forEach. apply fold_left_app. Qed.

(** The children of a node are rendered one after the other, in their
    order: no children give the empty text, and the rendering of two
    sequences of siblings put together is the rendering of the first
    followed by the rendering of the second. *)
Theorem siblings_render_in_order (rules : FormattingRule) (depth : Z) :
  astToHtml (root (Some [])) rules depth = ""
  /\ (forall (c : node) (cs : list node),
        astToHtml (root (Some (c :: cs))) rules depth
        = astToHtml c rules depth ++ astToHtml (root (Some cs)) rules depth)
  /\ (forall cs1 cs2 : list node,
        astToHtml (root (Some (cs1 ++ cs2)%list)) rules depth
        = astToHtml (root (Some cs1)) rules depth
          ++ astToHtml (root (Some cs2)) rules depth).
Proof.
  split; [reflexivity|].
  split.
  - intros c cs. rewrite !astToHtml_root. cbn [forEachOpt].
    rewrite forEach_cons, append_nil_l. reflexivity.
  - intros cs1 cs2. rewrite !astToHtml_root. cbn [forEachOpt].
    rewrite forEach_app. apply forEach_acc.
Qed.

Lemma listFree_child (ty : string) (lv : Z) (v : string) (o : jsval) (u : string)
    (a : option string) (cs : list node) (c : node) :
  listFree (mkNode ty lv v o u a (Some cs)) = true -> In c cs -> listFree c = true.
Proof.
  cbn [listFree]. intros H Hin. apply andb_true_iff in H as [_ H].
  rewrite forallb_forall in H. exact (H c Hin).
Qed.

Lemma listFree_children (n c : node) (cs : list node) :
  listFree n = true -> node_children n = Some cs -> In c cs -> listFree c = true.
Proof.
  destruct n as [ty lv v o u a ch]. cbn [node_children]. intros H -> Hin.
  exact (listFree_child ty lv v o u a cs c H Hin).
Qed.

(** The depth matters to lists only: a tree without any list node is
    rendered to the same text at every depth. *)
Theorem depth_only_matters_to_lists (rules : FormattingRule) (n : node) (d1 d2 : Z) :
  listFree n = true -> astToHtml n rules d1 = astToHtml n rules d2.
Proof.
  revert d1 d2.
  assert (Hsize : forall (k : nat) (m : node),
             (node_size m < k)%nat -> listFree m = true ->
             forall d1 d2, astToHtml m rules d1 = astToHtml m rules d2).
  { induction k as [|k IH]; intros m Hk Hfree d1 d2; [lia|].
    assert (Hsub : forall x : node, (node_size x < node_size m)%nat -> listFree x = true ->
                   forall e1 e2, astToHtml x rules e1 = astToHtml x rules e2).
    { intros x Hx Hf e1 e2. apply IH; [lia|exact Hf]. }
    clear IH Hk.
    destruct m as [ty lv v o u a cs].
    assert (Hch : forall e1 e2,
               forEachOpt (fun child => astToHtml child rules e1) cs ""
               = forEachOpt (fun child => astToHtml child rules e2) cs "").
    { intros e1 e2. apply forEachOpt_ext. intros l x -> Hx.
      apply Hsub; [eapply node_size_child; [reflexivity|exact Hx]|].
      exact (listFree_child ty lv v o u a l x Hfree Hx). }
    rewrite !astToHtml_unfold. unfold renderNode. cbv zeta.
    rewrite !(Hch _ d2).
    repeat match goal with
           | |- (if String.eqb ty ?lit then _ else _) = _ =>
               destruct (String.eqb_spec ty lit) as [Heq | _]; [|]
           end; try reflexivity.
    - subst ty. discriminate Hfree.
    - f_equal. destruct cs as [rows|]; [|reflexivity].
      apply forEachIdx_ext. intros row j Hrow.
      cbv zeta. f_equal. apply forEachOpt_ext.
      intros cells cell Hcells Hcell. f_equal.
      apply forEachOpt_ext. intros l x Hl Hx.
      pose proof (listFree_child ty lv v o u a rows row Hfree Hrow) as Hfrow.
      pose proof (listFree_children row cell cells Hfrow Hcells Hcell) as Hfcell.
      apply Hsub; [|exact (listFree_children cell x l Hfcell Hl Hx)].
      pose proof (node_size_child cell x l Hl Hx).
      pose proof (node_size_child row cell cells Hcells Hcell).
      pose proof (node_size_child (mkNode ty lv v o u a (Some rows)) row rows eq_refl Hrow).
      lia. }
  intros d1 d2 Hfree. apply (Hsize (S (node_size n))); [lia|exact Hfree].
Qed.

Lemma depth_only_matters_to_lists_witness :
  astToHtml (table (Some [tableRow [tableCell [text "a"; container "strong" [text "b"]]]]))
            mockFormattingRule 0
  = astToHtml (table (Some [tableRow [tableCell [text "a"; container "strong" [text "b"]]]]))
              mockFormattingRule 3.
Proof.
  apply depth_only_matters_to_lists. reflexivity.
Defined.

Lemma forEach_Contains {A : Type} (f : A -> string) (l : list A) (html : string) (x : A) :
  In x l -> Contains (forEach f l html) (f x).
Proof.
  revert html. induction l as [|y l IH]; intros html Hin; [destruct Hin|].
  rewrite forEach_cons. destruct Hin as [-> | Hin].
  - apply Contains_app_r, Contains_prefix.
  - do 2 apply Contains_app_r. apply IH. exact Hin.
Qed.

Lemma forEachIdx_from_acc {A : Type} (f : A -> nat -> string) (l : list A) (i : nat)
    (html : string) :
  forEachIdx f l i html = html ++ forEachIdx f l i "".
Proof.
  revert i html.
  induction l as [|x l IH]; intros i html; simpl.
  - symmetry. apply append_nil_r.
  - rewrite IH, (IH (S i) ("" ++ f x i)), append_nil_l, append_assoc. reflexivity.
Qed.

Lemma forEachIdx_Contains {A : Type} (f : A -> nat -> string) (l : list A) (i : nat)
    (html : string) (x : A) :
  In x l -> exists j : nat, Contains (forEachIdx f l i html) (f x j).
Proof.
  revert i html. induction l as [|y l IH]; intros i html Hin; [destruct Hin|].
  cbn [forEachIdx]. destruct Hin as [-> | Hin].
  - exists i. rewrite forEachIdx_from_acc. apply Contains_app_left, Contains_app_r, Contains_refl.
  - apply IH. exact Hin.
Qed.

(** Reducing the goal to the rendered children of a wrapper. *)
Ltac inside_wrapper H :=
  repeat first [ exact H
               | apply Contains_app_left; exact H
               | apply Contains_app_r ].

Lemma Visits_Contains (rules : FormattingRule) (n m : node) :
  Visits n m ->
  forall depth : Z,
    (exists depth' : Z,
       Contains (astToHtml n rules depth) (astToHtml m rules depth'))
    /\ (node_type m = "text" ->
        Contains (astToHtml n rules depth) (escapeHtml (node_value m))).
Proof.
  intros Hv.
  enough (Hex : forall depth, exists depth',
               Contains (astToHtml n rules depth) (astToHtml m rules depth')).
  { intros depth. split; [apply Hex|].
    intros Hty. destruct (Hex depth) as [d' H].
    destruct m as [ty lv v o u a cs]. cbn [node_type node_value] in *. subst ty.
    exact H. }
  induction Hv as [n | n c m cs Hrc Hcs Hin Hv IH
                     | n row cell c m rows cells cs Hty Hrows Hrow Hcells Hcell Hcs Hin Hv IH];
    intros depth.
  - exists depth. apply Contains_refl.
  - destruct n as [ty lv v o u a ch]. cbn [node_type node_children] in Hrc, Hcs. subst ch.
    assert (Hc : forall dc, exists d',
                 Contains (forEachOpt (fun child => astToHtml child rules dc) (Some cs) "")
                          (astToHtml m rules d')).
    { intros dc. destruct (IH dc) as [d' H]. exists d'.
      eapply Contains_trans; [|exact H].
      cbn [forEachOpt]. apply (forEach_Contains (fun child => astToHtml child rules dc)).
      exact Hin. }
    rewrite astToHtml_unfold. unfold renderNode. cbv zeta.
    repeat match goal with
           | |- exists d', Contains (if String.eqb ty ?lit then _ else _) _ =>
               destruct (String.eqb_spec ty lit) as [Heq | _];
               [try (subst ty; discriminate Hrc)|]
           end;
      try solve [ destruct (Hc depth) as [d' H]; exists d';
                  unfold headingHtml, paragraphHtml, blockquoteHtml, linkHtml;
                  inside_wrapper H ].
    destruct (Hc (depth + 1)) as [d' H]. exists d'.
    unfold listHtml. inside_wrapper H.
  - destruct n as [ty lv v o u a ch]. cbn [node_type node_children] in Hty, Hrows.
    subst ty ch. destruct (IH depth) as [d' H]. exists d'.
    rewrite astToHtml_table.
    apply Contains_app_left.
    match goal with
    | |- Contains (forEachIdx ?f rows 0%nat ?acc) _ =>
        destruct (forEachIdx_Contains f rows 0%nat acc row Hrow) as [j Hj]
    end.
    eapply Contains_trans; [exact Hj|]. cbv beta zeta.
    apply Contains_app_left. rewrite Hcells. cbn [forEachOpt].
    match goal with
    | |- Contains (forEach ?g cells ?acc) _ =>
        eapply Contains_trans; [exact (forEach_Contains g cells acc cell Hcell)|]
    end.
    cbv beta. unfold cellHtml. rewrite Hcs. cbn [forEachOpt].
    do 7 apply Contains_app_r. apply Contains_app_left.
    eapply Contains_trans; [|exact H].
    apply (forEach_Contains (fun child => astToHtml child rules depth)). exact Hin.
Qed.

(** Nothing that the renderer visits is dropped: when rendering a tree
    visits a node, the text that node is rendered to (at some depth)
    occurs in the text of the tree.  In particular the escaped value of
    every visited text node occurs in the output. *)
Theorem visited_nodes_occur_in_the_output (rules : FormattingRule) (n m : node) :
  Visits n m ->
  forall depth : Z,
    (exists depth' : Z,
       Contains (astToHtml n rules depth) (astToHtml m rules depth'))
    /\ (node_type m = "text" ->
        Contains (astToHtml n rules depth) (escapeHtml (node_value m))).
Proof. exact (Visits_Contains rules n m). Qed.

Lemma visited_nodes_occur_in_the_output_witness :
  Contains
    (astToHtml
       (container "blockquote"
          [table (Some [tableRow [tableCell [list_ (JBool false)
                                               (Some [listItem (Some [text "x < y"])])]]])])
       mockFormattingRule 0)
    "x &lt; y".
Proof.
  refine (proj2 (visited_nodes_occur_in_the_output mockFormattingRule _ (text "x < y") _ 0)
                eq_refl).
  eapply Visits_child; [reflexivity|reflexivity|left; reflexivity|].
  eapply Visits_cell;
    [reflexivity|reflexivity|left; reflexivity|reflexivity|left; reflexivity
    |reflexivity|left; reflexivity|].
  eapply Visits_child; [reflexivity|reflexivity|left; reflexivity|].
  eapply Visits_child; [reflexivity|reflexivity|left; reflexivity|].
  apply Visits_self.
Defined.

(** ** The body inside the document *)

(** The body fragment is put into the document as it is, between a head
    that depends on the rule only and the fixed tail that closes [body]
    and [html]; so two different bodies never give the same document. *)
Theorem body_is_embedded_verbatim (rules : FormattingRule) :
  (exists pre : string,
     forall content : string,
       generateStyledHtml content rules
       = pre ++ content ++ "
</body>
</html>
  ")
  /\ (forall c1 c2 : string,
        c1 <> c2 -> generateStyledHtml c1 rules <> generateStyledHtml c2 rules).
Proof.
  destruct (generateStyledHtml_body rules) as [pre Hpre].
  split; [exists pre; exact Hpre|].
  intros c1 c2 Hne Heq. apply Hne.
  rewrite !Hpre in Heq.
  apply String.app_inj in Heq.
  exact (append_cancel_r _ _ _ Heq).
Qed.

Lemma body_is_embedded_verbatim_witness :
  generateStyledHtml "<p>a</p>" mockFormattingRule
  <> generateStyledHtml "<p>b</p>" mockFormattingRule.
Proof.
  apply (proj2 (body_is_embedded_verbatim mockFormattingRule)). discriminate.
Defined.

(** ** Finding and launching a local Chrome *)

Lemma findExecutable_some (w : World) (paths : list string) (p : string) :
  findExecutable w paths = Some p <->
  exists before after : list string,
    paths = (before ++ p :: after)%list
    /\ existsSync w p = Returned true
    /\ forall q, In q before -> existsSync w q <> Returned true.
Proof.
  split.
  - induction paths as [|q paths IH]; [discriminate|].
    cbn [findExecutable]. intros H.
    destruct (existsSync w q) as [[|]|e] eqn:E.
    + injection H as <-. exists [], paths. repeat split; [exact E|]. intros ? [].
    + destruct (IH H) as (before & after & -> & Hp & Hbefore).
      exists (q :: before), after. repeat split; [exact Hp|].
      intros x [<- | Hx]; [congruence|apply Hbefore; exact Hx].
    + destruct (IH H) as (before & after & -> & Hp & Hbefore).
      exists (q :: before), after. repeat split; [exact Hp|].
      intros x [<- | Hx]; [congruence|apply Hbefore; exact Hx].
  - intros (before & after & -> & Hp & Hbefore).
    induction before as [|q before IH]; cbn [findExecutable app].
    + rewrite Hp. reflexivity.
    + assert (Hq : existsSync w q <> Returned true) by (apply Hbefore; left; reflexivity).
      destruct (existsSync w q) as [[|]|e]; [contradiction| |];
        apply IH; intros x Hx; apply Hbefore; right; exact Hx.
Qed.

Lemma findExecutable_none (w : World) (paths : list string) :
  findExecutable w paths = None <->
  forall q, In q paths -> existsSync w q <> Returned true.
Proof.
  induction paths as [|q paths IH]; cbn [findExecutable].
  - split; [intros _ ? []|reflexivity].
  - destruct (existsSync w q) as [[|]|e] eqn:E.
    + split; [discriminate|]. intros H. exfalso. apply (H q); [left; reflexivity|exact E].
    + rewrite IH. split.
      * intros H x [<- | Hx]; [congruence|apply H; exact Hx].
      * intros H x Hx. apply H. right. exact Hx.
    + rewrite IH. split.
      * intros H x [<- | Hx]; [congruence|apply H; exact Hx].
      * intros H x Hx. apply H. right. exact Hx.
Qed.

(** The search for a local Chrome takes the first candidate path, in the
    order of the list, whose existence check returns true; a check that
    returns false or throws is passed over; and the search finds nothing
    exactly when no candidate passes the check. *)
Theorem findExecutable_takes_the_first_existing_path (w : World) (paths : list string) :
  (forall p : string,
     findExecutable w paths = Some p <->
     exists before after : list string,
       paths = (before ++ p :: after)%list
       /\ existsSync w p = Returned true
       /\ forall q, In q before -> existsSync w q <> Returned true)
  /\ (findExecutable w paths = None <->
      forall q, In q paths -> existsSync w q <> Returned true).
Proof.
  split; [intros p; apply findExecutable_some|apply findExecutable_none].
Qed.

Lemma findExecutable_takes_the_first_existing_path_witness :
  findExecutable customChromeWorld
    [ "C:\Program Files\Google\Chrome\Application\chrome.exe";
      "/usr/bin/google-chrome"; "/usr/bin/chromium-browser"; "/opt/chrome/chrome" ]
  = Some "/usr/bin/chromium-browser".
Proof.
  apply (proj1 (findExecutable_takes_the_first_existing_path customChromeWorld _)).
  exists [ "C:\Program Files\Google\Chrome\Application\chrome.exe"; "/usr/bin/google-chrome" ],
         [ "/opt/chrome/chrome" ].
  split; [reflexivity|]. split; [reflexivity|].
  intros q [<- | [<- | []]]; discriminate.
Defined.

Lemma chromePaths_truthy (w : World) (p : string) :
  CHROME_PATH w = Some p -> p <> "" ->
  chromePaths w
  = p :: [ "C:\Program Files\Google\Chrome\Application\chrome.exe";
           "C:\Program Files (x86)\Google\Chrome\Application\chrome.exe";
           "/usr/bin/google-chrome";
           "/usr/bin/chromium-browser";
           "/Applications/Google Chrome.app/Contents/MacOS/Google Chrome" ].
Proof.
  intros Hp Hne. unfold chromePaths. rewrite Hp. cbn [truthyText textOr].
  destruct (String.eqb_spec p ""); [contradiction|reflexivity].
Qed.

(** Without an endpoint, the Chrome named by [CHROME_PATH] is preferred to
    every fixed location: when that file exists it is the one launched,
    whatever else exists.  When no candidate exists the run throws the
    [Chrome not found] error without any call on a browser. *)
Theorem local_chrome_selection
    (parse : string -> node) (w : World) (markdown : string) (rules : FormattingRule) :
  truthyText (BROWSER_WS_ENDPOINT w) = false ->
  (forall p : string,
     CHROME_PATH w = Some p -> p <> "" -> existsSync w p = Returned true ->
     acquire w = ([EvLaunch p], launch w p))
  /\ ((forall q, In q (chromePaths w) -> existsSync w q <> Returned true) ->
      generatePdfFromMarkdown parse w markdown rules
      = ([], Thrown (mkError
           "Chrome not found. Set BROWSER_WS_ENDPOINT or CHROME_PATH environment variable."))).
Proof.
  intros Hep. split.
  - intros p Hp Hne Hex. unfold acquire. rewrite Hep.
    rewrite (chromePaths_truthy w p Hp Hne). cbn [findExecutable]. rewrite Hex.
    reflexivity.
  - intros Hnone. apply findExecutable_none in Hnone.
    rewrite generatePdfFromMarkdown_run. unfold acquire. rewrite Hep, Hnone.
    reflexivity.
Qed.

Lemma local_chrome_selection_witness :
  acquire customChromeWorld = ([EvLaunch "/opt/chrome/chrome"], Returned tt)
  /\ generatePdfFromMarkdown emptyParse
       (withLocalChrome customChromeWorld None (fun _ => Returned false)
          (fun _ => Returned tt) (Returned tt))
       "# Title" mockFormattingRule
     = ([], Thrown (mkError
          "Chrome not found. Set BROWSER_WS_ENDPOINT or CHROME_PATH environment variable.")).
Proof.
  split.
  - destruct (local_chrome_selection emptyParse customChromeWorld "" mockFormattingRule eq_refl)
      as [Hpath _].
    apply (Hpath "/opt/chrome/chrome" eq_refl); [discriminate|reflexivity].
  - destruct (local_chrome_selection emptyParse
                (withLocalChrome customChromeWorld None (fun _ => Returned false)
                   (fun _ => Returned tt) (Returned tt))
                "# Title" mockFormattingRule eq_refl) as [_ Hnone].
    apply Hnone. intros q _. discriminate.
Defined.

(** With an endpoint set, the local Chrome plays no part: [CHROME_PATH],
    the file system, and the outcomes of launching and closing a local
    Chrome do not change the run. *)
Theorem endpoint_run_ignores_local_chrome
    (parse : string -> node) (w : World) (markdown : string) (rules : FormattingRule)
    (chromePath : option string) (exists' : string -> outcome bool)
    (launch' : string -> outcome unit) (close' : outcome unit) :
  truthyText (BROWSER_WS_ENDPOINT w) = true ->
  generatePdfFromMarkdown parse (withLocalChrome w chromePath exists' launch' close')
                          markdown rules
  = generatePdfFromMarkdown parse w markdown rules.
Proof.
  intros Hep. rewrite !generatePdfFromMarkdown_run.
  unfold acquire, releaseEvent, releaseOutcome, printPage.
  cbn [BROWSER_WS_ENDPOINT withLocalChrome connect newPage setContent pdf disconnect].
  rewrite Hep. reflexivity.
Qed.

Lemma endpoint_run_ignores_local_chrome_witness :
  generatePdfFromMarkdown emptyParse
    (withLocalChrome failingWorld (Some "/opt/chrome/chrome")
       (fun _ => Thrown (mkError "EACCES")) (fun _ => Thrown (mkError "spawn failed"))
       (Thrown (mkError "close failed")))
    "# Title" mockFormattingRule
  = generatePdfFromMarkdown emptyParse failingWorld "# Title" mockFormattingRule.
Proof.
  apply endpoint_run_ignores_local_chrome. reflexivity.
Defined.

(** ** The page operations *)

Lemma StartsWith_refl (s : string) : StartsWith s s.
Proof. exists "". symmetry. apply append_nil_r. Qed.

Lemma StartsWith_here (p post : string) : StartsWith (p ++ post) p.
Proof. exists post. reflexivity. Qed.

Lemma StartsWith_app (a s p : string) : StartsWith s p -> StartsWith (a ++ s) (a ++ p).
Proof. intros [post ->]. exists post. symmetry. apply append_assoc. Qed.

Lemma StartsWith_Contains (pre s p : string) : StartsWith s p -> Contains (pre ++ s) p.
Proof. intros [post ->]. exists pre, post. reflexivity. Qed.

Lemma printPage_pdf_event (w : World) (html : string) (rules : FormattingRule)
    (format top bottom left right : string) :
  In (EvPdf format top bottom left right) (fst (printPage w html rules)) ->
  format = (if strictEqStr (pageSize rules) "Letter" then "Letter" else "A4")
  /\ top = toString (marginTop rules) ++ "mm"
  /\ bottom = toString (marginBottom rules) ++ "mm"
  /\ left = toString (marginLeft rules) ++ "mm"
  /\ right = toString (marginRight rules) ++ "mm"
  /\ newPage w = Returned tt
  /\ setContent w html = Returned tt.
Proof.
  unfold printPage, bind, call, ret.
  destruct (newPage w) as [[]|e]; [|intros [H | []]; discriminate].
  destruct (setContent w html) as [[]|e]; [|intros [H | [H | []]]; discriminate].
  destruct (pdf w) as [buf|e]; cbn [fst app];
    (intros [H | [H | [H | []]]]; try discriminate;
     injection H as <- <- <- <- <-; repeat split).
Qed.

Lemma acquire_only_acquires (w : World) (ev : Event) :
  In ev (fst (acquire w)) -> exists x : string, ev = EvConnect x \/ ev = EvLaunch x.
Proof.
  destruct (acquire_cases w) as [[_ Ha] | [_ [[e Ha] | [p Ha]]]]; rewrite Ha; cbn [fst].
  - intros [<- | []]. eexists. left. reflexivity.
  - intros [].
  - intros [<- | []]. eexists. right. reflexivity.
Qed.

Lemma run_pdf_event (parse : string -> node) (w : World) (markdown : string)
    (rules : FormattingRule) (format top bottom left right : string) :
  In (EvPdf format top bottom left right)
     (fst (generatePdfFromMarkdown parse w markdown rules)) ->
  snd (acquire w) = Returned tt
  /\ In (EvPdf format top bottom left right)
        (fst (printPage w (markdownToHtml parse markdown rules) rules)).
Proof.
  rewrite generatePdfFromMarkdown_run.
  destruct (snd (acquire w)) as [[]|e] eqn:E; cbn [fst]; intros Hin.
  - split; [reflexivity|].
    apply in_app_or in Hin as [Hin | Hin].
    + apply acquire_only_acquires in Hin as [x [H | H]]; discriminate.
    + apply in_app_or in Hin as [Hin | Hin]; [exact Hin|].
      exfalso. unfold releaseEvent in Hin.
      destruct (truthyText _), Hin as [H | []]; discriminate.
  - apply acquire_only_acquires in Hin as [x [H | H]]; discriminate.
Qed.

(** What the print engine is asked to print agrees with what the document
    says about itself: when the run reaches the call of [pdf], its format
    is [Letter] or [A4], the [@page] rule of the document handed over by
    [setContent] has the physical size of that format, and the four
    margins passed to [pdf] are the four margins of that rule. *)
Theorem print_options_agree_with_the_page_rule
    (parse : string -> node) (w : World) (markdown : string) (rules : FormattingRule)
    (format top bottom left right : string) :
  In (EvPdf format top bottom left right)
     (fst (generatePdfFromMarkdown parse w markdown rules)) ->
  (format = "Letter" \/ format = "A4")
  /\ In (EvSetContent (markdownToHtml parse markdown rules))
        (fst (generatePdfFromMarkdown parse w markdown rules))
  /\ Contains (markdownToHtml parse markdown rules)
       ("@page {
      size: " ++ formatDimensions format ++ ";
      margin: " ++ top ++ " " ++ right ++ " " ++ bottom ++ " " ++ left ++ ";").
Proof.
  intros Hin. destruct (run_pdf_event _ _ _ _ _ _ _ _ _ Hin) as [Hacq Hp].
  apply printPage_pdf_event in Hp
    as (-> & -> & -> & -> & -> & Hnew & Hset).
  split; [destruct (strictEqStr _ _); [left|right]; reflexivity|].
  split.
  { rewrite generatePdfFromMarkdown_run, Hacq.
    cbn [fst]. apply in_or_app. right. apply in_or_app. left.
    unfold printPage, bind, call. rewrite Hnew, Hset.
    destruct (pdf w); cbn; right; left; reflexivity. }
  unfold markdownToHtml, generateStyledHtml. cbv zeta.
  apply StartsWith_Contains.
  apply StartsWith_app.
  replace (formatDimensions (if strictEqStr (pageSize rules) "Letter" then "Letter" else "A4"))
    with (if strictEqStr (pageSize rules) "Letter" then "8.5in 11in" else "210mm 297mm")
    by (destruct (strictEqStr _ _); reflexivity).
  do 9 apply StartsWith_app.
  apply (StartsWith_here ";").
Qed.

Lemma print_options_agree_with_the_page_rule_witness :
  Contains (markdownToHtml emptyParse "# Title" mockFormattingRule)
    "@page {
      size: 210mm 297mm;
      margin: 20mm 20mm 20mm 20mm;".
Proof.
  destruct (print_options_agree_with_the_page_rule
              emptyParse localWorld "# Title" mockFormattingRule
              "A4" "20mm" "20mm" "20mm" "20mm") as (_ & _ & H).
  - vm_compute. right. right. right. left. reflexivity.
  - exact H.
Defined.

Lemma printPage_returned (w : World) (html : string) (rules : FormattingRule) (buf : string) :
  snd (printPage w html rules) = Returned buf <->
  newPage w = Returned tt /\ setContent w html = Returned tt /\ pdf w = Returned buf.
Proof.
  unfold printPage, bind, call, ret.
  destruct (newPage w) as [[]|e1]; [|split; [discriminate|intros (H & _); discriminate]].
  destruct (setContent w html) as [[]|e2];
    [|split; [discriminate|intros (_ & H & _); discriminate]].
  destruct (pdf w) as [b|e3]; cbn [snd].
  - split; [intros [= ->]; repeat split|intros (_ & _ & [= ->]); reflexivity].
  - split; [discriminate|intros (_ & _ & H); discriminate].
Qed.

(** A run returns PDF bytes exactly when every call returns: acquiring
    the engine, opening a page, setting its content, printing, and
    releasing the engine; the bytes are those that [pdf] returned, and the
    calls are then these five, in this order. *)
Theorem run_succeeds_iff_every_call_returns
    (parse : string -> node) (w : World) (markdown : string) (rules : FormattingRule)
    (buf : string) :
  let html := markdownToHtml parse markdown rules in
  (snd (generatePdfFromMarkdown parse w markdown rules) = Returned buf <->
   snd (acquire w) = Returned tt
   /\ newPage w = Returned tt
   /\ setContent w html = Returned tt
   /\ pdf w = Returned buf
   /\ releaseOutcome w = Returned tt)
  /\ (snd (generatePdfFromMarkdown parse w markdown rules) = Returned buf ->
      exists (acquired : Event) (format top bottom left right : string),
        fst (generatePdfFromMarkdown parse w markdown rules)
        = [ acquired; EvNewPage; EvSetContent html;
            EvPdf format top bottom left right; releaseEvent w ]).
Proof.
  intros html. subst html.
  assert (Hiff : snd (generatePdfFromMarkdown parse w markdown rules) = Returned buf <->
                 snd (acquire w) = Returned tt
                 /\ newPage w = Returned tt
                 /\ setContent w (markdownToHtml parse markdown rules) = Returned tt
                 /\ pdf w = Returned buf
                 /\ releaseOutcome w = Returned tt).
  { rewrite generatePdfFromMarkdown_run.
    destruct (snd (acquire w)) as [[]|e]; cbn [snd].
    - destruct (releaseOutcome w) as [[]|e].
      + rewrite printPage_returned. tauto.
      + split; [discriminate|intros (_ & _ & _ & _ & H); discriminate].
    - split; [discriminate|intros (H & _); discriminate]. }
  split; [exact Hiff|].
  intros Hret. apply Hiff in Hret as (Hacq & Hnew & Hset & Hpdf & _).
  rewrite generatePdfFromMarkdown_run, Hacq. cbn [fst].
  unfold printPage, bind, call, ret. rewrite Hnew, Hset, Hpdf. cbn [fst app].
  destruct (acquire_cases w) as [[_ Ha] | [_ [[e Ha] | [p Ha]]]].
  - rewrite Ha. cbn [fst app]. do 6 eexists. reflexivity.
  - rewrite Ha in Hacq. discriminate.
  - rewrite Ha. cbn [fst app]. do 6 eexists. reflexivity.
Qed.

Lemma run_succeeds_iff_every_call_returns_witness :
  snd (generatePdfFromMarkdown emptyParse localWorld "# Title" mockFormattingRule)
  = Returned "%PDF".
Proof.
  apply (proj1 (run_succeeds_iff_every_call_returns
                  emptyParse localWorld "# Title" mockFormattingRule "%PDF")).
  repeat split.
Defined.

(** The page operations stop at the first one that throws: after a failed
    [newPage] neither [setContent] nor [pdf] is called, after a failed
    [setContent] no [pdf] is called; the engine is then released, and when
    the release returns the caller gets the error of the failed call. *)
Theorem page_operations_stop_at_the_first_failure
    (parse : string -> node) (w : World) (markdown : string) (rules : FormattingRule)
    (e : JsError) :
  let html := markdownToHtml parse markdown rules in
  let run := generatePdfFromMarkdown parse w markdown rules in
  snd (acquire w) = Returned tt ->
  (newPage w = Thrown e ->
   fst run = (fst (acquire w) ++ [EvNewPage; releaseEvent w])%list
   /\ (releaseOutcome w = Returned tt -> snd run = Thrown e))
  /\ (newPage w = Returned tt -> setContent w html = Thrown e ->
      fst run = (fst (acquire w) ++ [EvNewPage; EvSetContent html; releaseEvent w])%list
      /\ (releaseOutcome w = Returned tt -> snd run = Thrown e))
  /\ (newPage w = Returned tt -> setContent w html = Returned tt -> pdf w = Thrown e ->
      releaseOutcome w = Returned tt -> snd run = Thrown e).
Proof.
  intros html run Hacq. subst run html.
  rewrite generatePdfFromMarkdown_run, Hacq. cbn [fst snd].
  unfold printPage, bind, call, ret.
  split; [|split].
  - intros ->. cbn [fst snd app]. split; [reflexivity|intros ->; reflexivity].
  - intros -> ->. cbn [fst snd app]. split; [reflexivity|intros ->; reflexivity].
  - intros -> -> -> ->. reflexivity.
Qed.

Lemma page_operations_stop_at_the_first_failure_witness :
  fst (generatePdfFromMarkdown emptyParse failingWorld "# Title" mockFormattingRule)
  = [ EvConnect "ws://engine:3000"; EvNewPage;
      EvSetContent (markdownToHtml emptyParse "# Title" mockFormattingRule); EvDisconnect ].
Proof.
  destruct (page_operations_stop_at_the_first_failure
              emptyParse failingWorld "# Title" mockFormattingRule
              (mkError "setContent timed out") eq_refl) as (_ & Hset & _).
  destruct (Hset eq_refl eq_refl) as [Htrace _].
  exact Htrace.
Defined.

(** ** The database layer: connecting *)

(** The connection is made once and kept: with a handle in [_db], [getDb]
    returns it without calling [drizzle], so a handle returned by one call
    is what every later call returns, whatever the environment has become.
    Without [DATABASE_URL] no connection is attempted; a failed attempt
    leaves [_db] empty, and [getDb] returns nothing exactly in these two
    cases. *)
Theorem getDb_connects_once (w : Db.DbWorld) (_db : option Db.DbHandle) :
  (forall (h : Db.DbHandle) (w' : Db.DbWorld),
     snd (Db.getDb w _db) = Some h -> Db.getDb w' (snd (Db.getDb w _db)) = ([], Some h))
  /\ (truthyText (Db.DATABASE_URL w) = false -> Db.getDb w _db = ([], _db))
  /\ (snd (Db.getDb w None) = None <->
      truthyText (Db.DATABASE_URL w) = false
      \/ exists e, Db.drizzle w (textOr (Db.DATABASE_URL w) "") = Thrown e)
  /\ (forall ev, In ev (fst (Db.getDb w _db)) ->
      _db = None /\ truthyText (Db.DATABASE_URL w) = true).
Proof.
  split; [|split; [|split]].
  - intros h w' H. rewrite H. reflexivity.
  - intros H. unfold Db.getDb. rewrite H. destruct _db; reflexivity.
  - unfold Db.getDb. destruct (truthyText (Db.DATABASE_URL w)).
    + destruct (Db.drizzle w _) as [h|e]; cbn [snd].
      * split; [discriminate|]. intros [H | [e H]]; discriminate.
      * split; [|reflexivity]. intros _. right. exists e. reflexivity.
    + split; [|reflexivity]. intros _. left. reflexivity.
  - intros ev. unfold Db.getDb. destruct _db as [h|]; [intros []|].
    destruct (truthyText (Db.DATABASE_URL w)); [|intros []].
    intros _. split; reflexivity.
Qed.

Lemma getDb_connects_once_witness :
  Db.getDb noDbWorld (snd (Db.getDb dbWorld None))
  = ([], Some (Db.mkDbHandle "mysql://localhost/app"))
  /\ Db.getDb noDbWorld None = ([], None).
Proof.
  destruct (getDb_connects_once dbWorld None) as (Hkeep & _).
  destruct (getDb_connects_once noDbWorld None) as (_ & Hnone & _).
  split; [apply Hkeep; reflexivity|apply Hnone; reflexivity].
Defined.

(** ** The database layer: upserting a user *)

(** Taking apart a user and its world, and computing the statement. *)
Ltac upsert_cases w user :=
  destruct user as [oid [| |nm] [| |em] [| |lm] [t|] [r|]];
  unfold Db.upsertStatement;
  cbn [Db.openId Db.name Db.email Db.loginMethod Db.lastSignedIn Db.role
       Db.textFields Db.assignNullable Db.fieldOf Db.fieldKey fold_left fst snd];
  try destruct (String.eqb oid (Db.ownerOpenId w)).

(** [upsertUser] refuses an empty open id before it looks for the
    database; without a database it warns and returns without sending
    anything; with a database it sends exactly one statement, and its
    outcome is the outcome of that statement, an error being passed on
    unchanged. *)
Theorem upsertUser_outcomes
    (w : Db.DbWorld) (_db : option Db.DbHandle) (user : Db.InsertUser) :
  (Db.openId user = "" ->
   Db.upsertUser w _db user
   = ([], _db, Thrown (mkError "User openId is required for upsert")))
  /\ (Db.openId user <> "" -> snd (Db.getDb w _db) = None ->
      Db.upsertUser w _db user
      = ((fst (Db.getDb w _db)
          ++ [Db.EvWarn "[Database] Cannot upsert user: database not available"])%list,
         None, Returned tt))
  /\ (forall h : Db.DbHandle,
        Db.openId user <> "" -> snd (Db.getDb w _db) = Some h ->
        (forall z : Z,
           Db.execute w (Db.upsertStatement w user) = Returned z ->
           snd (Db.upsertUser w _db user) = Returned tt)
        /\ (forall e : JsError,
              Db.execute w (Db.upsertStatement w user) = Thrown e ->
              snd (Db.upsertUser w _db user) = Thrown e)
        /\ snd (fst (Db.upsertUser w _db user)) = Some h
        /\ List.filter (fun ev => match ev with Db.EvQuery _ => true | _ => false end)
                       (fst (fst (Db.upsertUser w _db user)))
           = [Db.EvQuery (Db.upsertStatement w user)]).
Proof.
  unfold Db.upsertUser. split; [|split].
  - intros ->. reflexivity.
  - intros Hne Hdb. destruct (String.eqb_spec (Db.openId user) ""); [contradiction|].
    destruct (Db.getDb w _db) as [opened db]. cbn [fst snd] in *. subst db. reflexivity.
  - intros h Hne Hdb. destruct (String.eqb_spec (Db.openId user) ""); [contradiction|].
    assert (Hopened : List.filter (fun ev => match ev with Db.EvQuery _ => true | _ => false end)
                        (fst (Db.getDb w _db)) = []).
    { unfold Db.getDb. destruct _db; [reflexivity|].
      destruct (truthyText _); [|reflexivity]. destruct (Db.drizzle w _); reflexivity. }
    destruct (Db.getDb w _db) as [opened db]. cbn [fst snd] in *. subst db.
    destruct (Db.execute w (Db.upsertStatement w user)) as [z|e]; cbn [fst snd];
      rewrite List.filter_app, Hopened;
      (split; [intros ? H; (reflexivity || discriminate H)|]);
      (split; [intros ? H; try discriminate H; injection H as <-; reflexivity|]);
      split; reflexivity.
Qed.

Lemma upsertUser_outcomes_witness :
  Db.upsertUser dbWorld None (bareUser "")
  = ([], None, Thrown (mkError "User openId is required for upsert"))
  /\ snd (Db.upsertUser noDbWorld None (bareUser "u-1")) = Returned tt
  /\ snd (Db.upsertUser noDbWorld (Some (Db.mkDbHandle "mysql://db")) (bareUser "u-1"))
     = Thrown (mkError "ER_DUP").
Proof.
  destruct (upsertUser_outcomes dbWorld None (bareUser "")) as (Hempty & _).
  destruct (upsertUser_outcomes noDbWorld None (bareUser "u-1")) as (_ & Hnodb & _).
  destruct (upsertUser_outcomes noDbWorld (Some (Db.mkDbHandle "mysql://db")) (bareUser "u-1"))
    as (_ & _ & Hdb).
  split; [exact (Hempty eq_refl)|].
  split.
  - rewrite Hnodb; [reflexivity|discriminate|reflexivity].
  - destruct (Hdb (Db.mkDbHandle "mysql://db")) as (_ & Hthrown & _);
      [discriminate|reflexivity|].
    apply Hthrown. reflexivity.
Defined.

(** Every statement [upsertUser] sends inserts the open id and a
    [lastSignedIn] date, never updates the open id, and never has an empty
    update set. *)
Theorem upsert_statement_is_well_formed (w : Db.DbWorld) (user : Db.InsertUser) :
  let q := Db.upsertStatement w user in
  upsertValues q !! "openId" = Some (Db.DText (Db.openId user))
  /\ (exists t : Z, upsertValues q !! "lastSignedIn" = Some (Db.DDate t))
  /\ upsertUpdateSet q !! "openId" = None
  /\ size (upsertUpdateSet q) <> 0%nat.
Proof.
  upsert_cases w user; vm_compute; (repeat split; try discriminate);
    eexists; reflexivity.
Qed.

(** What is written for each column.  A text field that is undefined is
    left out, one that is null is written as null, one that has a value is
    written with it, in the inserted values and in the update set alike.
    A role given in the input is written as it is; without one, the user
    whose open id is the owner's is written as admin, and for any other
    user no role is written. *)
Theorem upsert_statement_columns (w : Db.DbWorld) (user : Db.InsertUser) :
  let q := Db.upsertStatement w user in
  (forall field : Db.TextField,
     upsertValues q !! Db.fieldKey field = storedText (Db.fieldOf user field)
     /\ upsertUpdateSet q !! Db.fieldKey field = storedText (Db.fieldOf user field))
  /\ (forall r : Db.Role,
        Db.role user = Some r ->
        upsertValues q !! "role" = Some (Db.DRole r)
        /\ upsertUpdateSet q !! "role" = Some (Db.DRole r))
  /\ (Db.role user = None -> Db.openId user = Db.ownerOpenId w ->
      upsertValues q !! "role" = Some (Db.DRole Db.RoleAdmin)
      /\ upsertUpdateSet q !! "role" = Some (Db.DRole Db.RoleAdmin))
  /\ (Db.role user = None -> Db.openId user <> Db.ownerOpenId w ->
      upsertValues q !! "role" = None /\ upsertUpdateSet q !! "role" = None).
Proof.
  destruct user as [oid [| |nm] [| |em] [| |lm] [t|] [r|]];
    unfold Db.upsertStatement;
    cbn [Db.openId Db.name Db.email Db.loginMethod Db.lastSignedIn Db.role
         Db.textFields Db.assignNullable Db.fieldOf Db.fieldKey fold_left fst snd];
    destruct (String.eqb_spec oid (Db.ownerOpenId w)) as [Howner | Hother];
    (split; [intros []; vm_compute; split; reflexivity|]);
    (split; [intros r0 [= <-] || (intros r0 H; discriminate H)|]);
    try (vm_compute; split; reflexivity);
    (split; intros H1 H2; try discriminate H1; try contradiction;
     vm_compute; split; reflexivity).
Qed.

Lemma upsert_statement_columns_witness :
  upsertValues
    (Db.upsertStatement dbWorld
       (Db.mkInsertUser "owner-1" (Db.Value "Ada") Db.Null Db.Undefined None None))
  = <["openId" := Db.DText "owner-1"]>
    (<["name" := Db.DText "Ada"]>
    (<["email" := Db.DNull]>
    (<["role" := Db.DRole Db.RoleAdmin]>
    (<["lastSignedIn" := Db.DDate 1700000000000]> ∅))))
  /\ upsertUpdateSet
       (Db.upsertStatement dbWorld
          (Db.mkInsertUser "owner-1" (Db.Value "Ada") Db.Null Db.Undefined None None))
     !! "role" = Some (Db.DRole Db.RoleAdmin).
Proof.
  split; [vm_compute; reflexivity|].
  destruct (upsert_statement_columns dbWorld
              (Db.mkInsertUser "owner-1" (Db.Value "Ada") Db.Null Db.Undefined None None))
    as (_ & _ & Howner & _).
  exact (proj2 (Howner eq_refl eq_refl)).
Defined.

(** The date of the last sign-in.  A date given in the input is written in
    both objects.  Without one, the inserted values take the first reading
    of the clock; the update set then has a date only when the input gives
    nothing at all to update, and that date is a second, later reading of
    the clock; in every other case an update leaves the stored date as it
    is. *)
Theorem upsert_statement_lastSignedIn (w : Db.DbWorld) (user : Db.InsertUser) :
  let q := Db.upsertStatement w user in
  (forall t : Z,
     Db.lastSignedIn user = Some t ->
     upsertValues q !! "lastSignedIn" = Some (Db.DDate t)
     /\ upsertUpdateSet q !! "lastSignedIn" = Some (Db.DDate t))
  /\ (Db.lastSignedIn user = None ->
      upsertValues q !! "lastSignedIn" = Some (Db.DDate (Db.clock w 0%nat))
      /\ upsertUpdateSet q !! "lastSignedIn"
         = if onlyOpenId w user then Some (Db.DDate (Db.clock w 1%nat)) else None).
Proof.
  destruct user as [oid [| |nm] [| |em] [| |lm] [t|] [r|]];
    unfold Db.upsertStatement, onlyOpenId;
    cbn [Db.openId Db.name Db.email Db.loginMethod Db.lastSignedIn Db.role
         Db.textFields Db.assignNullable Db.fieldOf Db.fieldKey fold_left fst snd];
    try destruct (String.eqb oid (Db.ownerOpenId w));
    (split; [intros t0 H; try discriminate H; injection H as <-
            |intros H; try discriminate H]);
    vm_compute; split; reflexivity.
Qed.

Lemma upsert_statement_lastSignedIn_witness :
  Db.upsertStatement dbWorld (bareUser "u-1")
  = Db.QUpsertUser
      (<["openId" := Db.DText "u-1"]> (<["lastSignedIn" := Db.DDate 1700000000000]> ∅))
      (<["lastSignedIn" := Db.DDate 1700000000001]> ∅)
  /\ upsertUpdateSet
       (Db.upsertStatement dbWorld
          (Db.mkInsertUser "u-1" (Db.Value "Ada") Db.Undefined Db.Undefined None None))
     !! "lastSignedIn" = None.
Proof.
  split; [vm_compute; reflexivity|].
  destruct (upsert_statement_lastSignedIn dbWorld
              (Db.mkInsertUser "u-1" (Db.Value "Ada") Db.Undefined Db.Undefined None None))
    as (_ & Hnone).
  exact (proj2 (Hnone eq_refl)).
Defined.

(** ** The database layer: creating rules and conversions *)

Lemma numOr_truthyNum (v : option Z) (d : Z) : numOr (truthyNum v) d = numOr v d.
Proof. destruct v as [z|]; [|reflexivity]. simpl. destruct (z =? 0) eqn:E; simpl; rewrite ?E; reflexivity. Qed.

Lemma textOr_truthyStr (v : option string) (d : string) : textOr (truthyStr v) d = textOr v d.
Proof.
  destruct v as [s|]; [|reflexivity]. simpl.
  destruct (String.eqb s "") eqn:E; simpl; rewrite ?E; reflexivity.
Qed.

Lemma textOrNull_truthyStr (v : option string) : textOrNull (truthyStr v) = textOrNull v.
Proof.
  destruct v as [s|]; [|reflexivity]. simpl.
  destruct (String.eqb s "") eqn:E; simpl; rewrite ?E; reflexivity.
Qed.

Lemma numOr_nonzero (v : option Z) (d : Z) : d <> 0 -> numOr v d <> 0.
Proof.
  intros Hd. destruct v as [z|]; simpl; [|exact Hd].
  destruct (Z.eqb_spec z 0); assumption.
Qed.

Lemma textOr_nonempty (v : option string) (d : string) : d <> "" -> textOr v d <> "".
Proof.
  intros Hd. destruct v as [s|]; simpl; [|exact Hd].
  destruct (String.eqb_spec s ""); assumption.
Qed.

Lemma textOrNull_nonempty (v : option string) : textOrNull v <> Some "".
Proof.
  destruct v as [s|]; simpl; [|discriminate].
  destruct (String.eqb_spec s ""); [discriminate|congruence].
Qed.

Lemma numOrNull_nonzero (v : option Z) : numOrNull v <> Some 0.
Proof.
  destruct v as [z|]; simpl; [|discriminate].
  destruct (Z.eqb_spec z 0); [discriminate|congruence].
Qed.

(** In [createFormattingRule] a field defaulted by [||] cannot hold 0 or
    the empty text: such a value gives the same rule as leaving the field
    out.  The two flags defaulted by [??] are different: their 0 is
    stored, and only their absence gives 1. *)
Theorem createFormattingRule_falsy_and_nullish (userId : Z) (data : RuleData.t) :
  ruleOf userId data = ruleOf userId (dropFalsy data)
  /\ (forall z : Z,
        RuleData.preventOrphanHeadings data = Some z ->
        NewRule.preventOrphanHeadings (ruleOf userId data) = z)
  /\ (forall z : Z,
        RuleData.keepCodeBlocksTogether data = Some z ->
        NewRule.keepCodeBlocksTogether (ruleOf userId data) = z)
  /\ (RuleData.preventOrphanHeadings data = None ->
      NewRule.preventOrphanHeadings (ruleOf userId data) = 1)
  /\ (RuleData.keepCodeBlocksTogether data = None ->
      NewRule.keepCodeBlocksTogether (ruleOf userId data) = 1)
  /\ (RuleData.marginTop data = Some 0 -> NewRule.marginTop (ruleOf userId data) = 20)
  /\ (RuleData.fontSize data = Some 0 -> NewRule.fontSize (ruleOf userId data) = 12).
Proof.
  split.
  { unfold ruleOf, dropFalsy. cbn.
    rewrite !numOr_truthyNum, !textOr_truthyStr, !textOrNull_truthyStr. reflexivity. }
  unfold ruleOf. cbn.
  repeat split; intros; match goal with H : _ = _ |- _ => rewrite H end; reflexivity.
Qed.

Lemma createFormattingRule_falsy_and_nullish_witness :
  NewRule.marginTop (ruleOf 7 zeroData) = 20
  /\ NewRule.preventOrphanHeadings (ruleOf 7 zeroData) = 0
  /\ NewRule.keepCodeBlocksTogether (ruleOf 7 zeroData) = 0
  /\ NewRule.preventOrphanHeadings (ruleOf 7 (nameOnly "Plain")) = 1
  /\ NewRule.keepCodeBlocksTogether (ruleOf 7 (nameOnly "Plain")) = 1.
Proof.
  destruct (createFormattingRule_falsy_and_nullish 7 zeroData)
    as (_ & Horphan & Hkeep & _ & _ & Hmargin & _).
  destruct (createFormattingRule_falsy_and_nullish 7 (nameOnly "Plain"))
    as (_ & _ & _ & Horphan1 & Hkeep1 & _).
  split; [exact (Hmargin eq_refl)|].
  split; [exact (Horphan 0 eq_refl)|].
  split; [exact (Hkeep 0 eq_refl)|].
  split; [exact (Horphan1 eq_refl)|exact (Hkeep1 eq_refl)].
Defined.

(** Whatever the input, the rule that [createFormattingRule] inserts has
    a font size and four margins other than 0, a font family, a line
    height, a page size and a page-break setting other than the empty
    text, and a description, header and footer that are null or not
    empty. *)
Theorem createFormattingRule_stores_no_falsy_value (userId : Z) (data : RuleData.t) :
  let r := ruleOf userId data in
  NewRule.fontSize r <> 0
  /\ NewRule.marginTop r <> 0 /\ NewRule.marginBottom r <> 0
  /\ NewRule.marginLeft r <> 0 /\ NewRule.marginRight r <> 0
  /\ NewRule.fontFamily r <> "" /\ NewRule.lineHeight r <> ""
  /\ NewRule.pageSize r <> "" /\ NewRule.pageBreakBeforeHeadings r <> ""
  /\ NewRule.description r <> Some ""
  /\ NewRule.headerText r <> Some "" /\ NewRule.footerText r <> Some "".
Proof.
  unfold ruleOf. cbn.
  repeat split;
    first [ apply numOr_nonzero; discriminate
          | apply textOr_nonempty; discriminate
          | apply textOrNull_nonempty ].
Qed.

(** What the three writing functions do without a database differs:
    [createFormattingRule] and [createConversion] throw
    [Database not available], while [upsertUser] logs a warning and
    returns as if it had succeeded; none of them sends a statement.  With
    a database the first two send the insert of the object they built,
    and that only, and their outcome is the outcome of the insert. *)
Theorem writes_without_a_database
    (w : Db.DbWorld) (_db : option Db.DbHandle) (userId : Z)
    (rule : RuleData.t) (conversion : ConversionData.t) (user : Db.InsertUser) :
  (snd (Db.getDb w _db) = None ->
   Db.createFormattingRule w _db userId rule
   = (fst (Db.getDb w _db), None, Thrown (mkError "Database not available"))
   /\ Db.createConversion w _db userId conversion
      = (fst (Db.getDb w _db), None, Thrown (mkError "Database not available"))
   /\ (Db.openId user <> "" ->
       snd (Db.upsertUser w _db user) = Returned tt
       /\ forall q, ~ In (Db.EvQuery q) (fst (fst (Db.upsertUser w _db user)))))
  /\ (forall h : Db.DbHandle,
        snd (Db.getDb w _db) = Some h ->
        Db.createFormattingRule w _db userId rule
        = ((fst (Db.getDb w _db) ++ [Db.EvQuery (Db.QInsertRule (ruleOf userId rule))])%list,
           Some h, Db.execute w (Db.QInsertRule (ruleOf userId rule)))
        /\ Db.createConversion w _db userId conversion
           = ((fst (Db.getDb w _db)
               ++ [Db.EvQuery (Db.QInsertConversion (conversionOf userId conversion))])%list,
              Some h, Db.execute w (Db.QInsertConversion (conversionOf userId conversion)))).
Proof.
  assert (Hopened : forall q, ~ In (Db.EvQuery q) (fst (Db.getDb w _db))).
  { intros q. unfold Db.getDb. destruct _db; [intros []|].
    destruct (truthyText _); [|intros []].
    destruct (Db.drizzle w _); cbn [fst In]; intuition discriminate. }
  unfold Db.createFormattingRule, Db.createConversion, Db.upsertUser.
  destruct (Db.getDb w _db) as [opened db]. cbn [fst snd] in *.
  split.
  - intros ->. split; [reflexivity|]. split; [reflexivity|].
    intros Hne. destruct (String.eqb_spec (Db.openId user) ""); [contradiction|].
    cbn [fst snd]. split; [reflexivity|].
    intros q Hin. apply in_app_or in Hin as [Hin | [Hin | []]];
      [exact (Hopened q Hin)|discriminate].
  - intros h ->. split; reflexivity.
Qed.

Lemma writes_without_a_database_witness :
  Db.createFormattingRule noDbWorld None 7 zeroData
  = ([], None, Thrown (mkError "Database not available"))
  /\ snd (Db.createFormattingRule dbWorld None 7 zeroData) = Returned 1.
Proof.
  destruct (writes_without_a_database noDbWorld None 7 zeroData
              (ConversionData.mk None None 0 None None None None None) (bareUser "u-1"))
    as (Hnone & _).
  destruct (writes_without_a_database dbWorld None 7 zeroData
              (ConversionData.mk None None 0 None None None None None) (bareUser "u-1"))
    as (_ & Hsome).
  split.
  - exact (proj1 (Hnone eq_refl)).
  - rewrite (proj1 (Hsome (Db.mkDbHandle "mysql://localhost/app") eq_refl)). reflexivity.
Defined.

(** In [createConversion] the nullable columns never receive 0 or the
    empty text: a rule id, a PDF size or a generation time of 0, and an
    empty title, url or error message, are stored as null, as if they had
    been left out.  The Markdown size is stored as given, 0 included, and
    the status is [pending] unless one is given. *)
Theorem createConversion_stores_null_for_falsy (userId : Z) (data : ConversionData.t) :
  let c := conversionOf userId data in
  NewConversion.formattingRuleId c <> Some 0
  /\ NewConversion.pdfSize c <> Some 0
  /\ NewConversion.generationTimeMs c <> Some 0
  /\ NewConversion.markdownTitle c <> Some ""
  /\ NewConversion.pdfUrl c <> Some ""
  /\ NewConversion.errorMessage c <> Some ""
  /\ (ConversionData.generationTimeMs data = Some 0 -> NewConversion.generationTimeMs c = None)
  /\ (ConversionData.pdfSize data = Some 0 -> NewConversion.pdfSize c = None)
  /\ NewConversion.markdownSize c = ConversionData.markdownSize data
  /\ (ConversionData.status data = None -> NewConversion.status c = Pending)
  /\ (forall s : Status, ConversionData.status data = Some s -> NewConversion.status c = s).
Proof.
  unfold conversionOf. cbn.
  repeat split;
    first [ apply numOrNull_nonzero
          | apply textOrNull_nonempty
          | intros; match goal with H : _ = _ |- _ => rewrite H end; reflexivity ].
Qed.

Lemma createConversion_stores_null_for_falsy_witness :
  NewConversion.generationTimeMs
    (conversionOf 7 (ConversionData.mk None (Some "") 0 None (Some 0) (Some 0)
                                       (Some Completed) None)) = None
  /\ NewConversion.status
       (conversionOf 7 (ConversionData.mk None (Some "") 0 None (Some 0) (Some 0)
                                          (Some Completed) None)) = Completed.
Proof.
  destruct (createConversion_stores_null_for_falsy 7
              (ConversionData.mk None (Some "") 0 None (Some 0) (Some 0) (Some Completed) None))
    as (_ & _ & _ & _ & _ & _ & Htime & _ & _ & _ & Hstatus).
  split; [exact (Htime eq_refl)|exact (Hstatus Completed eq_refl)].
Defined.

(** ** Created rules in the renderer *)

Lemma ruleOf_dropFalsy (userId : Z) (data : RuleData.t) :
  ruleOf userId data = ruleOf userId (dropFalsy data).
Proof.
  unfold ruleOf, dropFalsy. cbn.
  rewrite !numOr_truthyNum, !textOr_truthyStr, !textOrNull_truthyStr. reflexivity.
Qed.

(** An empty heading-style object given to [createFormattingRule] is an
    object, so it is stored instead of the default heading styles; with
    the stored rule every heading, whatever its level, is rendered with
    the fixed fallback style of the renderer (16, 600, 12, 6) and not with
    the sizes of [DEFAULT_HEADING_STYLES]. *)
Theorem empty_heading_styles_are_stored_and_flatten_headings
    (userId id' created updated : Z) (data : RuleData.t) (n : node) (depth : Z) :
  RuleData.headingStyles data = Some ∅ ->
  node_type n = "heading" ->
  NewRule.headingStyles (ruleOf userId data) = ∅
  /\ astToHtml n (asRow id' created updated (ruleOf userId data)) depth
     = headingElement (node_depth n) "16" "600" "12" "6"
         (astToHtml (root (node_children n))
                    (asRow id' created updated (ruleOf userId data)) depth).
Proof.
  intros Hempty. destruct n as [ty lv v o u a cs]. node_fields. intros ->.
  assert (Hstored : NewRule.headingStyles (ruleOf userId data) = ∅).
  { unfold ruleOf. cbn. rewrite Hempty. reflexivity. }
  split; [exact Hstored|].
  rewrite astToHtml_heading.
  replace (headingStyles (asRow id' created updated (ruleOf userId data)))
    with (NewRule.headingStyles (ruleOf userId data)) by reflexivity.
  rewrite Hstored, lookup_empty. reflexivity.
Qed.

Lemma empty_heading_styles_are_stored_and_flatten_headings_witness :
  astToHtml (heading 1 (Some [text "Title"])) (asRow 1 0 0 (ruleOf 7 zeroData)) 0
  = headingElement 1 "16" "600" "12" "6" "Title"
  /\ astToHtml (heading 1 (Some [text "Title"])) (asRow 1 0 0 (ruleOf 7 (nameOnly "Plain"))) 0
     = headingElement 1 "32" "900" "24" "12" "Title".
Proof.
  split; [|vm_compute; reflexivity].
  exact (proj2 (empty_heading_styles_are_stored_and_flatten_headings
                  7 1 0 0 zeroData (heading 1 (Some [text "Title"])) 0 eq_refl eq_refl)).
Defined.

(** A rule created from an input whose defaulted fields are all absent,
    0 or empty renders every Markdown source exactly like the default
    rule of the test suite, whatever id, owner, name and timestamps the
    row has. *)
Theorem rule_created_from_defaults_renders_as_the_default_rule
    (parse : string -> node) (markdown : string)
    (userId id' created updated : Z) (data : RuleData.t) :
  dropFalsy data = nameOnly (RuleData.name data) ->
  markdownToHtml parse markdown (asRow id' created updated (ruleOf userId data))
  = markdownToHtml parse markdown mockFormattingRule.
Proof.
  intros Hdefaults. rewrite ruleOf_dropFalsy, Hdefaults.
  change (asRow id' created updated (ruleOf userId (nameOnly (RuleData.name data))))
    with (withMeta mockFormattingRule id' userId (RuleData.name data) None
                   (JNum 1) (JNum 0) created updated).
  unfold markdownToHtml. cbv zeta.
  rewrite generateStyledHtml_withMeta.
  rewrite (astToHtml_ext _ mockFormattingRule (RenderEquiv_withMeta _ _ _ _ _ _ _ _ _)).
  reflexivity.
Qed.

Lemma rule_created_from_defaults_renders_as_the_default_rule_witness :
  markdownToHtml (parsesTo helloTree) "# Hello World"
    (asRow 3 1700000000000 1700000000000
       (ruleOf 7 (RuleData.mk "Mine" (Some "") (Some "") (Some 0) None None None
                              (Some 0) None None None None (Some "") None None None
                              None None (Some 0))))
  = markdownToHtml (parsesTo helloTree) "# Hello World" mockFormattingRule.
Proof.
  apply rule_created_from_defaults_renders_as_the_default_rule. reflexivity.
Defined.

(** What a stored 0 does to the document.  Orphan control can be switched
    off through [createFormattingRule]: with [preventOrphanHeadings] 0 the
    stylesheet of the stored rule has no orphan and widow block.  A zero
    margin cannot be asked for: with all four margins 0 the [@page] rule
    of the stored rule has four margins of 20mm. *)
Theorem stored_zero_flag_and_zero_margins
    (userId id' created updated : Z) (data : RuleData.t) (content : string) :
  let row := asRow id' created updated (ruleOf userId data) in
  (RuleData.preventOrphanHeadings data = Some 0 ->
   exists h1Slot h2Slot : string,
     EndsWith (generateStyledHtml content row)
       (shellAfterBody ++ h1Slot ++ "
    " ++ h2Slot ++ "

    " ++ "" ++ shellElementRules ++ content ++ shellTail))
  /\ (RuleData.marginTop data = Some 0 -> RuleData.marginRight data = Some 0 ->
      RuleData.marginBottom data = Some 0 -> RuleData.marginLeft data = Some 0 ->
      exists size rest : string,
        generateStyledHtml content row
        = shellHead ++ "@page {
      size: " ++ size ++ ";
      margin: 20mm 20mm 20mm 20mm;" ++ rest).
Proof.
  split.
  - intros Hzero. do 2 eexists.
    unfold generateStyledHtml. cbv zeta.
    replace (preventOrphanHeadings (asRow id' created updated (ruleOf userId data)))
      with (JNum 0) by (unfold asRow, ruleOf; cbn; rewrite Hzero; reflexivity).
    cbn [truthy Z.eqb negb].
    do 21 apply EndsWith_app. apply EndsWith_refl.
  - intros Ht Hr Hb Hl. do 2 eexists.
    unfold generateStyledHtml. cbv zeta.
    replace (marginTop (asRow id' created updated (ruleOf userId data)))
      with (JNum 20) by (unfold asRow, ruleOf; cbn; rewrite Ht; reflexivity).
    replace (marginRight (asRow id' created updated (ruleOf userId data)))
      with (JNum 20) by (unfold asRow, ruleOf; cbn; rewrite Hr; reflexivity).
    replace (marginBottom (asRow id' created updated (ruleOf userId data)))
      with (JNum 20) by (unfold asRow, ruleOf; cbn; rewrite Hb; reflexivity).
    replace (marginLeft (asRow id' created updated (ruleOf userId data)))
      with (JNum 20) by (unfold asRow, ruleOf; cbn; rewrite Hl; reflexivity).
    reflexivity.
Qed.

Lemma stored_zero_flag_and_zero_margins_witness :
  includes (generateStyledHtml "" (asRow 1 0 0 (ruleOf 7 zeroData))) "orphans" = false
  /\ Contains (generateStyledHtml "" (asRow 1 0 0 (ruleOf 7 zeroData)))
              "margin: 20mm 20mm 20mm 20mm;".
Proof.
  split; [vm_compute; reflexivity|].
  destruct (stored_zero_flag_and_zero_margins 7 1 0 0 zeroData "") as (_ & Hmargins).
  destruct (Hmargins eq_refl eq_refl eq_refl eq_refl) as (size & rest & ->).
  do 3 apply Contains_app_r.
  exists ";
      ", rest. reflexivity.
Defined.

(** ** The procedure of the router *)

Lemma RenderEquiv_refl (r : FormattingRule) : RenderEquiv r r.
Proof. repeat split. Qed.

(** Through the [generatePdf] procedure only the font family, the font
    size, the line height, the page size and the four margins vary: the
    document is the one of the default rule of the test suite with these
    eight values put in, each number printed as it was given (a margin of
    0 stays 0, unlike in a stored rule). *)
Theorem api_documents_are_default_rule_documents
    (parse : string -> node) (input : Api.Input) :
  markdownToHtml parse (Api.markdown input) (Api.formattingRule input)
  = markdownToHtml parse (Api.markdown input)
      (withTypography
         (withPage mockFormattingRule (JStr (Api.pageSize input))
            (Api.toJs (Api.marginTop input)) (Api.toJs (Api.marginBottom input))
            (Api.toJs (Api.marginLeft input)) (Api.toJs (Api.marginRight input)))
         (Api.fontFamily input) (Api.toJs (Api.fontSize input))
         (toString (Api.toJs (Api.lineHeight input))))
  /\ (forall content : string,
        Api.marginTop input = Api.Int 0 -> Api.marginRight input = Api.Int 0 ->
        Api.marginBottom input = Api.Int 0 -> Api.marginLeft input = Api.Int 0 ->
        exists size rest : string,
          generateStyledHtml content (Api.formattingRule input)
          = shellHead ++ "@page {
      size: " ++ size ++ ";
      margin: 0mm 0mm 0mm 0mm;" ++ rest).
Proof.
  split.
  - unfold markdownToHtml. cbv zeta.
    rewrite (astToHtml_ext (Api.formattingRule input)
               (withTypography
                  (withPage mockFormattingRule (JStr (Api.pageSize input))
                     (Api.toJs (Api.marginTop input)) (Api.toJs (Api.marginBottom input))
                     (Api.toJs (Api.marginLeft input)) (Api.toJs (Api.marginRight input)))
                  (Api.fontFamily input) (Api.toJs (Api.fontSize input))
                  (toString (Api.toJs (Api.lineHeight input)))))
      by (repeat split).
    reflexivity.
  - intros content Ht Hr Hb Hl. do 2 eexists.
    unfold generateStyledHtml, Api.formattingRule. cbv zeta.
    cbn [pageSize marginTop marginRight marginBottom marginLeft].
    rewrite Ht, Hr, Hb, Hl. reflexivity.
Qed.

Lemma api_documents_are_default_rule_documents_witness :
  Contains (generateStyledHtml "" (Api.formattingRule zeroMarginInput))
           "margin: 0mm 0mm 0mm 0mm;".
Proof.
  destruct (api_documents_are_default_rule_documents emptyParse zeroMarginInput)
    as (_ & Hzero).
  destruct (Hzero "" eq_refl eq_refl eq_refl eq_refl) as (size & rest & ->).
  do 3 apply Contains_app_r.
  exists ";
      ", rest. reflexivity.
Defined.

(** ** Keys of the heading-style mapping *)

Lemma Z_to_int_nonnil (z : Z) :
  Z.to_int z <> Decimal.Pos Decimal.Nil /\ Z.to_int z <> Decimal.Neg Decimal.Nil.
Proof.
  destruct z as [|p|p]; simpl; split; try discriminate;
    intros [= H]; exact (DecimalPos.Unsigned.to_uint_nonnil p H).
Qed.

Lemma numToString_inj (z1 z2 : Z) : numToString z1 = numToString z2 -> z1 = z2.
Proof.
  unfold numToString. intros H.
  apply DecimalZ.to_int_inj.
  destruct (Z_to_int_nonnil z1) as [Hp1 Hn1], (Z_to_int_nonnil z2) as [Hp2 Hn2].
  pose proof (NilZero.isi (Z.to_int z1) Hp1 Hn1) as H1.
  pose proof (NilZero.isi (Z.to_int z2) Hp2 Hn2) as H2.
  rewrite H in H1. rewrite H1 in H2. injection H2 as ->. reflexivity.
Qed.

(** Each heading level has a key of its own in the heading-style mapping:
    a style stored under the key of one level is never looked up for a
    heading of another level, also beyond level 6 (the key of level 10 is
    not the key of level 1). *)
Theorem heading_levels_have_distinct_keys (rules : FormattingRule) (l1 l2 : Z) :
  l1 <> l2 ->
  headingKey l1 <> headingKey l2
  /\ forall (st : HeadingStyle) (cs ts : _),
       headingStyleOf
         (withStyles rules (<[headingKey l1 := st]> (headingStyles rules)) cs ts) l2
       = headingStyleOf rules l2.
Proof.
  intros Hne.
  assert (Hkey : headingKey l1 <> headingKey l2).
  { unfold headingKey. intros H. apply Hne.
    rewrite !append_cons, !append_nil_l in H. injection H as H.
    exact (numToString_inj _ _ H). }
  split; [exact Hkey|].
  intros st cs ts. unfold headingStyleOf.
  replace (headingStyles (withStyles rules (<[headingKey l1 := st]> (headingStyles rules)) cs ts))
    with (<[headingKey l1 := st]> (headingStyles rules)) by (destruct rules; reflexivity).
  rewrite lookup_insert_ne by exact Hkey. reflexivity.
Qed.

Lemma heading_levels_have_distinct_keys_witness :
  headingKey 1 <> headingKey 10.
Proof.
  apply (heading_levels_have_distinct_keys mockFormattingRule 1 10). discriminate.
Defined.

(** ** What the engine is reached with *)

(** A local Chrome is launched only from a candidate path that is not
    empty and whose existence check returned true; a remote engine is
    connected to with the value of [BROWSER_WS_ENDPOINT], which is not
    empty. *)
Theorem engine_is_reached_through_checked_values (w : World) :
  (forall p : string,
     In (EvLaunch p) (fst (acquire w)) ->
     truthyText (BROWSER_WS_ENDPOINT w) = false
     /\ In p (chromePaths w) /\ p <> "" /\ existsSync w p = Returned true)
  /\ (forall ep : string,
        In (EvConnect ep) (fst (acquire w)) ->
        BROWSER_WS_ENDPOINT w = Some ep /\ ep <> "").
Proof.
  split.
  - intros p Hin. unfold acquire in Hin.
    destruct (truthyText (BROWSER_WS_ENDPOINT w)) eqn:Hep.
    { destruct Hin as [H | []]. discriminate. }
    split; [reflexivity|].
    destruct (findExecutable w (chromePaths w)) as [q|] eqn:Hfind; [|destruct Hin].
    destruct Hin as [[= ->] | []].
    apply findExecutable_some in Hfind as (before & after & Hpaths & Hex & _).
    assert (Hmem : In p (chromePaths w)).
    { rewrite Hpaths. apply in_or_app. right. left. reflexivity. }
    split; [exact Hmem|]. split; [|exact Hex].
    unfold chromePaths in Hmem. apply in_app_or in Hmem as [Hmem | Hmem].
    + destruct (CHROME_PATH w) as [cp|]; cbn [truthyText] in Hmem; [|destruct Hmem].
      cbn [textOr] in Hmem. destruct (String.eqb_spec cp ""); cbn [negb] in Hmem;
        [destruct Hmem|]. destruct Hmem as [<- | []]. assumption.
    + cbn [In] in Hmem. intros ->. intuition discriminate.
  - intros ep Hin. unfold acquire in Hin.
    destruct (BROWSER_WS_ENDPOINT w) as [e|]; cbn [truthyText textOr] in Hin.
    + destruct (String.eqb_spec e ""); cbn [negb] in Hin.
      * exfalso. destruct (findExecutable w (chromePaths w)); cbn in Hin;
          [destruct Hin as [H | []]; discriminate|destruct Hin].
      * destruct Hin as [[= ->] | []]. split; [reflexivity|assumption].
    + exfalso. destruct (findExecutable w (chromePaths w)); cbn in Hin;
        [destruct Hin as [H | []]; discriminate|destruct Hin].
Qed.

Lemma engine_is_reached_through_checked_values_witness :
  existsSync customChromeWorld "/opt/chrome/chrome" = Returned true.
Proof.
  destruct (engine_is_reached_through_checked_values customChromeWorld) as (Hlaunch & _).
  destruct (Hlaunch "/opt/chrome/chrome") as (_ & _ & _ & H); [|exact H].
  vm_compute. left. reflexivity.
Defined.

(** ** From the source to the document *)

(** No text is lost between the tree and the document: the escaped value
    of every text node that the renderer visits in the tree of a Markdown
    source occurs in the document made from that source. *)
Theorem document_contains_every_visited_text
    (parse : string -> node) (markdown : string) (rules : FormattingRule) (m : node) :
  Visits (parse markdown) m ->
  node_type m = "text" ->
  Contains (markdownToHtml parse markdown rules) (escapeHtml (node_value m)).
Proof.
  intros Hv Hty. unfold markdownToHtml. cbv zeta.
  destruct (generateStyledHtml_body rules) as [pre ->].
  apply Contains_app_r, Contains_app_left.
  exact (proj2 (Visits_Contains rules _ _ Hv 0) Hty).
Qed.

Lemma document_contains_every_visited_text_witness :
  Contains (markdownToHtml (parsesTo ampersandTree) "This has & characters" mockFormattingRule)
           "This has &amp; characters".
Proof.
  apply (document_contains_every_visited_text (parsesTo ampersandTree) _ _
           (text "This has & characters")); [|reflexivity].
  eapply Visits_child; [reflexivity|reflexivity|left; reflexivity|].
  eapply Visits_child; [reflexivity|reflexivity|left; reflexivity|].
  apply Visits_self.
Defined.

Lemma createFormattingRule_stores_no_falsy_value_witness :
  NewRule.fontSize (ruleOf 7 zeroData) <> 0
  /\ NewRule.description (ruleOf 7 zeroData) <> Some "".
Proof.
  destruct (createFormattingRule_stores_no_falsy_value 7 zeroData)
    as (Hsize & _ & _ & _ & _ & _ & _ & _ & _ & Hdescription & _).
  split; [exact Hsize|exact Hdescription].
Defined.

Lemma upsert_statement_is_well_formed_witness :
  size (upsertUpdateSet (Db.upsertStatement dbWorld (bareUser "u-1"))) <> 0%nat.
Proof.
  exact (proj2 (proj2 (proj2 (upsert_statement_is_well_formed dbWorld (bareUser "u-1"))))).
Defined.
